(** * Schema-drift detection and cache handling of [app.py]

    A shallow embedding of the drift-detection core of the Streamlit
    application [src/app.py]: the schema fingerprint ([gerar_hash_schema]),
    the drift check ([verificar_mudancas]), the module-level reaction to a
    detected change, the sidebar history and the memoised intent
    classifier ([classificar_intencao]).

    Python values are modelled as follows.
    - [str] is a list of Unicode code points ([pystr]); literals are
      written [py "..."], which decodes the UTF-8 bytes of the literal.
    - a [dict] whose iteration order is never observed is a [gmap]; a
      [set] is a [gset]; a [list] is a [list].
    - [None] is [None]; a raised exception is an explicit error result.
    - [st.session_state] is the record [SessionState], threaded through
      every function that reads or writes it. *)

From Stdlib Require Import NArith String Ascii.
From stdpp Require Import gmap sorting.

Local Open Scope N_scope.

(** ** Python strings *)

Abbreviation pystr := (list N).

Module PyStr.

(** Code points of a UTF-8 byte sequence (used only for literals, which
    are well-formed; a truncated sequence ends the decoding). *)
Fixpoint utf8_decode (bs : list N) : pystr :=
  match bs with
  | [] => []
  | b :: r =>
    if b <? 128 then b :: utf8_decode r
    else if b <? 224 then
      match r with
      | b1 :: r1 =>
        N.lor (N.shiftl (N.land b 31) 6) (N.land b1 63) :: utf8_decode r1
      | _ => []
      end
    else if b <? 240 then
      match r with
      | b1 :: b2 :: r2 =>
        N.lor (N.shiftl (N.land b 15) 12)
          (N.lor (N.shiftl (N.land b1 63) 6) (N.land b2 63)) :: utf8_decode r2
      | _ => []
      end
    else
      match r with
      | b1 :: b2 :: b3 :: r3 =>
        N.lor (N.shiftl (N.land b 7) 18)
          (N.lor (N.shiftl (N.land b1 63) 12)
             (N.lor (N.shiftl (N.land b2 63) 6) (N.land b3 63)))
          :: utf8_decode r3
      | _ => []
      end
  end.

Definition py (s : string) : pystr :=
  utf8_decode (map N_of_ascii (list_ascii_of_string s)).

(** [sep.join(l)] *)
Fixpoint join (sep : pystr) (l : list pystr) : pystr :=
  match l with
  | [] => []
  | [s] => s
  | s :: r => s ++ sep ++ join sep r
  end.

(** [s <= t] on [str]: lexicographic on code points. *)
Fixpoint leb (s t : pystr) : bool :=
  match s, t with
  | [], _ => true
  | _ :: _, [] => false
  | a :: s', b :: t' =>
    if a <? b then true else if b <? a then false else leb s' t'
  end.

Definition le (s t : pystr) : Prop := leb s t = true.

#[export] Instance le_dec : RelDecision le.
Proof. intros s t. unfold le. apply _. Defined.

(** [sorted(l)] for a list of [str].  The order is total and
    antisymmetric, so the result does not depend on the algorithm. *)
Definition sorted (l : list pystr) : list pystr := merge_sort le l.

End PyStr.

Import PyStr.

(** ** [json.dumps(obj, sort_keys=True)] for a [dict] from [str] to lists
    of [str], with the default [ensure_ascii=True] and separators. *)

Module Json.

Definition hexdigit (d : N) : N := if d <? 10 then 48 + d else 87 + d.

(** ['{0:04x}'.format(n)] *)
Definition hex4 (n : N) : pystr :=
  [hexdigit (n / 4096 mod 16); hexdigit (n / 256 mod 16);
   hexdigit (n / 16 mod 16); hexdigit (n mod 16)].

Definition u_escape (n : N) : pystr := [92; 117] ++ hex4 n.

(** The replacement of one code point in [encode_basestring_ascii]:
    [ESCAPE_DCT] first, then the [\uXXXX] forms, surrogate pairs above
    the basic plane; printable ASCII is kept. *)
Definition escape_char (c : N) : pystr :=
  if c =? 92 then [92; 92]
  else if c =? 34 then [92; 34]
  else if c =? 8 then [92; 98]
  else if c =? 12 then [92; 102]
  else if c =? 10 then [92; 110]
  else if c =? 13 then [92; 114]
  else if c =? 9 then [92; 116]
  else if (32 <=? c) && (c <=? 126) then [c]
  else if c <? 65536 then u_escape c
  else
    let n := c - 65536 in
    u_escape (N.lor 55296 (N.land (N.shiftr n 10) 1023))
      ++ u_escape (N.lor 56320 (N.land n 1023)).

Definition dumps_str (s : pystr) : pystr :=
  [34] ++ concat (map escape_char s) ++ [34].

Definition dumps_list (l : list pystr) : pystr :=
  [91] ++ join [44; 32] (map dumps_str l) ++ [93].

Definition dumps_item (kv : pystr * list pystr) : pystr :=
  dumps_str kv.1 ++ [58; 32] ++ dumps_list kv.2.

Definition key_le (a b : pystr * list pystr) : Prop := PyStr.le a.1 b.1.

#[export] Instance key_le_dec : RelDecision key_le.
Proof. intros a b. unfold key_le. apply _. Defined.

(** [sort_keys=True]: the items are written in the order of their keys. *)
Definition dumps (d : gmap pystr (list pystr)) : pystr :=
  [123] ++ join [44; 32] (map dumps_item (merge_sort key_le (map_to_list d)))
    ++ [125].

End Json.

(** ** [hashlib.md5(data).hexdigest()] (RFC 1321) on 32-bit words *)

Module MD5.

Definition mask32 : N := 4294967295.
Definition add32 (a b : N) : N := N.land (a + b) mask32.
Definition not32 (a : N) : N := N.lxor a mask32.
Definition rotl32 (x s : N) : N :=
  N.lor (N.land (N.shiftl x s) mask32) (N.shiftr x (32 - s)).

Definition K : list N :=
  [3614090360; 3905402710; 606105819; 3250441966; 4118548399; 1200080426;
   2821735955; 4249261313; 1770035416; 2336552879; 4294925233; 2304563134;
   1804603682; 4254626195; 2792965006; 1236535329; 4129170786; 3225465664;
   643717713; 3921069994; 3593408605; 38016083; 3634488961; 3889429448;
   568446438; 3275163606; 4107603335; 1163531501; 2850285829; 4243563512;
   1735328473; 2368359562; 4294588738; 2272392833; 1839030562; 4259657740;
   2763975236; 1272893353; 4139469664; 3200236656; 681279174; 3936430074;
   3572445317; 76029189; 3654602809; 3873151461; 530742520; 3299628645;
   4096336452; 1126891415; 2878612391; 4237533241; 1700485571; 2399980690;
   4293915773; 2240044497; 1873313359; 4264355552; 2734768916; 1309151649;
   4149444226; 3174756917; 718787259; 3951481745].

Definition shifts : list N :=
  [7; 12; 17; 22; 7; 12; 17; 22; 7; 12; 17; 22; 7; 12; 17; 22;
   5; 9; 14; 20; 5; 9; 14; 20; 5; 9; 14; 20; 5; 9; 14; 20;
   4; 11; 16; 23; 4; 11; 16; 23; 4; 11; 16; 23; 4; 11; 16; 23;
   6; 10; 15; 21; 6; 10; 15; 21; 6; 10; 15; 21; 6; 10; 15; 21].

(** Little-endian words of a 64-byte block. *)
Fixpoint words (bs : list N) : list N :=
  match bs with
  | b0 :: b1 :: b2 :: b3 :: r =>
    (b0 + 256 * b1 + 65536 * b2 + 16777216 * b3) :: words r
  | _ => []
  end.

Definition round (M : list N) (i : nat) (st : N * N * N * N) : N * N * N * N :=
  let '(a, b, c, d) := st in
  let n := N.of_nat i in
  let '(f, g) :=
    if n <? 16 then (N.lor (N.land b c) (N.land (not32 b) d), n)
    else if n <? 32 then
      (N.lor (N.land d b) (N.land (not32 d) c), (5 * n + 1) mod 16)
    else if n <? 48 then (N.lxor b (N.lxor c d), (3 * n + 5) mod 16)
    else (N.lxor c (N.lor b (not32 d)), (7 * n) mod 16) in
  let f' := add32 (add32 (add32 f a) (nth i K 0)) (nth (N.to_nat g) M 0) in
  (d, add32 b (rotl32 f' (nth i shifts 0)), b, c).

Definition compress (st : N * N * N * N) (block : list N) : N * N * N * N :=
  let M := words block in
  let '(a, b, c, d) := st in
  let '(a', b', c', d') := foldl (fun s i => round M i s) st (seq 0 64) in
  (add32 a a', add32 b b', add32 c c', add32 d d').

(** The message followed by the bit 1, zeros up to 56 modulo 64, and
    the bit length as 8 little-endian bytes. *)
Definition le_bytes (k : nat) (n : N) : list N :=
  map (fun i => N.shiftr n (8 * N.of_nat i) mod 256) (seq 0 k).

Definition pad (msg : list N) : list N :=
  let len := N.of_nat (length msg) in
  let zeros := N.to_nat ((119 - len mod 64) mod 64) in
  msg ++ [128] ++ replicate zeros 0 ++ le_bytes 8 ((8 * len) mod 2 ^ 64).

Fixpoint blocks (n : nat) (bs : list N) (st : N * N * N * N) : N * N * N * N :=
  match n with
  | O => st
  | S n' => blocks n' (drop 64 bs) (compress st (take 64 bs))
  end.

Definition digest (msg : list N) : list N :=
  let p := pad msg in
  let '(a, b, c, d) :=
    blocks (length p / 64)%nat p (1732584193, 4023233417, 2562383102, 271733878) in
  le_bytes 4 a ++ le_bytes 4 b ++ le_bytes 4 c ++ le_bytes 4 d.

Definition hex2 (b : N) : pystr := [Json.hexdigit (b / 16); Json.hexdigit (b mod 16)].

Definition hexdigest (msg : list N) : pystr := concat (map hex2 (digest msg)).

End MD5.

(** ** [str.encode()] (UTF-8)

    Surrogates and values beyond U+10FFFF cannot be encoded: Python raises
    [UnicodeEncodeError], here [None]. *)

Definition encode_char (c : N) : option (list N) :=
  if c <? 128 then Some [c]
  else if c <? 2048 then Some [192 + c / 64; 128 + c mod 64]
  else if (55296 <=? c) && (c <=? 57343) then None
  else if c <? 65536 then
    Some [224 + c / 4096; 128 + c / 64 mod 64; 128 + c mod 64]
  else if c <? 1114112 then
    Some [240 + c / 262144; 128 + c / 4096 mod 64; 128 + c / 64 mod 64;
          128 + c mod 64]
  else None.

Fixpoint encode (s : pystr) : option (list N) :=
  match s with
  | [] => Some []
  | c :: r =>
    match encode_char c, encode r with
    | Some bs, Some resto => Some (bs ++ resto)
    | _, _ => None
    end
  end.

(** ** The database, as one run of the script sees it

    Each field is the answer of one call; [None] stands for a raised
    exception (connection lost, permission denied, ...). *)

Abbreviation Schema := (gmap pystr (list pystr)).

Record Banco := {
  (** [inspect(engine).get_table_names()] *)
  get_table_names : option (list pystr);
  (** [[col['name'] for col in inspector.get_columns(tabela)]] *)
  get_columns : pystr -> option (list pystr);
  (** [conn.execute("SELECT DB_NAME()").fetchone()[0]] *)
  db_name : option pystr
}.

(** ** [st.session_state] *)

(** One entry of [historico_mudancas]; the constructor is the ["tipo"]
    key of the dict. *)
Inductive Mudanca :=
| MudancaBanco (timestamp : pystr) (banco_anterior : option pystr)
    (banco_novo : pystr)
| MudancaSchema (timestamp : pystr) (banco : pystr)
    (novas deletadas : list pystr).

(** The chat transcript ([messages]) is written only by the chat section
    and is left out. *)
Record SessionState := {
  schema_hash_teste : option pystr;
  schema_info : option Schema;
  novas_tabelas : gset pystr;
  deletadas_tabelas : gset pystr;
  total_queries : nat;
  historico_mudancas : list Mudanca;
  banco_atual : option pystr;
  cache_classificacoes : gmap pystr pystr
}.

(** Lines 23-37: the state of a fresh session. *)
Definition estado_inicial : SessionState :=
  {| schema_hash_teste := None;
     schema_info := None;
     novas_tabelas := ∅;
     deletadas_tabelas := ∅;
     total_queries := 0%nat;
     historico_mudancas := [];
     banco_atual := None;
     cache_classificacoes := ∅ |}.

(** ** [obter_banco_atual] *)

Definition obter_banco_atual (b : Banco) : pystr :=
  match db_name b with
  | Some banco => banco
  | None => py "Banco Desconhecido"
  end.

(** ** [gerar_hash_schema] *)

(** The [for tabela in tabelas] loop, started from [schema_info]. *)
Fixpoint montar_schema (b : Banco) (tabelas : list pystr)
    (schema_info : Schema) : option Schema :=
  match tabelas with
  | [] => Some schema_info
  | tabela :: resto =>
    match get_columns b tabela with
    | None => None
    | Some nomes =>
      let colunas := sorted nomes in
      montar_schema b resto (<[tabela := colunas]> schema_info)
    end
  end.

(** The result [None] is the triple [(None, None, None)] of the
    [except] branch. *)
Definition gerar_hash_schema (b : Banco) : option (pystr * Schema * pystr) :=
  match get_table_names b with
  | None => None
  | Some nomes =>
    let tabelas := sorted nomes in
    let banco_nome := obter_banco_atual b in
    match montar_schema b tabelas ∅ with
    | None => None
    | Some schema_info =>
      let schema_json := Json.dumps schema_info in
      match encode schema_json with
      | None => None
      | Some bytes =>
        let hash_atual := MD5.hexdigest bytes in
        Some (hash_atual, schema_info, banco_nome)
      end
    end
  end.

(** ** [verificar_mudancas] *)

Inductive TipoMudanca := BANCO_NOVO | SCHEMA_MUDOU.

(** The returned 6-tuple
    [(mudou, hash_anterior, hash_novo, schema, banco, tipo)]. *)
Record Retorno := {
  mudou : bool;
  ret_hash_ant : option pystr;
  ret_hash_novo : option pystr;
  ret_schema : option Schema;
  ret_banco : option pystr;
  tipo_mudanca : option TipoMudanca
}.

Inductive Excecao := AttributeError.

Inductive Resultado (A : Type) :=
| Retornou (a : A)
| Levantou (e : Excecao).
Arguments Retornou {A} a.
Arguments Levantou {A} e.

(** [agora] is the value of [datetime.now().isoformat()].  The pair holds
    what the call returns or raises and the session state it leaves.
    [list(novas)] enumerates a set in an order Python leaves open; it is
    modelled by [elements], and no property below depends on the order. *)
Definition verificar_mudancas (b : Banco) (agora : pystr) (s : SessionState)
    : Resultado Retorno * SessionState :=
  match gerar_hash_schema b with
  | None => (Retornou (Build_Retorno false None None None None None), s)
  | Some (hash_novo, schema_novo, banco_novo) =>
    match schema_hash_teste s with
    | None =>
      (Retornou (Build_Retorno false None (Some hash_novo) (Some schema_novo)
                   (Some banco_novo) None),
       {| schema_hash_teste := Some hash_novo;
          schema_info := Some schema_novo;
          novas_tabelas := novas_tabelas s;
          deletadas_tabelas := deletadas_tabelas s;
          total_queries := total_queries s;
          historico_mudancas := historico_mudancas s;
          banco_atual := Some banco_novo;
          cache_classificacoes := cache_classificacoes s |})
    | Some hash_anterior =>
      let banco_anterior := banco_atual s in
      if decide (Some banco_novo ≠ banco_anterior) then
        (Retornou (Build_Retorno true (Some hash_anterior) (Some hash_novo)
                     (Some schema_novo) (Some banco_novo) (Some BANCO_NOVO)),
         {| schema_hash_teste := Some hash_novo;
            schema_info := Some schema_novo;
            novas_tabelas := novas_tabelas s;
            deletadas_tabelas := deletadas_tabelas s;
            total_queries := total_queries s;
            historico_mudancas :=
              historico_mudancas s
                ++ [MudancaBanco agora banco_anterior banco_novo];
            banco_atual := Some banco_novo;
            cache_classificacoes := cache_classificacoes s |})
      else if decide (hash_novo ≠ hash_anterior) then
        match schema_info s with
        | None => (Levantou AttributeError, s)
        | Some schema_anterior =>
          let tabelas_anterior : gset pystr := dom schema_anterior in
          let tabelas_nova : gset pystr := dom schema_novo in
          let novas := tabelas_nova ∖ tabelas_anterior in
          let deletadas := tabelas_anterior ∖ tabelas_nova in
          (Retornou (Build_Retorno true (Some hash_anterior) (Some hash_novo)
                       (Some schema_novo) (Some banco_novo) (Some SCHEMA_MUDOU)),
           {| schema_hash_teste := Some hash_novo;
              schema_info := Some schema_novo;
              novas_tabelas := novas;
              deletadas_tabelas := deletadas;
              total_queries := total_queries s;
              historico_mudancas :=
                historico_mudancas s
                  ++ [MudancaSchema agora banco_novo (elements novas)
                        (elements deletadas)];
              banco_atual := banco_atual s;
              cache_classificacoes := cache_classificacoes s |})
        end
      else
        (Retornou (Build_Retorno false (Some hash_anterior) (Some hash_novo)
                     (Some schema_novo) (Some banco_novo) None), s)
    end
  end.

(** The reading of a returned tuple in the vocabulary of the
    specification.  The tuple [(False, None, None, None, None, None)] of an
    aborted cycle is no drift result. *)
Inductive DriftResult :=
  NoObservationYet | NoChange | DatabaseSwitch | SchemaChange.

Definition drift_result (r : Retorno) : option DriftResult :=
  match tipo_mudanca r with
  | Some BANCO_NOVO => Some DatabaseSwitch
  | Some SCHEMA_MUDOU => Some SchemaChange
  | None =>
    match ret_hash_novo r, ret_hash_ant r with
    | None, _ => None
    | Some _, None => Some NoObservationYet
    | Some _, Some _ => Some NoChange
    end
  end.

(** ** The module-level drift handling (lines 100 and 282-307)

    [st.cache_resource] memoises [conectar_banco] and
    [criar_vectordb_teste]; only the presence of the two entries is
    modelled.  The script gets past line 102 only with an engine. *)

Record CacheResource := {
  engine_em_cache : bool;
  vectordb_em_cache : bool
}.

(** [st.cache_resource.clear()] *)
Definition cache_resource_clear : CacheResource :=
  {| engine_em_cache := false; vectordb_em_cache := false |}.

Record App := {
  session : SessionState;
  recursos : CacheResource
}.

Definition app_inicial : App :=
  {| session := estado_inicial; recursos := cache_resource_clear |}.

(** One run of the script down to line 307.  The [st.expander] block only
    displays.  An exception of [verificar_mudancas] ends the run. *)
Definition ciclo (b : Banco) (agora : pystr) (a : App) : Resultado Retorno * App :=
  let recursos1 :=
    {| engine_em_cache := true;
       vectordb_em_cache := vectordb_em_cache (recursos a) |} in
  match verificar_mudancas b agora (session a) with
  | (Levantou e, s') => (Levantou e, {| session := s'; recursos := recursos1 |})
  | (Retornou r, s') =>
    let recursos2 := if mudou r then cache_resource_clear else recursos1 in
    (Retornou r,
     {| session := s';
        recursos := {| engine_em_cache := engine_em_cache recursos2;
                       vectordb_em_cache := true |} |})
  end.

(** ** The sidebar history (lines 342-354) *)

(** [l[-n:]]; with [n = 0] the slice [l[-0:]] is the whole list. *)
Definition ultimos {A} (n : nat) (l : list A) : list A :=
  match n with
  | O => l
  | _ => drop (length l - n) l
  end.

(** [reversed(l[-n:])] *)
Definition recentes {A} (n : nat) (l : list A) : list A :=
  reverse (ultimos n l).

(** The records the sidebar shows, in the order it shows them. *)
Definition historico_sidebar (s : SessionState) : list Mudanca :=
  recentes 5 (historico_mudancas s).

(** ** [classificar_intencao] *)

Definition categorias_validas : list pystr :=
  [py "SAUDACAO"; py "GENERICA"; py "QUERY_SQL"; py "IRRELEVANTE"].

(** The f-string sent to the model. *)
Definition prompt_classificacao (tabelas_str pergunta : pystr) : pystr :=
  py "Você é um classificador de intenções para assistente SQL.

TABELAS DISPONÍVEIS: " ++ tabelas_str ++ py "

PERGUNTA DO USUÁRIO: " ++ [34] ++ pergunta ++ [34] ++ py "

Classifique em UMA categoria:

1. SAUDACAO - Cumprimentos (oi, olá, bom dia, boa noite)
2. GENERICA - Perguntas sobre o sistema (" ++ [34] ++ py "como funciona?"
  ++ [34] ++ py ", " ++ [34] ++ py "o que você faz?" ++ [34] ++ py ")
3. QUERY_SQL - Pergunta que requer consulta SQL
4. IRRELEVANTE - Texto sem sentido

REGRAS:
- Se menciona dados/tabelas/análises → QUERY_SQL
- Se pergunta sobre sistema → GENERICA
- Se é cumprimento → SAUDACAO
- Se não faz sentido → IRRELEVANTE

Responda APENAS a categoria (uma palavra).

CATEGORIA:".

Definition guardar_classificacao (chave categoria : pystr) (s : SessionState)
    : SessionState :=
  {| schema_hash_teste := schema_hash_teste s;
     schema_info := schema_info s;
     novas_tabelas := novas_tabelas s;
     deletadas_tabelas := deletadas_tabelas s;
     total_queries := total_queries s;
     historico_mudancas := historico_mudancas s;
     banco_atual := banco_atual s;
     cache_classificacoes := <[chave := categoria]> (cache_classificacoes s) |}.

Section Classificador.

(** The built-in [str.lower], [str.upper] and [str.strip] (full Unicode
    case mapping and white space) are taken as given. *)
Variables str_lower str_upper str_strip : pystr -> pystr.

(** [llm] answers one call of [llm.invoke(prompt).content]; [None] is any
    exception raised inside the [try] block.  The third component of the
    result lists the prompts sent to the model during the call. *)
Definition classificar_intencao (llm : pystr -> option pystr)
    (pergunta : pystr) (tabelas_conhecidas : list pystr) (s : SessionState)
    : pystr * SessionState * list pystr :=
  let pergunta_norm := str_strip (str_lower pergunta) in
  match cache_classificacoes s !! pergunta_norm with
  | Some categoria => (categoria, s, [])
  | None =>
    let tabelas_str := join (py ", ") tabelas_conhecidas in
    let prompt := prompt_classificacao tabelas_str pergunta in
    match llm prompt with
    | None => (py "QUERY_SQL", s, [prompt])
    | Some content =>
      let categoria := str_upper (str_strip content) in
      let categoria :=
        if decide (categoria ∈ categorias_validas) then categoria
        else py "QUERY_SQL" in
      (categoria, guardar_classificacao pergunta_norm categoria s, [prompt])
    end
  end.

(** ** Sessions: script runs and questions, in any order

    Of the handling of a question only the classification is modelled;
    the rest of the chat section writes [messages] and [total_queries]
    and none of the state below. *)

Inductive Evento :=
| Execucao (b : Banco) (agora : pystr)
| Pergunta (llm : pystr -> option pystr) (pergunta : pystr)
    (tabelas : list pystr).

Definition passo (a : App) (e : Evento) : App :=
  match e with
  | Execucao b agora => (ciclo b agora a).2
  | Pergunta llm pergunta tabelas =>
    {| session := (classificar_intencao llm pergunta tabelas (session a)).1.2;
       recursos := recursos a |}
  end.

Definition executar (eventos : list Evento) (a : App) : App :=
  foldl passo a eventos.

(** Whether an event is a script run that detected a drift. *)
Definition detectou (a : App) (e : Evento) : bool :=
  match e with
  | Execucao b agora =>
    match (ciclo b agora a).1 with
    | Retornou r => mudou r
    | Levantou _ => false
    end
  | Pergunta _ _ _ => false
  end.

(** The number of drifts detected along a session. *)
Fixpoint deteccoes (eventos : list Evento) (a : App) : nat :=
  match eventos with
  | [] => 0%nat
  | e :: resto =>
    ((if detectou a e then 1 else 0) + deteccoes resto (passo a e))%nat
  end.

End Classificador.

(** ** The ASCII fragment of the [str] methods, for concrete sessions *)

Module PyAscii.

Definition lower (s : pystr) : pystr :=
  map (fun c => if (65 <=? c) && (c <=? 90) then c + 32 else c) s.

Definition upper (s : pystr) : pystr :=
  map (fun c => if (97 <=? c) && (c <=? 122) then c - 32 else c) s.

(** The ASCII code points for which [str.isspace] holds. *)
Definition isspace (c : N) : bool :=
  ((9 <=? c) && (c <=? 13)) || ((28 <=? c) && (c <=? 32)).

Fixpoint lstrip (s : pystr) : pystr :=
  match s with
  | c :: r => if isspace c then lstrip r else s
  | [] => []
  end.

Definition strip (s : pystr) : pystr := reverse (lstrip (reverse (lstrip s))).

End PyAscii.

(** ** Concrete databases *)

(** A readable database with the given name answer and tables, listed in
    the given order; a table that is not listed cannot be inspected. *)
Definition banco_de (nome : option pystr) (tabelas : list (pystr * list pystr))
    : Banco :=
  {| get_table_names := Some (tabelas.*1);
     get_columns := fun t => (list_to_map tabelas : Schema) !! t;
     db_name := nome |}.

(** A database whose catalog cannot be read. *)
Definition banco_inacessivel : Banco :=
  {| get_table_names := None;
     get_columns := fun _ => None;
     db_name := None |}.

(** ** Vocabulary of the properties *)

(** The drift result of a cycle, if it produced one. *)
Definition drift_de (res : Resultado Retorno) : option DriftResult :=
  match res with
  | Retornou r => drift_result r
  | Levantou _ => None
  end.

(** Two databases hold the same tables with the same columns, each
    enumerated in its own order. *)
Definition mesmo_conteudo (b1 b2 : Banco) : Prop :=
  option_Forall2 (≡ₚ) (get_table_names b1) (get_table_names b2)
  ∧ ∀ t, option_Forall2 (≡ₚ) (get_columns b1 t) (get_columns b2 t).

(** The table or column catalog cannot be read: the enumeration of the
    tables raises, or the inspection of one of the tables does. *)
Definition catalogo_ilegivel (b : Banco) : Prop :=
  match get_table_names b with
  | None => True
  | Some nomes => ∃ t, t ∈ nomes ∧ get_columns b t = None
  end.

(** The tuple returned by an aborted cycle. *)
Definition retorno_abortado : Retorno :=
  Build_Retorno false None None None None None.

(** The stored fingerprint, snapshot and identity are all present or all
    absent. *)
Definition coerente (s : SessionState) : Prop :=
  (schema_hash_teste s = None ∧ schema_info s = None ∧ banco_atual s = None)
  ∨ (is_Some (schema_hash_teste s) ∧ is_Some (schema_info s)
     ∧ is_Some (banco_atual s)).

(** The most recent schema record of the ledger. *)
Fixpoint ultima_mudanca_schema (h : list Mudanca)
    : option (list pystr * list pystr) :=
  match h with
  | [] => None
  | m :: resto =>
    match ultima_mudanca_schema resto with
    | Some r => Some r
    | None =>
      match m with
      | MudancaSchema _ _ novas deletadas => Some (novas, deletadas)
      | MudancaBanco _ _ _ => None
      end
    end
  end.

(** The transient sets hold the sets of the most recent schema record,
    and are empty while there is none. *)
Definition reflete_ultimo_schema (s : SessionState) : Prop :=
  match ultima_mudanca_schema (historico_mudancas s) with
  | Some (novas, deletadas) =>
    novas_tabelas s = list_to_set novas
    ∧ deletadas_tabelas s = list_to_set deletadas
  | None => novas_tabelas s = ∅ ∧ deletadas_tabelas s = ∅
  end.

(** Every memoised category is one of the four valid ones. *)
Definition cache_valido (s : SessionState) : Prop :=
  ∀ chave categoria,
    cache_classificacoes s !! chave = Some categoria →
    categoria ∈ categorias_validas.

(** What the cycle observed is stored as the new baseline. *)
Definition baseline_substituida (b : Banco) (s' : SessionState) : Prop :=
  ∃ hash_novo schema_novo banco_novo,
    gerar_hash_schema b = Some (hash_novo, schema_novo, banco_novo)
    ∧ schema_hash_teste s' = Some hash_novo
    ∧ schema_info s' = Some schema_novo
    ∧ banco_atual s' = Some banco_novo.

(** ** Concrete scenarios *)

Definition tabelas_X : list (pystr * list pystr) :=
  [(py "T2", [py "id"]); (py "T1", [py "nome"; py "id"])].

(** The same content as [tabelas_X], retrieved in another order. *)
Definition tabelas_X' : list (pystr * list pystr) :=
  [(py "T1", [py "id"; py "nome"]); (py "T2", [py "id"])].

Definition tabelas_Y : list (pystr * list pystr) :=
  [(py "T2", [py "id"]); (py "T3", [py "preco"])].

Definition t0 : pystr := py "2024-05-01T10:00:00.000000".
Definition t1 : pystr := py "2024-05-01T10:05:00.000000".
Definition t2 : pystr := py "2024-05-01T10:10:00.000000".

Definition banco_A_X : Banco := banco_de (Some (py "A")) tabelas_X.
Definition banco_B_X : Banco := banco_de (Some (py "B")) tabelas_X.
Definition banco_A_Y : Banco := banco_de (Some (py "A")) tabelas_Y.

(** The snapshot and the fingerprint of [tabelas_X]. *)
Definition schema_X : Schema :=
  <[py "T1" := [py "id"; py "nome"]]> (<[py "T2" := [py "id"]]> ∅).
Definition hash_X : pystr := py "4870f4c42b0ee93de4773d31abe7e843".

(** The session after a first run on database A with [tabelas_X]. *)
Definition sessao_A_X : SessionState :=
  (verificar_mudancas banco_A_X t0 estado_inicial).2.

Definition banco_B_Y : Banco := banco_de (Some (py "B")) tabelas_Y.

(** Database A with [tabelas_X], when the query of its name fails. *)
Definition banco_sem_nome_X : Banco := banco_de None tabelas_X.

(** The application after a first run on database A with [tabelas_X]. *)
Definition app_A_X : App := (ciclo banco_A_X t0 app_inicial).2.

(** A question answered with a greeting by the model. *)
Definition pergunta_oi : Evento :=
  Pergunta (fun _ => Some (py "Saudacao ")) (py " Oi") [py "T1"; py "T2"].

(** [app_A_X] after that question, with the ASCII [str] methods. *)
Definition app_A_X_oi : App :=
  passo PyAscii.lower PyAscii.upper PyAscii.strip app_A_X pergunta_oi.

(** A session: the baseline, a question, a schema change, a switch of
    database, a run without change and a run with the database down. *)
Definition sessao_exemplo : list Evento :=
  [Execucao banco_A_X t0; pergunta_oi; Execucao banco_A_Y t1;
   Execucao banco_B_Y t2; Execucao banco_B_Y t2;
   Execucao banco_inacessivel t2].

Definition app_exemplo : App :=
  executar PyAscii.lower PyAscii.upper PyAscii.strip sessao_exemplo
    app_inicial.

(** A model that cannot be reached. *)
Definition llm_fora_do_ar : pystr -> option pystr := fun _ => None.

(** ** Vocabulary of the further properties *)

(** A lower-case hexadecimal digit. *)
Definition digito_hex (c : N) : Prop := 48 ≤ c ≤ 57 ∨ 97 ≤ c ≤ 102.

(** The identity in force after the records [h], starting from [base]. *)
Fixpoint banco_apos (base : option pystr) (h : list Mudanca) : option pystr :=
  match h with
  | [] => base
  | MudancaBanco _ _ novo :: resto => banco_apos (Some novo) resto
  | MudancaSchema _ _ _ _ :: resto => banco_apos base resto
  end.

(** The records [h] fit together from the identity [base] on: a switch
    record leaves the identity in force for another one, a schema record
    names the identity in force, and its two lists are duplicate-free and
    share no table. *)
Fixpoint encadeado (base : option pystr) (h : list Mudanca) : Prop :=
  match h with
  | [] => True
  | MudancaBanco _ anterior novo :: resto =>
    anterior = base ∧ anterior ≠ Some novo ∧ encadeado (Some novo) resto
  | MudancaSchema _ banco novas deletadas :: resto =>
    base = Some banco ∧ NoDup novas ∧ NoDup deletadas
    ∧ (∀ t, t ∈ novas → t ∉ deletadas)
    ∧ encadeado base resto
  end.

(** What a session keeps true of the ledger. *)
Definition ledger_ok (s : SessionState) : Prop :=
  ∃ base,
    encadeado base (historico_mudancas s)
    ∧ banco_apos base (historico_mudancas s) = banco_atual s
    ∧ (schema_hash_teste s = None → historico_mudancas s = []).


(** ** The change banner (lines 284-302)

    The calls of [st.error], [st.code], ... in the order the script makes
    them.  The layout ([st.expander], [st.columns]) is left out. *)

Inductive Widget :=
| st_error (texto : pystr)
| st_code (texto : pystr)
| st_info (texto : pystr)
| st_warning (texto : pystr)
| st_success (texto : pystr).

(** What the subscripts of the banner can raise. *)
Inductive ErroExibicao := IndexError | KeyError | TypeError.

(** [f"{x}"] for a value that is a [str] or [None]. *)
Definition fmt (o : option pystr) : pystr :=
  match o with
  | Some s => s
  | None => py "None"
  end.

(** The body of [with st.expander(...)], given the tuple returned by
    [verificar_mudancas] and the session state it left.  Iterating a set
    ([', '.join(novas_tabelas)]) is modelled by [elements]. *)
Definition exibir_mudanca (r : Retorno) (s : SessionState)
    : ErroExibicao + list Widget :=
  match tipo_mudanca r with
  | Some BANCO_NOVO =>
    match last (historico_mudancas s) with
    | None => inl IndexError
    | Some (MudancaSchema _ _ _ _) => inl KeyError
    | Some (MudancaBanco _ banco_anterior _) =>
      inr [st_error (py "🔄 **NOVO BANCO DETECTADO!**");
           st_code (py "Banco Anterior: " ++ fmt banco_anterior ++ [10]
                      ++ py "Banco Novo: " ++ fmt (ret_banco r));
           st_info (py "✅ Sistema recarregado para o banco: **"
                      ++ fmt (ret_banco r) ++ py "**")]
    end
  | Some SCHEMA_MUDOU =>
    match ret_hash_ant r, ret_hash_novo r with
    | Some hash_ant, Some hash_novo =>
      inr ([st_warning (py "✅ Schema Atualizado em **" ++ fmt (ret_banco r)
                          ++ py "**!");
            st_code (py "Anterior: " ++ take 12 hash_ant ++ py "..." ++ [10]
                       ++ py "Novo: " ++ take 12 hash_novo ++ py "...")]
           ++ (if decide (novas_tabelas s = ∅) then []
               else [st_success (py "➕ **Novas:** "
                       ++ join (py ", ") (elements (novas_tabelas s)))])
           ++ (if decide (deletadas_tabelas s = ∅) then []
               else [st_error (py "➖ **Removidas:** "
                       ++ join (py ", ") (elements (deletadas_tabelas s)))])
           ++ [st_info (py "🔄 Sistema recarregado! Faça perguntas sobre as novas tabelas.")])
    | _, _ => inl TypeError
    end
  | None => inr []
  end.

(** ** The inspector in full

    [extrair_schema_completo] reads more of the catalog than
    [gerar_hash_schema]: types, nullability, primary and foreign keys. *)

Record Coluna := {
  col_name : pystr;
  (** [str(col['type'])] *)
  col_type : pystr;
  col_nullable : bool
}.

Record ChaveEstrangeira := {
  constrained_columns : list pystr;
  referred_table : pystr;
  referred_columns : list pystr
}.

Record Inspector := {
  i_table_names : option (list pystr);
  i_columns : pystr -> option (list Coluna);
  (** [inspector.get_pk_constraint(t).get('constrained_columns', [])] *)
  i_pk_constraint : pystr -> option (list pystr);
  i_foreign_keys : pystr -> option (list ChaveEstrangeira);
  i_db_name : option pystr
}.

(** What [gerar_hash_schema] and [obter_banco_atual] see of it. *)
Definition banco_do_inspector (i : Inspector) : Banco :=
  {| get_table_names := i_table_names i;
     get_columns := fun t => map col_name <$> i_columns i t;
     db_name := i_db_name i |}.

(** ** [extrair_schema_completo] *)

(** A document of the semantic index; [metadata] is a dict from [str] to
    [str]. *)
Record Doc := {
  text : pystr;
  metadata : gmap pystr pystr
}.

(** One item of [detalhes_colunas]. *)
Definition descrever_coluna (pk_cols : list pystr) (col : Coluna) : pystr :=
  let tipo := col_type col in
  let nulo := if col_nullable col then py "nullable" else py "NOT NULL" in
  let extra := if decide (col_name col ∈ pk_cols) then py ", PK" else [] in
  col_name col ++ py " (" ++ tipo ++ py ", " ++ nulo ++ extra ++ py ")".

(** One item of [fk_desc]. *)
Definition descrever_fk (fk : ChaveEstrangeira) : pystr :=
  let const := join (py ", ") (constrained_columns fk) in
  let ref := referred_table fk ++ py "."
             ++ join (py ", ") (referred_columns fk) in
  const ++ py " → " ++ ref.

(** The body of the loop over the tables; the dict [descricoes] is empty,
    so every description is the default one. *)
Definition documentar_tabela (i : Inspector) (banco_nome tabela : pystr)
    : option Doc :=
  match i_columns i tabela, i_pk_constraint i tabela,
        i_foreign_keys i tabela with
  | Some colunas_info, Some pk_cols, Some fks =>
    let detalhes_colunas := map (descrever_coluna pk_cols) colunas_info in
    let colunas_str := join (py ", ") detalhes_colunas in
    let fk_info :=
      match fks with
      | [] => []
      | _ => [10] ++ py "  Relações: "
             ++ join (py " | ") (map descrever_fk fks)
      end in
    let descricao := py "Tabela de dados" in
    let doc_text := py "[" ++ banco_nome ++ py "] Tabela " ++ tabela
                    ++ py " (" ++ descricao ++ py "):" ++ [10] ++ py "  "
                    ++ colunas_str ++ fk_info in
    Some {| text := doc_text;
            metadata := <[py "tabela" := tabela]>
                          (<[py "tipo" := py "schema"]>
                             (<[py "banco" := banco_nome]> ∅)) |}
  | _, _, _ => None
  end.

Fixpoint documentar_tabelas (i : Inspector) (banco_nome : pystr)
    (tabelas : list pystr) : option (list Doc) :=
  match tabelas with
  | [] => Some []
  | tabela :: resto =>
    match documentar_tabela i banco_nome tabela,
          documentar_tabelas i banco_nome resto with
    | Some doc, Some docs => Some (doc :: docs)
    | _, _ => None
    end
  end.

(** The pair [(schema_docs, banco_nome)]; the [except] branch gives
    [([], "Desconhecido")]. *)
Definition extrair_schema_completo (i : Inspector) : list Doc * pystr :=
  match i_table_names i with
  | None => ([], py "Desconhecido")
  | Some tabelas =>
    let banco_nome := obter_banco_atual (banco_do_inspector i) in
    match documentar_tabelas i banco_nome tabelas with
    | Some schema_docs => (schema_docs, banco_nome)
    | None => ([], py "Desconhecido")
    end
  end.

(** ** [criar_vectordb_teste] *)

Definition docs_base : list Doc :=
  [{| text := py "SQL Server: COUNT" ++ [40; 42; 41]
              ++ py ", SUM(), AVG(), YEAR(), MONTH(), TOP N";
      metadata := {[py "tipo" := py "funcoes"]} |};
   {| text := py "JOIN: FROM Clientes c JOIN Vendas v ON c.id = v.cliente_id";
      metadata := {[py "tipo" := py "joins"]} |};
   {| text := py "GROUP BY obrigatório com agregações. Ex: SELECT estado, COUNT"
              ++ [40; 42; 41] ++ py " FROM Clientes GROUP BY estado";
      metadata := {[py "tipo" := py "sintaxe"]} |}].

(** The part of the returned tuple the script goes on to read:
    [todos_docs] and [banco_nome].  The collection holds the same
    documents with their embeddings; embedding and retrieval are the
    business of the libraries. *)
Record VectorDB := {
  docs_info : list Doc;
  vdb_banco_nome : pystr
}.

Definition criar_vectordb_teste (i : Inspector) : VectorDB :=
  let '(docs_schema, banco_nome) := extrair_schema_completo i in
  {| docs_info := docs_base ++ docs_schema; vdb_banco_nome := banco_nome |}.

(** [[d for d in docs_info if d["metadata"].get("tipo") == "schema"]] *)
Definition tabelas_detectadas (docs : list Doc) : list Doc :=
  filter (fun d => metadata d !! py "tipo" = Some (py "schema")) docs.

(** The metric [num_tabelas] (line 315). *)
Definition num_tabelas (docs : list Doc) : nat :=
  length (tabelas_detectadas docs).

(** [[d["metadata"]["tabela"] for d in ... ]] (line 498); a document
    without the key raises [KeyError], here [None]. *)
Definition tabelas_do_chat (docs : list Doc) : option (list pystr) :=
  mapM (fun d => metadata d !! py "tabela") (tabelas_detectadas docs).

(** ** One run of the script, down to line 307

    [st.cache_resource] now holds the memoised index itself. *)

Record Streamlit := {
  st_session : SessionState;
  st_engine : bool;
  st_vectordb : option VectorDB
}.

Definition streamlit_inicial : Streamlit :=
  {| st_session := estado_inicial; st_engine := false; st_vectordb := None |}.

(** How a run ends: with the index in hand at line 307, or with an
    exception of the drift check or of the banner. *)
Inductive Fim :=
| Concluiu (r : Retorno) (avisos : list Widget) (v : VectorDB)
| FalhouVerificacao (e : Excecao)
| FalhouExibicao (e : ErroExibicao).

Definition script (i : Inspector) (agora : pystr) (a : Streamlit)
    : Fim * Streamlit :=
  match verificar_mudancas (banco_do_inspector i) agora (st_session a) with
  | (Levantou e, s') =>
    (FalhouVerificacao e,
     {| st_session := s'; st_engine := true; st_vectordb := st_vectordb a |})
  | (Retornou r, s') =>
    if mudou r then
      match exibir_mudanca r s' with
      | inl e =>
        (FalhouExibicao e,
         {| st_session := s'; st_engine := true;
            st_vectordb := st_vectordb a |})
      | inr avisos =>
        let v := criar_vectordb_teste i in
        (Concluiu r avisos v,
         {| st_session := s'; st_engine := false; st_vectordb := Some v |})
      end
    else
      let v := match st_vectordb a with
               | Some v => v
               | None => criar_vectordb_teste i
               end in
      (Concluiu r [] v,
       {| st_session := s'; st_engine := true; st_vectordb := Some v |})
  end.

(** The part of the state that [ciclo] follows. *)
Definition app_de (a : Streamlit) : App :=
  {| session := st_session a;
     recursos := {| engine_em_cache := st_engine a;
                    vectordb_em_cache := bool_decide (is_Some (st_vectordb a)) |} |}.

(** The catalog can be read in full. *)
Definition legivel (i : Inspector) (nomes : list pystr) : Prop :=
  i_table_names i = Some nomes
  ∧ ∀ t, t ∈ nomes →
      is_Some (i_columns i t) ∧ is_Some (i_pk_constraint i t)
      ∧ is_Some (i_foreign_keys i t).

(** A readable inspector over the given tables, without keys. *)
Definition inspector_de (nome : option pystr)
    (tabelas : list (pystr * list pystr)) : Inspector :=
  {| i_table_names := Some (tabelas.*1);
     i_columns := fun t =>
       map (fun c => {| col_name := c; col_type := py "INTEGER";
                        col_nullable := false |})
         <$> (list_to_map tabelas : Schema) !! t;
     i_pk_constraint := fun t =>
       (fun _ => []) <$> (list_to_map tabelas : Schema) !! t;
     i_foreign_keys := fun t =>
       (fun _ => []) <$> (list_to_map tabelas : Schema) !! t;
     i_db_name := nome |}.

Definition inspector_inacessivel : Inspector :=
  {| i_table_names := None;
     i_columns := fun _ => None;
     i_pk_constraint := fun _ => None;
     i_foreign_keys := fun _ => None;
     i_db_name := None |}.

(** A schema document of table [t] in database [banco_nome]. *)
Definition doc_de_tabela (banco_nome t : pystr) (d : Doc) : Prop :=
  metadata d !! py "tabela" = Some t
  ∧ metadata d !! py "tipo" = Some (py "schema")
  ∧ metadata d !! py "banco" = Some banco_nome.

(** Some read of [extrair_schema_completo] raises. *)
Definition leitura_falha (i : Inspector) : Prop :=
  match i_table_names i with
  | None => True
  | Some nomes =>
    ∃ t, t ∈ nomes
         ∧ (i_columns i t = None ∨ i_pk_constraint i t = None
            ∨ i_foreign_keys i t = None)
  end.

(** A session of script runs. *)
Definition executar_scripts (runs : list (Inspector * pystr)) (a : Streamlit)
    : Streamlit :=
  foldl (fun a r => (script r.1 r.2 a).2) a runs.

(** The index in the cache matches the stored baseline: it lists the
    tables of the stored snapshot under the stored identity. *)
Definition indice_em_dia (a : Streamlit) : Prop :=
  ∃ v m n tabelas,
    st_vectordb a = Some v
    ∧ is_Some (schema_hash_teste (st_session a))
    ∧ schema_info (st_session a) = Some m
    ∧ banco_atual (st_session a) = Some n
    ∧ tabelas_do_chat (docs_info v) = Some tabelas
    ∧ dom m = list_to_set tabelas
    ∧ vdb_banco_nome v = n.

(** An inspector that reads everything or nothing. *)
Definition tudo_ou_nada (i : Inspector) : Prop :=
  (∃ nomes, legivel i nomes) ∨ i_table_names i = None.

Definition inspector_A_X : Inspector := inspector_de (Some (py "A")) tabelas_X.
Definition inspector_A_Y : Inspector := inspector_de (Some (py "A")) tabelas_Y.


From Stdlib Require DecimalString.

(** ** [str.startswith] and [str.replace] *)

(** [s.startswith(prefixo)] *)
Fixpoint startswith (s prefixo : pystr) : bool :=
  match prefixo, s with
  | [], _ => true
  | _ :: _, [] => false
  | p :: ps, c :: r => (p =? c) && startswith r ps
  end.

(** [s.replace(old, new)] for a non-empty [old]: the occurrences are
    taken from left to right and do not overlap.  [saltar] counts the
    characters of an occurrence that are still to be passed over. *)
Fixpoint replace_aux (old new : pystr) (saltar : nat) (s : pystr) : pystr :=
  match s with
  | [] => []
  | c :: r =>
    match saltar with
    | S k => replace_aux old new k r
    | O =>
      if startswith s old then new ++ replace_aux old new (length old - 1) r
      else c :: replace_aux old new 0 r
    end
  end.

Definition replace (old new s : pystr) : pystr := replace_aux old new 0 s.

(** [str(n)] for a natural number. *)
Definition str_de_nat (n : nat) : pystr :=
  py (DecimalString.NilEmpty.string_of_uint (Nat.to_uint n)).

(** ** [gerar_sql_teste] *)

(** The f-string sent to the model; [banco_nome] is the module-level
    name returned by [criar_vectordb_teste].  [novas_tabelas] is a set:
    the order in which [join] meets its elements is the one of the
    iteration, here the one of [elements]. *)
Definition prompt_sql (banco_nome pergunta contexto : pystr)
    (s : SessionState) : pystr :=
  let mensagem_extra :=
    if decide (novas_tabelas s = ∅) then []
    else py "

🆕 NOVAS TABELAS: " ++ join (py ", ") (elements (novas_tabelas s)) in
  py "Você é especialista em SQL Server (T-SQL).

BANCO: " ++ banco_nome ++ py "

SCHEMA DO BANCO:
" ++ contexto ++ mensagem_extra ++ py "

REGRAS OBRIGATÓRIAS:
1. SQL Server: use TOP N (NUNCA use LIMIT)
2. Não use SELECT * — especifique as colunas
3. Use YEAR(coluna), MONTH(coluna) para datas
4. GROUP BY obrigatório com agregações
5. Use relações FK do schema para JOINs

PERGUNTA: " ++ pergunta ++ py "

Retorne APENAS o SQL puro (sem markdown).

SQL:
".

Section GerarSql.

Variable str_strip : pystr -> pystr.

(** What the [try] block makes of the answer of the model. *)
Definition limpar_sql (content : pystr) : pystr :=
  let sql := str_strip content in
  let sql :=
    if startswith sql [96; 96; 96] then
      replace [96; 96; 96] [] (replace ([96; 96; 96] ++ py "sql") [] sql)
    else sql in
  let sql := replace [65279] [] (replace [8203] [] sql) in
  str_strip sql.

(** The result [None] is the [None] of the [except] branch; the second
    component lists the prompts sent to the model. *)
Definition gerar_sql_teste (llm : pystr -> option pystr)
    (banco_nome pergunta contexto : pystr) (s : SessionState)
    : option pystr * list pystr :=
  let prompt := prompt_sql banco_nome pergunta contexto s in
  match llm prompt with
  | Some content => (Some (limpar_sql content), [prompt])
  | None => (None, [prompt])
  end.

End GerarSql.

(** ** The chat (lines 488-606) *)

Definition resposta_saudacao : pystr :=
  py "Olá! 👋 Como posso ajudar com consultas ao banco?

💡 **Experimente:**
- Quantos clientes temos?
- Top 5 produtos mais caros
- Total de vendas por cliente".

Definition resposta_generica (banco_nome : pystr) (tabelas : list pystr)
    : pystr :=
  py "Sou um assistente SQL com IA! 🤖
                
**Banco Atual:** " ++ banco_nome ++ py "
**Tabelas disponíveis:** " ++ join (py ", ") tabelas ++ py "

**Como funciono:**
1. Você pergunta em português
2. Gero SQL automaticamente
3. Executo no banco
4. Retorno dados em tabela

**Exemplos:**
- " ++ [34] ++ py "Quantos clientes temos?" ++ [34] ++ py "
- " ++ [34] ++ py "Produtos mais caros" ++ [34] ++ py "
- " ++ [34] ++ py "Vendas por cliente" ++ [34] ++ py "
".

Definition resposta_irrelevante : pystr :=
  py "🤔 Não entendi. Posso ajudar com consultas sobre os dados. O que gostaria de saber?".

Definition resposta_sem_sql : pystr :=
  py "❌ Não consegui gerar o SQL para sua pergunta.".

(** The calls the chat makes to the outside. *)
Inductive Chamada :=
| ChamadaClassificador (prompt : pystr)
| ChamadaBusca (pergunta : pystr)
| ChamadaGerador (prompt : pystr)
| ChamadaBanco (sql : pystr).

(** How the handling of an input ends: the script goes on, [st.stop()]
    ends it, or an exception does. *)
Inductive FimChat := Respondeu | Parou | FalhouChat.

Section Chat.

Variables str_lower str_upper str_strip : pystr -> pystr.

(** [pd.DataFrame], of which the chat reads the number of rows only. *)
Variable DataFrame : Type.
Variable len_df : DataFrame -> nat.

(** One entry of [messages]; the keys ["sql"] and ["dataframe"] may be
    missing. *)
Record Mensagem := {
  role : pystr;
  content : pystr;
  msg_sql : option pystr;
  msg_dataframe : option DataFrame
}.

(** The services one input is answered with; [None] and [inl] stand for
    a raised exception, [inl] carrying [str(e)]. *)
Record Servicos := {
  (** [llm.invoke(prompt).content] in [classificar_intencao] *)
  sv_classificador : pystr -> option pystr;
  (** the documents found by [collection.query] for the embedded input *)
  sv_busca : pystr -> option (list pystr);
  (** [llm.invoke(prompt).content] in [gerar_sql_teste] *)
  sv_gerador : pystr -> option pystr;
  (** [pd.read_sql(sql, engine)] *)
  sv_read_sql : pystr -> pystr + DataFrame
}.

Definition mensagem_user (prompt : pystr) : Mensagem :=
  {| role := py "user"; content := prompt; msg_sql := None;
     msg_dataframe := None |}.

Definition mensagem_assistant (texto : pystr) : Mensagem :=
  {| role := py "assistant"; content := texto; msg_sql := None;
     msg_dataframe := None |}.

Definition com_total_queries (n : nat) (s : SessionState) : SessionState :=
  {| schema_hash_teste := schema_hash_teste s;
     schema_info := schema_info s;
     novas_tabelas := novas_tabelas s;
     deletadas_tabelas := deletadas_tabelas s;
     total_queries := n;
     historico_mudancas := historico_mudancas s;
     banco_atual := banco_atual s;
     cache_classificacoes := cache_classificacoes s |}.

(** The [else] branch of the dispatch: retrieval, generation, execution. *)
Definition responder_sql (sv : Servicos) (banco_nome prompt : pystr)
    (s : SessionState) (messages : list Mensagem)
    : FimChat * SessionState * list Mensagem * list Chamada :=
  match sv_busca sv prompt with
  | None => (FalhouChat, s, messages, [ChamadaBusca prompt])
  | Some docs_list =>
    let contexto := join [10; 10] docs_list in
    match gerar_sql_teste str_strip (sv_gerador sv) banco_nome prompt contexto s
    with
    | (None, prompts) =>
      (Parou, s, messages ++ [mensagem_assistant resposta_sem_sql],
       ChamadaBusca prompt :: map ChamadaGerador prompts)
    | (Some sql, prompts) =>
      match sv_read_sql sv sql with
      | inr df =>
        let resultado_msg := py "✅ **" ++ str_de_nat (len_df df) ++ py " registros retornados**" in
        (Respondeu, com_total_queries (total_queries s + 1) s,
         messages ++ [{| role := py "assistant"; content := resultado_msg;
                         msg_sql := Some sql; msg_dataframe := Some df |}],
         ChamadaBusca prompt :: map ChamadaGerador prompts
           ++ [ChamadaBanco sql])
      | inl e =>
        let erro_msg := py "❌ Erro ao executar: " ++ take 300 e in
        (Respondeu, s,
         messages ++ [{| role := py "assistant"; content := erro_msg;
                         msg_sql := Some sql; msg_dataframe := None |}],
         ChamadaBusca prompt :: map ChamadaGerador prompts
           ++ [ChamadaBanco sql])
      end
    end
  end.

(** The handling of one chat input, with the index [v] of the run. *)
Definition responder (sv : Servicos) (v : VectorDB) (prompt : pystr)
    (s : SessionState) (messages : list Mensagem)
    : FimChat * SessionState * list Mensagem * list Chamada :=
  let messages := messages ++ [mensagem_user prompt] in
  match tabelas_do_chat (docs_info v) with
  | None => (FalhouChat, s, messages, [])
  | Some tabelas =>
    let '(categoria, s, prompts) :=
      classificar_intencao str_lower str_upper str_strip
        (sv_classificador sv) prompt tabelas s in
    let chamadas := map ChamadaClassificador prompts in
    if decide (categoria = py "SAUDACAO") then
      (Respondeu, s, messages ++ [mensagem_assistant resposta_saudacao],
       chamadas)
    else if decide (categoria = py "GENERICA") then
      (Respondeu, s,
       messages ++ [mensagem_assistant
                      (resposta_generica (vdb_banco_nome v) tabelas)],
       chamadas)
    else if decide (categoria = py "IRRELEVANTE") then
      (Respondeu, s, messages ++ [mensagem_assistant resposta_irrelevante],
       chamadas)
    else
      let '(fim, s, messages, mais) :=
        responder_sql sv (vdb_banco_nome v) prompt s messages in
      (fim, s, messages, chamadas ++ mais)
  end.

End Chat.

Arguments role {DataFrame} _.
Arguments content {DataFrame} _.
Arguments msg_sql {DataFrame} _.
Arguments msg_dataframe {DataFrame} _.
Arguments mensagem_user {DataFrame} prompt.
Arguments mensagem_assistant {DataFrame} texto.
Arguments sv_classificador {DataFrame} _.
Arguments sv_busca {DataFrame} _.
Arguments sv_gerador {DataFrame} _.
Arguments sv_read_sql {DataFrame} _.

(** ** Vocabulary of the chat properties *)

(** A call beyond the classification: retrieval, generation, execution. *)
Definition chamada_de_consulta (c : Chamada) : Prop :=
  match c with
  | ChamadaClassificador _ => False
  | _ => True
  end.

(** A trimming: the result is a contiguous part of the argument. *)
Definition aparador (f : pystr -> pystr) : Prop :=
  ∀ s, ∃ antes depois, s = antes ++ f s ++ depois.

(** The text holds a Markdown fence: three backticks in a row. *)
Definition tem_cerca (s : pystr) : Prop :=
  ∃ antes depois, s = antes ++ [96; 96; 96] ++ depois.

(** ** The page: script run, sidebar buttons and chat input *)

Section Pagina.

Variables str_lower str_upper str_strip : pystr -> pystr.
Variable DataFrame : Type.
Variable len_df : DataFrame -> nat.

(** What the user did to trigger the run. *)
Inductive Acao :=
| SemAcao
| BotaoLimparChat
| BotaoAtualizarBanco
| Entrada (prompt : pystr) (sv : Servicos DataFrame).

Record Pagina := {
  pag_st : Streamlit;
  pag_messages : list (Mensagem DataFrame)
}.

Definition pagina_inicial : Pagina :=
  {| pag_st := streamlit_inicial; pag_messages := [] |}.

(** One run of the whole script.  A pressed button acts in the sidebar
    and calls [st.rerun()], which ends the run; the chat input is handled
    further down.  An exception ends the run where it is raised. *)
Definition interagir (i : Inspector) (agora : pystr) (acao : Acao)
    (p : Pagina) : Pagina * list Chamada :=
  match script i agora (pag_st p) with
  | (Concluiu r avisos v, a) =>
    match acao with
    | SemAcao => ({| pag_st := a; pag_messages := pag_messages p |}, [])
    | BotaoLimparChat => ({| pag_st := a; pag_messages := [] |}, [])
    | BotaoAtualizarBanco =>
      ({| pag_st := {| st_session := st_session a; st_engine := false;
                       st_vectordb := None |};
          pag_messages := pag_messages p |}, [])
    | Entrada prompt sv =>
      let '(fim, s, messages, chamadas) :=
        responder str_lower str_upper str_strip DataFrame len_df sv v prompt
          (st_session a) (pag_messages p) in
      ({| pag_st := {| st_session := s; st_engine := st_engine a;
                       st_vectordb := st_vectordb a |};
          pag_messages := messages |}, chamadas)
    end
  | (_, a) => ({| pag_st := a; pag_messages := pag_messages p |}, [])
  end.

Definition navegar (passos : list (Inspector * pystr * Acao)) (p : Pagina)
    : Pagina :=
  foldl (fun p x => (interagir x.1.1 x.1.2 x.2 p).1) p passos.

(** The answers that carry a dataframe. *)
Definition com_dataframe (messages : list (Mensagem DataFrame))
    : list (Mensagem DataFrame) :=
  filter (fun m => is_Some (msg_dataframe m)) messages.

(** No step of the session is a press of "Limpar Chat". *)
Definition sem_limpar (passos : list (Inspector * pystr * Acao)) : Prop :=
  Forall (fun x => x.2 ≠ BotaoLimparChat) passos.

End Pagina.

Arguments pag_st {DataFrame} _.
Arguments pag_messages {DataFrame} _.
Arguments com_dataframe {DataFrame} messages.
Arguments sem_limpar {DataFrame} passos.

(** ** A concrete chat *)

(** Dataframes as lists of rows. *)
Definition servicos_exemplo : Servicos (list (list pystr)) :=
  {| sv_classificador := fun _ => Some (py "query_sql");
     sv_busca := fun _ => Some [py "[A] Tabela T1"];
     sv_gerador := fun _ => Some (py "SELECT TOP 1 id FROM T1");
     sv_read_sql := fun _ => inr [[py "1"]] |}.

(** The same services with a model that greets. *)
Definition servicos_saudacao : Servicos (list (list pystr)) :=
  {| sv_classificador := fun _ => Some (py "SAUDACAO");
     sv_busca := fun _ => None;
     sv_gerador := fun _ => None;
     sv_read_sql := fun _ => inl (py "sem banco") |}.

Definition navegacao_exemplo
    : list (Inspector * pystr * Acao (list (list pystr))) :=
  [(inspector_A_X, t0, Entrada _ (py "Quantos T1?") servicos_exemplo);
   (inspector_A_X, t1, Entrada _ (py "oi") servicos_saudacao);
   (inspector_A_Y, t2, SemAcao _)].


(** ** [conectar_banco] *)

(** The variables [os.getenv] is asked for; [None] when unset. *)
Record Ambiente := {
  DB_DRIVER : option pystr;
  DB_SERVER : option pystr;
  DB_DATABASE : option pystr;
  DB_USER : option pystr;
  DB_PASSWORD : option pystr
}.

(** The characters [urllib.parse.quote] never escapes: ASCII letters,
    digits and [_.-~]. *)
Definition sempre_seguro (b : N) : bool :=
  ((65 <=? b) && (b <=? 90)) || ((97 <=? b) && (b <=? 122))
  || ((48 <=? b) && (b <=? 57))
  || (b =? 95) || (b =? 46) || (b =? 45) || (b =? 126).

(** ['{:02X}'.format(b)] digit by digit. *)
Definition hexdigit_maiusculo (d : N) : N := if d <? 10 then 48 + d else 55 + d.

Definition quote_byte (b : N) : pystr :=
  if sempre_seguro b then [b]
  else if b =? 32 then [43]
  else [37; hexdigit_maiusculo (b / 16); hexdigit_maiusculo (b mod 16)].

(** [urllib.parse.quote_plus(s)]: the UTF-8 bytes of [s], each kept,
    turned into [+] (a space) or percent-escaped.  Encoding is strict, so
    a surrogate raises. *)
Definition quote_plus (s : pystr) : option pystr :=
  match encode s with
  | Some bs => Some (concat (map quote_byte bs))
  | None => None
  end.

(** The URL built inside the [try] block; [None] when the function
    returns [None] before [create_engine] is reached. *)
Definition url_de_conexao (env : Ambiente) : option pystr :=
  let driver :=
    match DB_DRIVER env with
    | Some d => d
    | None => py "ODBC Driver 17 for SQL Server"
    end in
  match DB_SERVER env, DB_DATABASE env with
  | Some ((_ :: _) as server), Some ((_ :: _) as database) =>
    let conn_str :=
      match DB_USER env, DB_PASSWORD env with
      | Some ((_ :: _) as user), Some ((_ :: _) as password) =>
        py "DRIVER={" ++ driver ++ py "};SERVER=" ++ server ++ py ";DATABASE=" ++ database ++ py ";UID=" ++ user ++ py ";PWD=" ++ password
      | _, _ =>
        py "DRIVER={" ++ driver ++ py "};SERVER=" ++ server ++ py ";DATABASE=" ++ database ++ py ";Trusted_Connection=yes"
      end in
    match quote_plus conn_str with
    | Some params => Some (py "mssql+pyodbc:///?odbc_connect=" ++ params)
    | None => None
    end
  | _, _ => None
  end.

(** [create_engine] answers with an engine or raises ([None]); every
    exception ends in [return None]. *)
Definition conectar_banco {Engine : Type}
    (create_engine : pystr -> option Engine) (env : Ambiente)
    : option Engine :=
  match url_de_conexao env with
  | Some url => create_engine url
  | None => None
  end.

(** A character that stands for itself in the query part of a URL, or
    belongs to an escape. *)
Definition url_seguro (c : N) : Prop :=
  sempre_seguro c = true ∨ c = 43 ∨ c = 37.

(** [not x] for a value of [os.getenv]. *)
Definition ausente (o : option pystr) : Prop := o = None ∨ o = Some [].

(** The environment without user and password. *)
Definition sem_credenciais (env : Ambiente) : Ambiente :=
  {| DB_DRIVER := DB_DRIVER env; DB_SERVER := DB_SERVER env;
     DB_DATABASE := DB_DATABASE env; DB_USER := None; DB_PASSWORD := None |}.

Definition ambiente_exemplo : Ambiente :=
  {| DB_DRIVER := None;
     DB_SERVER := Some (py "srv" ++ [92] ++ py "SQLEXPRESS");
     DB_DATABASE := Some (py "Loja");
     DB_USER := Some (py "ana");
     DB_PASSWORD := Some (py "s3nh@ &=;") |}.

(** ** Reading back the serialisation *)

(** A Unicode scalar value: a code point that is no surrogate. *)
Definition escalar (c : N) : Prop := c < 55296 ∨ 57343 < c < 1114112.

Definition texto_valido (s : pystr) : Prop := Forall escalar s.

(** Every table name and column name is made of scalar values. *)
Definition schema_valido (d : Schema) : Prop :=
  ∀ k v, d !! k = Some v → texto_valido k ∧ Forall texto_valido v.

Definition item_valido (kv : pystr * list pystr) : Prop :=
  texto_valido kv.1 ∧ Forall texto_valido kv.2.

#[export] Instance escalar_dec (c : N) : Decision (escalar c).
Proof. unfold escalar. apply _. Defined.

#[export] Instance texto_valido_dec (s : pystr) : Decision (texto_valido s).
Proof. unfold texto_valido. apply _. Defined.

#[export] Instance schema_valido_dec (d : Schema) : Decision (schema_valido d).
Proof.
  change (Decision (map_Forall
    (λ k v, texto_valido k ∧ Forall texto_valido v) d)).
  apply _.
Defined.

(** Two distinct byte strings with the same MD5 digest. *)
Definition colisao_md5 (x y : list N) : Prop :=
  x ≠ y ∧ MD5.hexdigest x = MD5.hexdigest y.

Definition unhexdigit (x : N) : N := if x <? 58 then x - 48 else x - 87.

Definition unhex4 (a b c d : N) : N :=
  4096 * unhexdigit a + 256 * unhexdigit b + 16 * unhexdigit c + unhexdigit d.

(** The character after a backslash that is no [u]. *)
Definition unescape (x : N) : N :=
  if x =? 98 then 8
  else if x =? 102 then 12
  else if x =? 110 then 10
  else if x =? 114 then 13
  else if x =? 116 then 9
  else x.

(** The first character of the body of a JSON string and what follows
    its escape; a surrogate pair is read as one character. *)
Definition ler_char (s : pystr) : option (N * pystr) :=
  match s with
  | [] => None
  | c :: r =>
    if c =? 92 then
      match r with
      | [] => None
      | x :: r1 =>
        if x =? 117 then
          match r1 with
          | a :: b :: c' :: d :: r2 =>
            let n := unhex4 a b c' d in
            if (55296 <=? n) && (n <=? 56319) then
              match r2 with
              | _ :: _ :: e :: f :: g :: h :: r3 =>
                Some (65536 + (n - 55296) * 1024 + (unhex4 e f g h - 56320),
                      r3)
              | _ => None
              end
            else Some (n, r2)
          | _ => None
          end
        else Some (unescape x, r1)
      end
    else Some (c, r)
  end.

(** * Properties *)

(** ** The serialisation and the digest on known values

    The expected values are those of [json.dumps] and [hashlib.md5]. *)

Example md5_vazio : MD5.hexdigest [] = py "d41d8cd98f00b204e9800998ecf8427e".
Proof. vm_compute. reflexivity. Qed.

Example md5_abc :
  MD5.hexdigest (py "abc") = py "900150983cd24fb0d6963f7d28e17f72".
Proof. vm_compute. reflexivity. Qed.

(** Messages of 56, 64 and 119 bytes, around the padding boundaries. *)
Example md5_a56 :
  MD5.hexdigest (replicate 56 97) = py "3b0c8ac703f828b04c6c197006d17218".
Proof. vm_compute. reflexivity. Qed.

Example md5_a64 :
  MD5.hexdigest (replicate 64 97) = py "014842d480b571495a4a0363793f7367".
Proof. vm_compute. reflexivity. Qed.

Example md5_a119 :
  MD5.hexdigest (replicate 119 97) = py "8a7bd0732ed6a28ce75f6dabc90e1613".
Proof. vm_compute. reflexivity. Qed.

Example dumps_vazio : Json.dumps ∅ = py "{}".
Proof. vm_compute. reflexivity. Qed.

Example dumps_sem_colunas : Json.dumps {[py "t" := []]}
  = [123; 34; 116; 34] ++ py ": []}".
Proof. vm_compute. reflexivity. Qed.

Example dumps_X : Json.dumps schema_X
  = [123; 34] ++ py "T1" ++ [34] ++ py ": [" ++ [34] ++ py "id" ++ [34]
    ++ py ", " ++ [34] ++ py "nome" ++ [34] ++ py "], " ++ [34] ++ py "T2"
    ++ [34] ++ py ": [" ++ [34] ++ py "id" ++ [34] ++ py "]}".
Proof. vm_compute. reflexivity. Qed.

(** Escapes: a quote, a backslash, a line feed, DEL, a letter with
    cedilla, the euro sign and a code point beyond the basic plane. *)
Example md5_dumps_escapes :
  MD5.hexdigest
    (Json.dumps {[ py "Pedidosç" ++ [34; 120; 92] :=
                     [py "€😀"; py "id" ++ [10; 127]] ]})
  = py "34aa3d3295906a0d12cd3800deb855e1".
Proof. vm_compute. reflexivity. Qed.

(** ** The order on [str] *)

Module PyStrFacts.

Lemma leb_total s t : PyStr.leb s t = true ∨ PyStr.leb t s = true.
Proof.
  revert t. induction s as [|a s IH]; intros [|b t]; simpl; auto.
  destruct (N.ltb_spec a b), (N.ltb_spec b a); auto; lia.
Qed.

Lemma leb_antisym s t : PyStr.leb s t = true → PyStr.leb t s = true → s = t.
Proof.
  revert t. induction s as [|a s IH]; intros [|b t]; simpl; try done.
  destruct (N.ltb_spec a b), (N.ltb_spec b a); try done; try lia.
  intros Hst Hts. f_equal; [lia | auto].
Qed.

Lemma leb_trans s t u :
  PyStr.leb s t = true → PyStr.leb t u = true → PyStr.leb s u = true.
Proof.
  revert t u. induction s as [|a s IH]; intros [|b t] [|c u]; simpl; try done.
  destruct (N.ltb_spec a b), (N.ltb_spec b c), (N.ltb_spec a c),
    (N.ltb_spec b a), (N.ltb_spec c b), (N.ltb_spec c a);
    try done; try lia; eauto.
Qed.

#[export] Instance le_total : Total PyStr.le.
Proof. intros s t. apply leb_total. Qed.

#[export] Instance le_antisym : AntiSymm (=) PyStr.le.
Proof. intros s t. apply leb_antisym. Qed.

#[export] Instance le_trans : Transitive PyStr.le.
Proof. intros s t u. apply leb_trans. Qed.

(** [sorted] returns the same list for every enumeration order. *)
Lemma sorted_Permutation (l1 l2 : list pystr) :
  l1 ≡ₚ l2 → sorted l1 = sorted l2.
Proof.
  intros Hp. unfold sorted.
  apply (Sorted_unique PyStr.le).
  - apply Sorted_merge_sort; apply _.
  - apply Sorted_merge_sort; apply _.
  - by rewrite !merge_sort_Permutation.
Qed.

End PyStrFacts.

Import PyStrFacts.

(** ** The serialisation is plain ASCII, so encoding it never fails *)

Module JsonFacts.

Abbreviation ascii_only := (Forall (fun c : N => c < 128)).

Ltac ascii_parts :=
  simpl; repeat first [rewrite Forall_app | rewrite Forall_cons];
  repeat split; try lia; try apply Forall_nil_2.

Lemma hexdigit_ascii d : d < 16 → Json.hexdigit d < 128.
Proof. unfold Json.hexdigit. destruct (N.ltb_spec d 10); lia. Qed.

Lemma hex4_ascii n : ascii_only (Json.hex4 n).
Proof.
  unfold Json.hex4. ascii_parts; apply hexdigit_ascii; apply N.mod_lt; lia.
Qed.

Lemma u_escape_ascii n : ascii_only (Json.u_escape n).
Proof. unfold Json.u_escape. ascii_parts; apply hex4_ascii. Qed.

Lemma escape_char_ascii c : ascii_only (Json.escape_char c).
Proof.
  unfold Json.escape_char.
  repeat (destruct (_ =? _); [by ascii_parts|]).
  destruct (N.leb_spec 32 c), (N.leb_spec c 126); cbn [andb];
    try (by ascii_parts);
    (destruct (c <? 65536); [apply u_escape_ascii|];
     apply Forall_app_2; apply u_escape_ascii).
Qed.

Lemma join_ascii sep l :
  ascii_only sep → Forall ascii_only l → ascii_only (join sep l).
Proof.
  intros Hsep. induction 1 as [|s l Hs Hl IH]; simpl; [constructor|].
  destruct l; [done|]. rewrite !Forall_app. auto.
Qed.

Lemma dumps_str_ascii s : ascii_only (Json.dumps_str s).
Proof.
  unfold Json.dumps_str. ascii_parts.
  apply Forall_concat, Forall_fmap, Forall_forall.
  intros c _. apply escape_char_ascii.
Qed.

Lemma dumps_list_ascii l : ascii_only (Json.dumps_list l).
Proof.
  unfold Json.dumps_list. ascii_parts.
  apply join_ascii; [by ascii_parts|].
  apply Forall_fmap, Forall_forall. intros s _. apply dumps_str_ascii.
Qed.

Lemma dumps_item_ascii kv : ascii_only (Json.dumps_item kv).
Proof.
  unfold Json.dumps_item. rewrite !Forall_app.
  split; [apply dumps_str_ascii|]. split; [by ascii_parts|].
  apply dumps_list_ascii.
Qed.

Lemma dumps_ascii d : ascii_only (Json.dumps d).
Proof.
  unfold Json.dumps. ascii_parts.
  apply join_ascii; [by ascii_parts|].
  apply Forall_fmap, Forall_forall. intros kv _. apply dumps_item_ascii.
Qed.

Lemma encode_ascii s : ascii_only s → encode s = Some s.
Proof.
  induction 1 as [|c s Hc Hs IH]; [done|].
  simpl. rewrite IH. unfold encode_char.
  by destruct (N.ltb_spec c 128); [|lia].
Qed.

Lemma encode_dumps d : encode (Json.dumps d) = Some (Json.dumps d).
Proof. apply encode_ascii, dumps_ascii. Qed.

End JsonFacts.

(** ** The fingerprint *)

Lemma montar_schema_ordem b1 b2 tabelas m :
  (∀ t, option_Forall2 (≡ₚ) (get_columns b1 t) (get_columns b2 t)) →
  montar_schema b1 tabelas m = montar_schema b2 tabelas m.
Proof.
  intros Hcols. revert m.
  induction tabelas as [|t tabelas IH]; intros m; simpl; [done|].
  destruct (Hcols t) as [c1 c2 Hp|]; [|done].
  rewrite (sorted_Permutation _ _ Hp). apply IH.
Qed.

(** C4: the fingerprint is a function of the content of the catalog
    alone.  Two readings of the same tables and columns, whatever the
    order in which the tables and the columns of each table are
    enumerated, yield the same fingerprint (and the same snapshot). *)
Theorem gerar_hash_schema_ordem (b1 b2 : Banco) :
  mesmo_conteudo b1 b2 →
  (λ r, r.1) <$> gerar_hash_schema b1 = (λ r, r.1) <$> gerar_hash_schema b2.
Proof.
  intros [Htabs Hcols]. unfold gerar_hash_schema.
  destruct Htabs as [l1 l2 Hp|]; [|done].
  rewrite (sorted_Permutation _ _ Hp), (montar_schema_ordem b1 b2 _ _ Hcols).
  destruct (montar_schema b2 _ _) as [m|]; [|done].
  by destruct (encode _).
Qed.

Lemma mesmo_conteudo_X : mesmo_conteudo (banco_de (Some (py "A")) tabelas_X)
                           (banco_de (Some (py "A")) tabelas_X').
Proof.
  split.
  - constructor. apply Permutation_swap.
  - intros t. simpl.
    destruct (decide (t = py "T1")) as [->|H1].
    { constructor. apply Permutation_swap. }
    destruct (decide (t = py "T2")) as [->|H2].
    { constructor. done. }
    unfold tabelas_X, tabelas_X'. simpl.
    rewrite !lookup_insert_ne, lookup_empty by done. constructor.
Qed.

Lemma gerar_hash_schema_ordem_witness :
  mesmo_conteudo (banco_de (Some (py "A")) tabelas_X)
    (banco_de (Some (py "A")) tabelas_X')
  ∧ (λ r, r.1.1) <$> gerar_hash_schema (banco_de (Some (py "A")) tabelas_X)
    = Some (py "4870f4c42b0ee93de4773d31abe7e843")
  ∧ (λ r, r.1) <$> gerar_hash_schema (banco_de (Some (py "A")) tabelas_X)
    = (λ r, r.1) <$> gerar_hash_schema (banco_de (Some (py "A")) tabelas_X').
Proof.
  split; [exact mesmo_conteudo_X|]. split; [vm_compute; reflexivity|].
  exact (gerar_hash_schema_ordem _ _ mesmo_conteudo_X).
Defined.

(** ** The drift check *)

Ltac casos_verificar :=
  unfold verificar_mudancas;
  repeat match goal with
  | |- context [match gerar_hash_schema ?b with _ => _ end] =>
    let hn := fresh "hash_novo" in
    let sn := fresh "schema_novo" in
    let bn := fresh "banco_novo" in
    destruct (gerar_hash_schema b) as [[[hn sn] bn]|] eqn:?
  | |- context [match schema_hash_teste ?s with _ => _ end] =>
    destruct (schema_hash_teste s) eqn:?
  | |- context [match schema_info ?s with _ => _ end] =>
    destruct (schema_info s) eqn:?
  | |- context [decide ?P] => destruct (decide P)
  end; simpl.

Lemma gerar_hash_schema_A_X :
  gerar_hash_schema banco_A_X = Some (hash_X, schema_X, py "A").
Proof. vm_compute. reflexivity. Qed.

Lemma gerar_hash_schema_B_X :
  gerar_hash_schema banco_B_X = Some (hash_X, schema_X, py "B").
Proof. vm_compute. reflexivity. Qed.

(** C5: the first successful observation is reported as
    [NoObservationYet], appends nothing to the ledger and becomes the
    baseline. *)
Theorem primeira_observacao (b : Banco) (agora : pystr) (s : SessionState)
    (hash_novo : pystr) (schema_novo : Schema) (banco_novo : pystr) :
  schema_hash_teste s = None →
  gerar_hash_schema b = Some (hash_novo, schema_novo, banco_novo) →
  let res := (verificar_mudancas b agora s).1 in
  let s' := (verificar_mudancas b agora s).2 in
  drift_de res = Some NoObservationYet
  ∧ historico_mudancas s' = historico_mudancas s
  ∧ banco_atual s' = Some banco_novo
  ∧ schema_info s' = Some schema_novo
  ∧ schema_hash_teste s' = Some hash_novo.
Proof.
  intros Hs Hb. unfold verificar_mudancas. rewrite Hb, Hs. simpl. done.
Qed.

Lemma primeira_observacao_witness :
  schema_hash_teste estado_inicial = None
  ∧ gerar_hash_schema banco_A_X = Some (hash_X, schema_X, py "A")
  ∧ drift_de (verificar_mudancas banco_A_X t0 estado_inicial).1
    = Some NoObservationYet
  ∧ historico_mudancas sessao_A_X = []
  ∧ banco_atual sessao_A_X = Some (py "A")
  ∧ schema_info sessao_A_X = Some schema_X
  ∧ schema_hash_teste sessao_A_X = Some hash_X.
Proof.
  split; [reflexivity|]. split; [exact gerar_hash_schema_A_X|].
  exact (primeira_observacao banco_A_X t0 estado_inicial hash_X schema_X
           (py "A") eq_refl gerar_hash_schema_A_X).
Defined.

(** C3: with a baseline of identity [A], an observation of identity
    [B ≠ A] is a [DatabaseSwitch], whatever the two fingerprints are (in
    particular when they are equal): the identities are compared first. *)
Theorem troca_de_banco_tem_prioridade (b : Banco) (agora : pystr)
    (s : SessionState) (hash_anterior A hash_novo : pystr)
    (schema_novo : Schema) (B : pystr) :
  schema_hash_teste s = Some hash_anterior →
  banco_atual s = Some A →
  gerar_hash_schema b = Some (hash_novo, schema_novo, B) →
  B ≠ A →
  let res := (verificar_mudancas b agora s).1 in
  let s' := (verificar_mudancas b agora s).2 in
  drift_de res = Some DatabaseSwitch
  ∧ historico_mudancas s'
    = historico_mudancas s ++ [MudancaBanco agora (Some A) B]
  ∧ banco_atual s' = Some B.
Proof.
  intros Hh HA Hb Hne. unfold verificar_mudancas. rewrite Hb, Hh, HA.
  destruct (decide (Some B ≠ Some A)) as [_|Heq]; [done|].
  destruct Heq. congruence.
Qed.

Lemma troca_de_banco_tem_prioridade_witness :
  schema_hash_teste sessao_A_X = Some hash_X
  ∧ banco_atual sessao_A_X = Some (py "A")
  ∧ gerar_hash_schema banco_B_X = Some (hash_X, schema_X, py "B")
  ∧ drift_de (verificar_mudancas banco_B_X t1 sessao_A_X).1
    = Some DatabaseSwitch.
Proof.
  assert (Hh : schema_hash_teste sessao_A_X = Some hash_X)
    by (vm_compute; reflexivity).
  assert (HA : banco_atual sessao_A_X = Some (py "A"))
    by (vm_compute; reflexivity).
  assert (Hne : py "B" ≠ py "A") by (vm_compute; discriminate).
  split; [exact Hh|]. split; [exact HA|].
  split; [exact gerar_hash_schema_B_X|].
  exact (proj1 (troca_de_banco_tem_prioridade banco_B_X t1 sessao_A_X hash_X
                  (py "A") hash_X schema_X (py "B") Hh HA
                  gerar_hash_schema_B_X Hne)).
Defined.

(** C6: on a [SchemaChange] with old snapshot [O] and new snapshot [N],
    the added tables are the tables of [N] that are not tables of [O],
    and the removed tables are the tables of [O] that are not tables of
    [N]; both the session state and the new ledger record hold them. *)
Theorem diferenca_de_tabelas (b : Banco) (agora : pystr) (s : SessionState) :
  drift_de (verificar_mudancas b agora s).1 = Some SchemaChange →
  let s' := (verificar_mudancas b agora s).2 in
  ∃ (O N : Schema) (banco : pystr),
    schema_info s = Some O
    ∧ schema_info s' = Some N
    ∧ novas_tabelas s' = dom N ∖ dom O
    ∧ deletadas_tabelas s' = dom O ∖ dom N
    ∧ historico_mudancas s'
      = historico_mudancas s
          ++ [MudancaSchema agora banco (elements (dom N ∖ dom O))
                (elements (dom O ∖ dom N))].
Proof.
  casos_verificar; try done. intros _. eauto 10.
Qed.

Lemma diferenca_de_tabelas_witness :
  let s' := (verificar_mudancas banco_A_Y t1 sessao_A_X).2 in
  drift_de (verificar_mudancas banco_A_Y t1 sessao_A_X).1 = Some SchemaChange
  ∧ novas_tabelas s' = {[py "T3"]}
  ∧ deletadas_tabelas s' = {[py "T1"]}.
Proof.
  assert (H : drift_de (verificar_mudancas banco_A_Y t1 sessao_A_X).1
              = Some SchemaChange) by (vm_compute; reflexivity).
  split; [exact H|].
  destruct (diferenca_de_tabelas banco_A_Y t1 sessao_A_X H)
    as (O & N & banco & HO & HN & Hn & Hd & _).
  rewrite Hn, Hd.
  vm_compute in HO, HN.
  injection HO as <-. injection HN as <-.
  split; vm_compute; reflexivity.
Defined.

(** The identity test [banco_novo != banco_anterior] failed. *)
Lemma mesmo_banco (banco_novo : pystr) (banco_anterior : option pystr) :
  ¬ Some banco_novo ≠ banco_anterior → banco_anterior = Some banco_novo.
Proof.
  intros H. destruct (decide (Some banco_novo = banco_anterior)); [done|].
  by destruct H.
Qed.

(** C7 as stated fails on the first observation: the cycle writes the
    baseline, so it is no no-op, yet it appends no ledger record. *)
Lemma baseline_escrita_sem_registro :
  let s' := (verificar_mudancas banco_A_X t0 estado_inicial).2 in
  s' ≠ estado_inicial
  ∧ schema_hash_teste s' = Some hash_X
  ∧ ¬ ∃ m, historico_mudancas s' = historico_mudancas estado_inicial ++ [m].
Proof.
  split; [|split].
  - intros H. apply (f_equal schema_hash_teste) in H.
    vm_compute in H. discriminate H.
  - vm_compute. reflexivity.
  - intros [m Hm]. vm_compute in Hm. discriminate Hm.
Qed.

(** C7, amended: a call of the drift check has one of three effects.
    It writes nothing (a failed read or [NoChange]); or it stores
    fingerprint, snapshot and identity together and leaves the ledger as it
    is (the first observation); or it stores the three together and appends
    exactly one record ([DatabaseSwitch], [SchemaChange]). *)
Theorem verificar_mudancas_atomico (b : Banco) (agora : pystr)
    (s : SessionState) :
  let res := (verificar_mudancas b agora s).1 in
  let s' := (verificar_mudancas b agora s).2 in
  match drift_de res with
  | None | Some NoChange => s' = s
  | Some NoObservationYet =>
    baseline_substituida b s'
    ∧ historico_mudancas s' = historico_mudancas s
  | Some DatabaseSwitch | Some SchemaChange =>
    baseline_substituida b s'
    ∧ ∃ m, historico_mudancas s' = historico_mudancas s ++ [m]
  end.
Proof.
  casos_verificar; try done; unfold baseline_substituida; simpl.
  all: split; [eauto 10 using mesmo_banco | eauto].
Qed.

(** ** Failed reads *)

Lemma sorted_elem_of (t : pystr) (l : list pystr) : t ∈ sorted l ↔ t ∈ l.
Proof. unfold sorted. by rewrite merge_sort_Permutation. Qed.

Lemma montar_schema_None b tabelas m :
  montar_schema b tabelas m = None ↔
  ∃ t, t ∈ tabelas ∧ get_columns b t = None.
Proof.
  revert m. induction tabelas as [|t tabelas IH]; intros m; simpl.
  - split; [done|]. intros (t & Ht & _). by apply elem_of_nil in Ht.
  - destruct (get_columns b t) as [nomes|] eqn:Hc.
    + rewrite IH. split.
      * intros (t' & Ht' & Hn). exists t'. split; [by right|done].
      * intros (t' & Ht' & Hn). exists t'. split; [|done].
        apply elem_of_cons in Ht' as [->|]; [congruence|done].
    + split; [|done]. intros _. exists t. split; [by left|done].
Qed.

(** The read fails exactly when the table or column catalog cannot be
    read; a readable catalog, empty or not, always gives a fingerprint. *)
Lemma gerar_hash_schema_None (b : Banco) :
  gerar_hash_schema b = None ↔ catalogo_ilegivel b.
Proof.
  unfold gerar_hash_schema, catalogo_ilegivel.
  destruct (get_table_names b) as [nomes|]; [|done].
  destruct (montar_schema b (sorted nomes) ∅) as [m|] eqn:Hm.
  - rewrite JsonFacts.encode_dumps. split; [done|].
    intros (t & Ht & Hn).
    assert (montar_schema b (sorted nomes) ∅ = None); [|congruence].
    apply montar_schema_None. exists t. by rewrite sorted_elem_of.
  - split; [|done]. intros _.
    apply montar_schema_None in Hm as (t & Ht & Hn).
    exists t. by rewrite <-sorted_elem_of.
Qed.

(** A catalog without tables is read like any other: the snapshot is the
    empty dict and the fingerprint is the digest of "{}". *)
Example gerar_hash_schema_vazio :
  gerar_hash_schema (banco_de (Some (py "A")) [])
  = Some (py "99914b932bd37a50b983c5e7c90ae93b", ∅, py "A").
Proof. vm_compute. reflexivity. Qed.

(** A failed query of the database name is no failed read of the
    catalog: the name is replaced by a fixed one. *)
Lemma obter_banco_atual_falha (b : Banco) :
  db_name b = None → obter_banco_atual b = py "Banco Desconhecido".
Proof. unfold obter_banco_atual. by intros ->. Qed.

(** C2 as stated fails when only the query of the database name fails:
    the cycle goes on with the name "Banco Desconhecido", reports a
    [DatabaseSwitch], appends a ledger record and clears
    [st.cache_resource]. *)
Lemma falha_no_nome_vira_troca_de_banco :
  db_name banco_sem_nome_X = None
  ∧ drift_de (ciclo banco_sem_nome_X t1 app_A_X).1 = Some DatabaseSwitch
  ∧ historico_mudancas (session (ciclo banco_sem_nome_X t1 app_A_X).2)
    = [MudancaBanco t1 (Some (py "A")) (py "Banco Desconhecido")]
  ∧ engine_em_cache (recursos (ciclo banco_sem_nome_X t1 app_A_X).2) = false.
Proof. vm_compute. done. Qed.

(** C2, amended: when the table or column catalog cannot be read, the
    cycle returns the all-[None] tuple, which is no drift result; the
    session state is left as it was and [st.cache_resource] is not
    cleared. *)
Theorem leitura_falha_aborta (b : Banco) (agora : pystr) (a : App) :
  catalogo_ilegivel b →
  (ciclo b agora a).1 = Retornou retorno_abortado
  ∧ drift_de (ciclo b agora a).1 = None
  ∧ session (ciclo b agora a).2 = session a
  ∧ recursos (ciclo b agora a).2
    = {| engine_em_cache := true; vectordb_em_cache := true |}.
Proof.
  intros Hb. apply gerar_hash_schema_None in Hb.
  unfold ciclo, verificar_mudancas. rewrite Hb. done.
Qed.

Lemma leitura_falha_aborta_witness :
  catalogo_ilegivel banco_inacessivel
  ∧ (ciclo banco_inacessivel t1 app_A_X).1 = Retornou retorno_abortado
  ∧ session (ciclo banco_inacessivel t1 app_A_X).2 = session app_A_X.
Proof.
  assert (H : catalogo_ilegivel banco_inacessivel) by exact I.
  split; [exact H|].
  destruct (leitura_falha_aborta banco_inacessivel t1 app_A_X H)
    as (Hr & _ & Hs & _).
  split; [exact Hr | exact Hs].
Defined.

(** ** Invalidation *)

(** C1 as stated fails: after a [DatabaseSwitch] and after a
    [SchemaChange] the memoised classification is still there. *)
Lemma cache_sobrevive_a_mudanca :
  cache_classificacoes (session app_A_X_oi) = {[py "oi" := py "SAUDACAO"]}
  ∧ drift_de (ciclo banco_B_X t1 app_A_X_oi).1 = Some DatabaseSwitch
  ∧ cache_classificacoes (session (ciclo banco_B_X t1 app_A_X_oi).2)
    = {[py "oi" := py "SAUDACAO"]}
  ∧ drift_de (ciclo banco_A_Y t1 app_A_X_oi).1 = Some SchemaChange
  ∧ cache_classificacoes (session (ciclo banco_A_Y t1 app_A_X_oi).2)
    = {[py "oi" := py "SAUDACAO"]}.
Proof. vm_compute. done. Qed.

Lemma ciclo_cache_classificacoes (b : Banco) (agora : pystr) (a : App) :
  cache_classificacoes (session (ciclo b agora a).2)
  = cache_classificacoes (session a).
Proof. unfold ciclo. casos_verificar; done. Qed.

(** C1, amended: no cycle, whatever its result, touches the intent
    classification cache.  What a [DatabaseSwitch] or a [SchemaChange]
    clears is [st.cache_resource]; the other cycles leave it alone. *)
Theorem ciclo_preserva_cache_classificacoes (b : Banco) (agora : pystr)
    (a : App) :
  cache_classificacoes (session (ciclo b agora a).2)
  = cache_classificacoes (session a)
  ∧ engine_em_cache (recursos (ciclo b agora a).2)
    = match drift_de (ciclo b agora a).1 with
      | Some DatabaseSwitch | Some SchemaChange => false
      | _ => true
      end.
Proof.
  split; [apply ciclo_cache_classificacoes|].
  unfold ciclo. casos_verificar; done.
Qed.

(** ** The transient sets of added and removed tables *)

Lemma ultima_mudanca_schema_snoc (h : list Mudanca) (m : Mudanca) :
  ultima_mudanca_schema (h ++ [m])
  = match m with
    | MudancaSchema _ _ novas deletadas => Some (novas, deletadas)
    | MudancaBanco _ _ _ => ultima_mudanca_schema h
    end.
Proof.
  induction h as [|m' h IH]; simpl.
  - by destruct m.
  - rewrite IH. destruct m; [|done].
    by destruct (ultima_mudanca_schema h).
Qed.

(** Only a [SchemaChange] writes the two sets. *)
Lemma conjuntos_escritos_so_por_schema (b : Banco) (agora : pystr)
    (s : SessionState) :
  let res := (verificar_mudancas b agora s).1 in
  let s' := (verificar_mudancas b agora s).2 in
  drift_de res ≠ Some SchemaChange →
  novas_tabelas s' = novas_tabelas s
  ∧ deletadas_tabelas s' = deletadas_tabelas s.
Proof. casos_verificar; done. Qed.

Lemma verificar_mudancas_reflete (b : Banco) (agora : pystr)
    (s : SessionState) :
  reflete_ultimo_schema s →
  reflete_ultimo_schema (verificar_mudancas b agora s).2.
Proof.
  unfold reflete_ultimo_schema.
  casos_verificar; try done; rewrite ultima_mudanca_schema_snoc; try done.
  intros _. by rewrite !list_to_set_elements_L.
Qed.

(** C8 as stated fails: after a [SchemaChange] followed by a
    [DatabaseSwitch], the most recent change is the switch, yet the two
    sets still hold the tables of the earlier schema change; a further
    [NoChange] cycle leaves them as well. *)
Lemma conjuntos_sobrevivem_a_troca_de_banco :
  let s1 := (verificar_mudancas banco_A_Y t1 sessao_A_X).2 in
  let s2 := (verificar_mudancas banco_B_Y t2 s1).2 in
  let s3 := (verificar_mudancas banco_B_Y t2 s2).2 in
  drift_de (verificar_mudancas banco_B_Y t2 s1).1 = Some DatabaseSwitch
  ∧ last (historico_mudancas s2)
    = Some (MudancaBanco t2 (Some (py "A")) (py "B"))
  ∧ novas_tabelas s2 = {[py "T3"]}
  ∧ deletadas_tabelas s2 = {[py "T1"]}
  ∧ drift_de (verificar_mudancas banco_B_Y t2 s2).1 = Some NoChange
  ∧ novas_tabelas s3 = {[py "T3"]}
  ∧ deletadas_tabelas s3 = {[py "T1"]}.
Proof. vm_compute. done. Qed.

(** ** Sessions *)

Section Sessoes.

Variables str_lower str_upper str_strip : pystr -> pystr.

Abbreviation classificar := (classificar_intencao str_lower str_upper str_strip).
Abbreviation passo' := (passo str_lower str_upper str_strip).
Abbreviation executar' := (executar str_lower str_upper str_strip).
Abbreviation deteccoes' := (deteccoes str_lower str_upper str_strip).

(** A question touches nothing but the classification cache. *)
Lemma classificar_so_escreve_cache llm pergunta tabelas (s : SessionState) :
  let s' := (classificar llm pergunta tabelas s).1.2 in
  historico_mudancas s' = historico_mudancas s
  ∧ novas_tabelas s' = novas_tabelas s
  ∧ deletadas_tabelas s' = deletadas_tabelas s.
Proof.
  unfold classificar_intencao.
  destruct (cache_classificacoes s !! _); [done|]. by destruct (llm _).
Qed.

Lemma passo_reflete (a : App) (e : Evento) :
  reflete_ultimo_schema (session a) →
  reflete_ultimo_schema (session (passo' a e)).
Proof.
  destruct e as [b agora|llm pergunta tabelas]; simpl.
  - intros H. apply (verificar_mudancas_reflete b agora) in H.
    unfold ciclo. by destruct (verificar_mudancas b agora (session a)) as [[] ?].
  - unfold reflete_ultimo_schema.
    destruct (classificar_so_escreve_cache llm pergunta tabelas (session a))
      as (-> & -> & ->). done.
Qed.

Lemma executar_invariante (P : SessionState → Prop) :
  (∀ a e, P (session a) → P (session (passo' a e))) →
  ∀ eventos a, P (session a) → P (session (executar' eventos a)).
Proof.
  intros Hpasso. induction eventos as [|e eventos IH]; intros a Ha; [done|].
  simpl. apply IH, Hpasso, Ha.
Qed.

(** C8, amended: the two sets are written by [SchemaChange] cycles only;
    every other cycle leaves them as they were.  At every point of a
    session they are the sets of the most recent schema record of the
    ledger, and empty while there is none. *)
Theorem conjuntos_refletem_ultimo_schema :
  (∀ b agora s,
     drift_de (verificar_mudancas b agora s).1 ≠ Some SchemaChange →
     novas_tabelas (verificar_mudancas b agora s).2 = novas_tabelas s
     ∧ deletadas_tabelas (verificar_mudancas b agora s).2
       = deletadas_tabelas s)
  ∧ ∀ eventos,
      reflete_ultimo_schema (session (executar' eventos app_inicial)).
Proof.
  split; [exact conjuntos_escritos_so_por_schema|].
  intros eventos. apply executar_invariante; [exact passo_reflete|].
  by unfold reflete_ultimo_schema.
Qed.

(** ** The ledger *)

(** A step appends one record when it detects a drift and none
    otherwise; the records already there stay in place. *)
Lemma passo_acrescenta (a : App) (e : Evento) :
  ∃ novos,
    historico_mudancas (session (passo' a e))
    = historico_mudancas (session a) ++ novos
    ∧ length novos = if detectou a e then 1%nat else 0%nat.
Proof.
  destruct e as [b agora|llm pergunta tabelas]; simpl.
  - unfold ciclo. casos_verificar;
      first [by exists []; rewrite app_nil_r | by eexists [_]].
  - exists []. rewrite app_nil_r. split; [|done].
    apply classificar_so_escreve_cache.
Qed.

Lemma executar_acrescenta (eventos : list Evento) (a : App) :
  ∃ novos,
    historico_mudancas (session (executar' eventos a))
    = historico_mudancas (session a) ++ novos
    ∧ length novos = deteccoes' eventos a.
Proof.
  revert a. induction eventos as [|e eventos IH]; intros a; simpl.
  - exists []. by rewrite app_nil_r.
  - destruct (passo_acrescenta a e) as (n1 & H1 & L1).
    destruct (IH (passo' a e)) as (n2 & H2 & L2).
    exists (n1 ++ n2). rewrite H2, H1, <-(assoc_L (++)). split; [done|].
    rewrite length_app, L1, L2. done.
Qed.

Lemma recentes_take {A} (n : nat) (l : list A) :
  recentes (S n) l = take (S n) (reverse l).
Proof. unfold recentes, ultimos. by rewrite take_reverse. Qed.

(** C9: the ledger is append-only.  Each step leaves the records in
    place and appends exactly one when it detects a drift, none
    otherwise; after a session the ledger has as many records as drifts
    were detected; and the history reads the last [n] records, most recent
    first, out of a ledger it does not change ([n = 5] in the sidebar). *)
Theorem historico_so_cresce :
  (∀ a e, ∃ novos,
     historico_mudancas (session (passo' a e))
     = historico_mudancas (session a) ++ novos
     ∧ length novos = if detectou a e then 1%nat else 0%nat)
  ∧ (∀ eventos,
       length (historico_mudancas (session (executar' eventos app_inicial)))
       = deteccoes' eventos app_inicial)
  ∧ (∀ eventos a,
       historico_mudancas (session a)
         `prefix_of` historico_mudancas (session (executar' eventos a)))
  ∧ (∀ n (l : list Mudanca), recentes (S n) l = take (S n) (reverse l))
  ∧ (∀ s, historico_sidebar s = take 5 (reverse (historico_mudancas s))).
Proof.
  split_and!.
  - exact passo_acrescenta.
  - intros eventos.
    destruct (executar_acrescenta eventos app_inicial) as (novos & -> & <-).
    done.
  - intros eventos a.
    destruct (executar_acrescenta eventos a) as (novos & -> & _).
    by exists novos.
  - intros n l. apply recentes_take.
  - intros s. apply recentes_take.
Qed.

(** ** The intent classification cache *)

Lemma classificar_preserva_validade llm pergunta tabelas (s : SessionState) :
  cache_valido s →
  cache_valido (classificar llm pergunta tabelas s).1.2
  ∧ (classificar llm pergunta tabelas s).1.1 ∈ categorias_validas.
Proof.
  intros Hs. unfold classificar_intencao.
  destruct (cache_classificacoes s !! _) as [c|] eqn:Hc; simpl.
  { split; [done|]. by apply Hs in Hc. }
  destruct (llm _) as [content|]; simpl.
  2: { split; [done|]. unfold categorias_validas. set_solver. }
  assert (Hv : (if decide (str_upper (str_strip content) ∈ categorias_validas)
                then str_upper (str_strip content) else py "QUERY_SQL")
               ∈ categorias_validas).
  { case_decide; [done|]. unfold categorias_validas. set_solver. }
  revert Hv. generalize (if decide (str_upper (str_strip content)
                                      ∈ categorias_validas)
                         then str_upper (str_strip content)
                         else py "QUERY_SQL").
  intros guardada Hv. split; [|done].
  intros chave categoria. unfold guardar_classificacao. simpl.
  rewrite lookup_insert. case_decide; [|exact (Hs chave categoria)].
  intros [= <-]. done.
Qed.

Lemma passo_preserva_validade (a : App) (e : Evento) :
  cache_valido (session a) → cache_valido (session (passo' a e)).
Proof.
  destruct e as [b agora|llm pergunta tabelas]; simpl.
  - unfold cache_valido. by rewrite ciclo_cache_classificacoes.
  - intros H. exact (proj1 (classificar_preserva_validade _ _ _ _ H)).
Qed.

(** C10: when the model has to be asked and the call raises, the answer
    is QUERY_SQL, the session state is left as it was, and a second call
    for the same question asks the model again.  A call stores at most
    one entry, under the normalised question; what it stores is the
    model's answer if that is one of the four categories and QUERY_SQL
    otherwise.  So every category in the cache of a session is one of
    the four. *)
Theorem classificar_intencao_falha_e_validade :
  (∀ llm pergunta tabelas s,
     let prompt := prompt_classificacao (join (py ", ") tabelas) pergunta in
     cache_classificacoes s !! str_strip (str_lower pergunta) = None →
     llm prompt = None →
     classificar llm pergunta tabelas s = (py "QUERY_SQL", s, [prompt])
     ∧ ∀ llm2,
         (classificar llm2 pergunta tabelas
            (classificar llm pergunta tabelas s).1.2).2 = [prompt])
  ∧ (∀ llm pergunta tabelas s content,
       let prompt := prompt_classificacao (join (py ", ") tabelas) pergunta in
       let categoria := str_upper (str_strip content) in
       cache_classificacoes s !! str_strip (str_lower pergunta) = None →
       llm prompt = Some content →
       cache_classificacoes (classificar llm pergunta tabelas s).1.2
       = <[str_strip (str_lower pergunta) :=
             if decide (categoria ∈ categorias_validas) then categoria
             else py "QUERY_SQL"]> (cache_classificacoes s))
  ∧ (∀ llm pergunta tabelas s,
       cache_valido s → cache_valido (classificar llm pergunta tabelas s).1.2)
  ∧ (∀ eventos, cache_valido (session (executar' eventos app_inicial))).
Proof.
  split_and!.
  - intros llm pergunta tabelas s prompt Hc Hl.
    unfold classificar_intencao. rewrite Hc. fold prompt. rewrite Hl.
    split; [done|]. intros llm2. simpl. rewrite Hc. fold prompt.
    by destruct (llm2 prompt).
  - intros llm pergunta tabelas s content prompt categoria Hc Hl.
    unfold classificar_intencao. rewrite Hc. fold prompt. by rewrite Hl.
  - intros llm pergunta tabelas s Hs.
    exact (proj1 (classificar_preserva_validade _ _ _ _ Hs)).
  - intros eventos.
    apply executar_invariante; [exact passo_preserva_validade|].
    intros chave categoria. simpl. by rewrite lookup_empty.
Qed.

(** ** The exception of the drift check is out of reach *)

Lemma verificar_mudancas_coerente (b : Banco) (agora : pystr)
    (s : SessionState) :
  coerente s → coerente (verificar_mudancas b agora s).2.
Proof.
  unfold coerente. casos_verificar; intros H; try done; right.
  all: split_and!; try (by eexists).
  all: by destruct H as [(? & ? & ?)|(? & ? & ?)]; [congruence|].
Qed.

Lemma verificar_mudancas_nao_levanta (b : Banco) (agora : pystr)
    (s : SessionState) (e : Excecao) :
  coerente s → (verificar_mudancas b agora s).1 ≠ Levantou e.
Proof.
  unfold coerente. casos_verificar; try done.
  intros [(? & _)|(_ & [? ?] & _)]; congruence.
Qed.

Lemma passo_coerente (a : App) (e : Evento) :
  coerente (session a) → coerente (session (passo' a e)).
Proof.
  destruct e as [b agora|llm pergunta tabelas]; simpl.
  - intros H. apply (verificar_mudancas_coerente b agora) in H.
    unfold ciclo. by destruct (verificar_mudancas b agora (session a)) as [[] ?].
  - unfold classificar_intencao.
    destruct (cache_classificacoes _ !! _); [done|]. by destruct (llm _).
Qed.

(** In a session the three stored components are set together, and no
    run ends with an exception of [verificar_mudancas]. *)
Lemma sessao_nao_levanta (eventos : list Evento) (b : Banco) (agora : pystr)
    (e : Excecao) :
  (ciclo b agora (executar' eventos app_inicial)).1 ≠ Levantou e.
Proof.
  assert (H : coerente (session (executar' eventos app_inicial))).
  { apply executar_invariante; [exact passo_coerente|]. by left. }
  apply (verificar_mudancas_nao_levanta b agora _ e) in H.
  unfold ciclo. destruct (verificar_mudancas b agora _) as [[] ?]; simpl in *;
    congruence.
Qed.

End Sessoes.

(** ** The properties at work on a concrete session *)

Lemma conjuntos_refletem_ultimo_schema_witness :
  drift_de (verificar_mudancas banco_B_Y t2
              (verificar_mudancas banco_A_Y t1 sessao_A_X).2).1
  ≠ Some SchemaChange
  ∧ novas_tabelas (verificar_mudancas banco_B_Y t2
                     (verificar_mudancas banco_A_Y t1 sessao_A_X).2).2
    = novas_tabelas (verificar_mudancas banco_A_Y t1 sessao_A_X).2
  ∧ reflete_ultimo_schema (session app_exemplo).
Proof.
  assert (H : drift_de (verificar_mudancas banco_B_Y t2
                          (verificar_mudancas banco_A_Y t1 sessao_A_X).2).1
              ≠ Some SchemaChange) by (vm_compute; discriminate).
  destruct (conjuntos_refletem_ultimo_schema PyAscii.lower PyAscii.upper
              PyAscii.strip) as [Hpasso Hsessao].
  split; [exact H|]. split.
  - exact (proj1 (Hpasso _ _ _ H)).
  - exact (Hsessao sessao_exemplo).
Defined.

Lemma historico_so_cresce_witness :
  deteccoes PyAscii.lower PyAscii.upper PyAscii.strip sessao_exemplo
    app_inicial = 2%nat
  ∧ length (historico_mudancas (session app_exemplo)) = 2%nat
  ∧ historico_sidebar (session app_exemplo)
    = [MudancaBanco t2 (Some (py "A")) (py "B");
       MudancaSchema t1 (py "A") [py "T3"] [py "T1"]].
Proof.
  destruct (historico_so_cresce PyAscii.lower PyAscii.upper PyAscii.strip)
    as (_ & Hn & _ & _ & Hside).
  split; [vm_compute; reflexivity|]. split.
  - unfold app_exemplo. rewrite Hn. vm_compute. reflexivity.
  - rewrite Hside. vm_compute. reflexivity.
Defined.

Lemma classificar_intencao_falha_e_validade_witness :
  cache_classificacoes sessao_A_X
    !! PyAscii.strip (PyAscii.lower (py " Oi")) = None
  ∧ (classificar_intencao PyAscii.lower PyAscii.upper PyAscii.strip
       llm_fora_do_ar (py " Oi") [py "T1"; py "T2"] sessao_A_X).1
    = (py "QUERY_SQL", sessao_A_X)
  ∧ cache_valido (session app_exemplo).
Proof.
  assert (Hc : cache_classificacoes sessao_A_X
                 !! PyAscii.strip (PyAscii.lower (py " Oi")) = None)
    by (vm_compute; reflexivity).
  destruct (classificar_intencao_falha_e_validade PyAscii.lower PyAscii.upper
              PyAscii.strip) as (Hfalha & _ & _ & Hsessao).
  split; [exact Hc|]. split.
  - destruct (Hfalha llm_fora_do_ar (py " Oi") [py "T1"; py "T2"] sessao_A_X
                Hc eq_refl) as [-> _].
    reflexivity.
  - exact (Hsessao sessao_exemplo).
Defined.

(** * Further properties *)

(** ** The snapshot is the catalog, sorted *)

Lemma sorted_Sorted (l : list pystr) : Sorted PyStr.le (sorted l).
Proof. apply Sorted_merge_sort; apply _. Qed.

Lemma sorted_perm (l : list pystr) : sorted l ≡ₚ l.
Proof. apply merge_sort_Permutation. Qed.

Ltac contra_pertence :=
  exfalso;
  match goal with
  | H : ?t ∉ ?t0 :: ?r |- _ => apply H; first [by left | by right]
  | H : ?t ∈ ?t0 :: ?r |- _ => by apply elem_of_cons in H as [?|?]
  end.

Lemma montar_schema_lookup (b : Banco) (tabelas : list pystr)
    (m0 m : Schema) :
  montar_schema b tabelas m0 = Some m →
  ∀ t, m !! t = if decide (t ∈ tabelas) then sorted <$> get_columns b t
                else m0 !! t.
Proof.
  revert m0. induction tabelas as [|t0 resto IH]; intros m0;
    cbn [montar_schema].
  - intros [= <-] t. case_decide as Hin; [|done]. by apply elem_of_nil in Hin.
  - destruct (get_columns b t0) as [nomes|] eqn:Hc; [|done].
    intros Hm t. rewrite (IH _ Hm t).
    destruct (decide (t = t0)) as [->|Hne].
    + rewrite lookup_insert_eq, Hc.
      repeat case_decide; try done; contra_pertence.
    + rewrite lookup_insert_ne by done.
      repeat case_decide; try done; contra_pertence.
Qed.

Lemma gerar_hash_schema_partes (b : Banco) (h : pystr) (m : Schema)
    (n : pystr) :
  gerar_hash_schema b = Some (h, m, n) →
  ∃ nomes,
    get_table_names b = Some nomes
    ∧ (∀ t, t ∈ dom m ↔ t ∈ nomes)
    ∧ n = obter_banco_atual b.
Proof.
  unfold gerar_hash_schema.
  destruct (get_table_names b) as [nomes|]; [|done].
  destruct (montar_schema b (sorted nomes) ∅) as [m'|] eqn:Hm; [|done].
  rewrite JsonFacts.encode_dumps. intros [= <- <- <-].
  pose proof (montar_schema_lookup _ _ _ _ Hm) as Hl.
  exists nomes. split_and!; try done.
  intros t. rewrite elem_of_dom, Hl.
  destruct (decide (t ∈ sorted nomes)) as [Hin|Hnin].
  - rewrite sorted_elem_of in Hin. split; [done|]. intros _.
    destruct (get_columns b t) eqn:Hc; [done|].
    assert (montar_schema b (sorted nomes) ∅ = None); [|congruence].
    apply montar_schema_None. exists t. by rewrite sorted_elem_of.
  - rewrite lookup_empty. split; [by intros []|].
    intros Hin. by rewrite <-sorted_elem_of in Hin.
Qed.

(** The snapshot has one key per table the catalog lists, and under it
    the columns read for that table, each once per reading and in
    ascending order; the fingerprint is the digest of the serialised
    snapshot and the identity is what [obter_banco_atual] answers. *)
Theorem gerar_hash_schema_fiel (b : Banco) (h : pystr) (m : Schema)
    (n : pystr) :
  gerar_hash_schema b = Some (h, m, n) →
  ∃ nomes,
    get_table_names b = Some nomes
    ∧ (∀ t, t ∈ dom m ↔ t ∈ nomes)
    ∧ (∀ t, t ∈ nomes →
         ∃ cols colunas,
           get_columns b t = Some cols ∧ m !! t = Some colunas
           ∧ colunas ≡ₚ cols ∧ Sorted PyStr.le colunas)
    ∧ h = MD5.hexdigest (Json.dumps m)
    ∧ n = obter_banco_atual b.
Proof.
  unfold gerar_hash_schema.
  destruct (get_table_names b) as [nomes|]; [|done].
  destruct (montar_schema b (sorted nomes) ∅) as [m'|] eqn:Hm; [|done].
  rewrite JsonFacts.encode_dumps. intros [= <- <- <-].
  pose proof (montar_schema_lookup _ _ _ _ Hm) as Hl.
  assert (Hfalha : ∀ t, t ∈ nomes → is_Some (get_columns b t)).
  { intros t Ht. destruct (get_columns b t) eqn:Hc; [done|].
    assert (montar_schema b (sorted nomes) ∅ = None); [|congruence].
    apply montar_schema_None. exists t. by rewrite sorted_elem_of. }
  exists nomes. split_and!; try done.
  - intros t. rewrite elem_of_dom, Hl.
    destruct (decide (t ∈ sorted nomes)) as [Hin|Hnin].
    + rewrite sorted_elem_of in Hin. split; [done|]. intros _.
      destruct (Hfalha t Hin) as [cols ->]. done.
    + rewrite lookup_empty. split; [by intros []|].
      intros Hin. by rewrite <-sorted_elem_of in Hin.
  - intros t Ht. destruct (Hfalha t Ht) as [cols Hc].
    exists cols, (sorted cols). rewrite Hl, Hc.
    rewrite decide_True by (by rewrite sorted_elem_of).
    split_and!; [done|done|apply sorted_perm|apply sorted_Sorted].
Qed.

Lemma gerar_hash_schema_fiel_witness :
  gerar_hash_schema banco_A_X = Some (hash_X, schema_X, py "A")
  ∧ ∃ nomes,
      get_table_names banco_A_X = Some nomes
      ∧ (∀ t, t ∈ dom schema_X ↔ t ∈ nomes).
Proof.
  split; [exact gerar_hash_schema_A_X|].
  destruct (gerar_hash_schema_fiel banco_A_X hash_X schema_X (py "A")
              gerar_hash_schema_A_X) as (nomes & Hn & Hd & _).
  exists nomes. split; [exact Hn | exact Hd].
Defined.

(** ** The fingerprint is 32 hexadecimal digits *)

Lemma hexdigit_hex (d : N) : d < 16 → digito_hex (Json.hexdigit d).
Proof.
  unfold Json.hexdigit, digito_hex. destruct (N.ltb_spec d 10); lia.
Qed.

Lemma le_bytes_bytes (k : nat) (n : N) :
  length (MD5.le_bytes k n) = k ∧ Forall (fun b => b < 256) (MD5.le_bytes k n).
Proof.
  unfold MD5.le_bytes. split; [by rewrite length_map, length_seq|].
  apply Forall_fmap, Forall_forall. intros i _. simpl.
  apply N.mod_lt. lia.
Qed.

Lemma digest_bytes (msg : list N) :
  length (MD5.digest msg) = 16%nat
  ∧ Forall (fun b => b < 256) (MD5.digest msg).
Proof.
  unfold MD5.digest.
  destruct (MD5.blocks _ _ _) as [[[a b] c] d].
  rewrite !length_app, !Forall_app.
  destruct (le_bytes_bytes 4 a) as [-> ?], (le_bytes_bytes 4 b) as [-> ?],
    (le_bytes_bytes 4 c) as [-> ?], (le_bytes_bytes 4 d) as [-> ?].
  done.
Qed.

Lemma hexdigest_hex (msg : list N) :
  length (MD5.hexdigest msg) = 32%nat ∧ Forall digito_hex (MD5.hexdigest msg).
Proof.
  unfold MD5.hexdigest. destruct (digest_bytes msg) as [Hlen Hb].
  revert Hlen Hb. generalize (MD5.digest msg) as bs. intros bs Hlen Hb.
  assert (H : length (concat (map MD5.hex2 bs)) = (2 * length bs)%nat
              ∧ Forall digito_hex (concat (map MD5.hex2 bs))).
  { clear Hlen. induction Hb as [|x bs Hx Hbs [IHl IHf]]; [done|].
    simpl. split; [rewrite IHl; lia|].
    constructor; [|constructor; [|done]]; apply hexdigit_hex.
    - apply N.Div0.div_lt_upper_bound. lia.
    - apply N.mod_lt. lia. }
  destruct H as [-> H]. by rewrite Hlen.
Qed.

Lemma gerar_hash_schema_digest (b : Banco) (h : pystr) (m : Schema)
    (n : pystr) :
  gerar_hash_schema b = Some (h, m, n) → h = MD5.hexdigest (Json.dumps m).
Proof.
  unfold gerar_hash_schema.
  destruct (get_table_names b); [|done].
  destruct (montar_schema _ _ _); [|done].
  rewrite JsonFacts.encode_dumps. by intros [= <- <- <-].
Qed.

(** Every fingerprint the drift check stores or returns is a string of
    32 lower-case hexadecimal digits, so the [[:12]] slices of the change
    banner are 12 characters long. *)
Theorem gerar_hash_schema_hex (b : Banco) (h : pystr) (m : Schema)
    (n : pystr) :
  gerar_hash_schema b = Some (h, m, n) →
  length h = 32%nat ∧ Forall digito_hex h ∧ length (take 12 h) = 12%nat.
Proof.
  intros H. apply gerar_hash_schema_digest in H as ->.
  destruct (hexdigest_hex (Json.dumps m)) as [Hl Hf].
  split_and!; [done|done|]. rewrite length_take, Hl. done.
Qed.

Lemma gerar_hash_schema_hex_witness :
  gerar_hash_schema banco_A_X = Some (hash_X, schema_X, py "A")
  ∧ length hash_X = 32%nat.
Proof.
  split; [exact gerar_hash_schema_A_X|].
  exact (proj1 (gerar_hash_schema_hex banco_A_X hash_X schema_X (py "A")
                  gerar_hash_schema_A_X)).
Defined.

(** ** Repeating the drift check *)

Lemma verificar_mudancas_estavel (b : Banco) (agora : pystr)
    (s : SessionState) (h : pystr) (m : Schema) (n : pystr) :
  gerar_hash_schema b = Some (h, m, n) →
  schema_hash_teste s = Some h →
  banco_atual s = Some n →
  verificar_mudancas b agora s
  = (Retornou (Build_Retorno false (Some h) (Some h) (Some m) (Some n) None),
     s).
Proof.
  intros Hb Hh Hn. unfold verificar_mudancas. rewrite Hb, Hh, Hn.
  rewrite decide_False by (by intros []).
  by rewrite decide_False by (by intros []).
Qed.

Lemma verificar_mudancas_guarda (b : Banco) (agora : pystr)
    (s : SessionState) (h : pystr) (m : Schema) (n : pystr) :
  gerar_hash_schema b = Some (h, m, n) →
  (∀ e, (verificar_mudancas b agora s).1 ≠ Levantou e) →
  schema_hash_teste (verificar_mudancas b agora s).2 = Some h
  ∧ banco_atual (verificar_mudancas b agora s).2 = Some n.
Proof.
  intros Hb. unfold verificar_mudancas. rewrite Hb.
  destruct (schema_hash_teste s) as [anterior|] eqn:Hh; [|done].
  destruct (decide (Some n ≠ banco_atual s)) as [|Hn]; [done|].
  apply mesmo_banco in Hn.
  destruct (decide (h ≠ anterior)) as [|Hig]; simpl.
  - destruct (schema_info s); simpl; [done|]. intros H. by destruct (H AttributeError).
  - intros _. split; [|done].
    destruct (decide (h = anterior)) as [->|]; [done|]. by destruct Hig.
Qed.

Lemma verificar_mudancas_levanta (b : Banco) (agora agora' : pystr)
    (s : SessionState) (e : Excecao) :
  (verificar_mudancas b agora s).1 = Levantou e →
  verificar_mudancas b agora' s = (Levantou e, s).
Proof. destruct e. casos_verificar; done. Qed.

(** Checking the same database again, right after a check, reports no
    drift and writes nothing: the second call returns [NoChange] (or
    fails like the first did) and leaves the state of the first. *)
Theorem verificar_mudancas_repetida (b : Banco) (agora agora' : pystr)
    (s : SessionState) :
  let s1 := (verificar_mudancas b agora s).2 in
  (verificar_mudancas b agora' s1).2 = s1
  ∧ (drift_de (verificar_mudancas b agora' s1).1 = Some NoChange
     ∨ drift_de (verificar_mudancas b agora' s1).1 = None
       ∧ drift_de (verificar_mudancas b agora s).1 = None).
Proof.
  intros s1. subst s1.
  destruct (gerar_hash_schema b) as [[[h m] n]|] eqn:Hb.
  2: { unfold verificar_mudancas. rewrite Hb. simpl. auto. }
  destruct (verificar_mudancas b agora s).1 as [r|e] eqn:Hr.
  - destruct (verificar_mudancas_guarda b agora s h m n Hb) as [Hh Hn].
    { intros e. by rewrite Hr. }
    rewrite (verificar_mudancas_estavel b agora' _ h m n Hb Hh Hn). auto.
  - pose proof (verificar_mudancas_levanta b agora agora s e Hr) as H1.
    rewrite H1. simpl.
    rewrite (verificar_mudancas_levanta b agora agora' s e Hr). auto.
Qed.

(** ** Further properties of sessions *)

Section MaisSessoes.

Variables str_lower str_upper str_strip : pystr -> pystr.

Abbreviation classificar := (classificar_intencao str_lower str_upper str_strip).
Abbreviation passo' := (passo str_lower str_upper str_strip).
Abbreviation executar' := (executar str_lower str_upper str_strip).

(** In a session the state tracks what was read: after a run that reads
    the catalog, the stored fingerprint and identity are the ones just
    read, whatever the result of the run, and the run does not end with
    an exception. *)
Theorem sessao_acompanha (eventos : list Evento) (b : Banco) (agora : pystr)
    (h : pystr) (m : Schema) (n : pystr) :
  gerar_hash_schema b = Some (h, m, n) →
  let a := executar' eventos app_inicial in
  schema_hash_teste (session (ciclo b agora a).2) = Some h
  ∧ banco_atual (session (ciclo b agora a).2) = Some n
  ∧ ∃ r, (ciclo b agora a).1 = Retornou r ∧ ret_hash_novo r = Some h.
Proof.
  intros Hb a.
  assert (Hc : coerente (session a)).
  { apply executar_invariante; [apply passo_coerente|]. by left. }
  pose proof (verificar_mudancas_nao_levanta b agora (session a)) as Hr.
  destruct (verificar_mudancas_guarda b agora (session a) h m n Hb) as [H1 H2].
  { intros e. by apply Hr. }
  unfold ciclo.
  destruct (verificar_mudancas b agora (session a)) as [[r|e] s'] eqn:Hv.
  2: { by destruct (Hr e Hc). }
  simpl in *. split_and!; [done|done|]. exists r. split; [done|].
  revert Hv. unfold verificar_mudancas. rewrite Hb.
  repeat first [case_decide | case_match]; by intros [= <- <-].
Qed.

(** ** The ledger fits together *)

Lemma banco_apos_snoc (base : option pystr) (h : list Mudanca) (m : Mudanca) :
  banco_apos base (h ++ [m])
  = match m with
    | MudancaBanco _ _ novo => Some novo
    | MudancaSchema _ _ _ _ => banco_apos base h
    end.
Proof.
  revert base. induction h as [|m' h IH]; intros base; simpl.
  - by destruct m.
  - destruct m'; apply IH.
Qed.

Lemma encadeado_snoc (base : option pystr) (h : list Mudanca) (m : Mudanca) :
  encadeado base (h ++ [m]) ↔
  encadeado base h ∧ encadeado (banco_apos base h) [m].
Proof.
  revert base. induction h as [|m' h IH]; intros base; simpl.
  - destruct m; simpl; tauto.
  - destruct m'; rewrite IH; simpl; tauto.
Qed.

Lemma verificar_mudancas_ledger_ok (b : Banco) (agora : pystr)
    (s : SessionState) :
  ledger_ok s → ledger_ok (verificar_mudancas b agora s).2.
Proof.
  unfold ledger_ok. intros (base & Henc & Hapos & Hvazio).
  casos_verificar.
  all: try (exists base; rewrite encadeado_snoc, banco_apos_snoc; simpl;
            split_and!; try done;
            first [ by rewrite Hapos
                  | by rewrite Hapos; apply mesmo_banco
                  | apply NoDup_elements
                  | intros t; rewrite !elem_of_elements;
                    by intros [? ?]%elem_of_difference
                              [? ?]%elem_of_difference ]).
  all: try (exists base; split_and!; [done|done|];
            intros; first [congruence | by apply Hvazio]).
  all: exists (Some banco_novo); rewrite Hvazio by done; done.
Qed.

Lemma passo_ledger_ok (a : App) (e : Evento) :
  ledger_ok (session a) → ledger_ok (session (passo' a e)).
Proof.
  destruct e as [b agora|llm pergunta tabelas]; simpl.
  - intros H. apply (verificar_mudancas_ledger_ok b agora) in H.
    unfold ciclo. by destruct (verificar_mudancas b agora (session a)) as [[] ?].
  - unfold classificar_intencao.
    destruct (cache_classificacoes _ !! _); [done|]. by destruct (llm _).
Qed.

(** In a session the ledger reads as one history.  From some first
    identity on, every switch record leaves the identity in force for a
    different one, every schema record is filed under the identity in
    force and lists no table twice nor as both added and removed, and the
    identity the records end with is the stored one. *)
Theorem sessao_ledger_encadeado (eventos : list Evento) :
  let s := session (executar' eventos app_inicial) in
  ∃ base,
    encadeado base (historico_mudancas s)
    ∧ banco_apos base (historico_mudancas s) = banco_atual s.
Proof.
  intros s.
  assert (H : ledger_ok s).
  { apply executar_invariante; [exact passo_ledger_ok|]. by exists None. }
  destruct H as (base & H1 & H2 & _). by exists base.
Qed.

(** ** The classification cache only grows *)

Lemma classificar_cache_cresce llm pergunta tabelas (s : SessionState) :
  cache_classificacoes s
  ⊆ cache_classificacoes (classificar llm pergunta tabelas s).1.2.
Proof.
  unfold classificar_intencao.
  destruct (cache_classificacoes s !! _) eqn:Hc; [done|].
  destruct (llm _); [|done]. simpl. by apply insert_subseteq.
Qed.

Lemma passo_cache_cresce (a : App) (e : Evento) :
  cache_classificacoes (session a)
  ⊆ cache_classificacoes (session (passo' a e)).
Proof.
  destruct e as [b agora|llm pergunta tabelas]; simpl.
  - by rewrite ciclo_cache_classificacoes.
  - apply classificar_cache_cresce.
Qed.

(** No step of a session removes or overwrites a memoised category: a
    question classified once keeps its category until the session ends,
    across every later run and every detected drift. *)
Theorem cache_classificacoes_so_cresce (eventos : list Evento) (a : App)
    (chave categoria : pystr) :
  cache_classificacoes (session a) !! chave = Some categoria →
  cache_classificacoes (session (executar' eventos a)) !! chave
  = Some categoria.
Proof.
  revert a. induction eventos as [|e eventos IH]; intros a H; [done|].
  simpl. apply IH.
  by apply (lookup_weaken _ _ _ _ H), passo_cache_cresce.
Qed.

(** A question the model classified is answered from the cache from then
    on: a later call whose question normalises to the same key returns
    the same category, asks no model and writes nothing. *)
Theorem classificar_memoriza llm llm2 (pergunta pergunta2 : pystr)
    (tabelas tabelas2 : list pystr) (s : SessionState) (content : pystr) :
  cache_classificacoes s !! str_strip (str_lower pergunta) = None →
  llm (prompt_classificacao (join (py ", ") tabelas) pergunta)
  = Some content →
  str_strip (str_lower pergunta2) = str_strip (str_lower pergunta) →
  let r := classificar llm pergunta tabelas s in
  classificar llm2 pergunta2 tabelas2 r.1.2 = (r.1.1, r.1.2, []).
Proof.
  intros Hc Hl Hn. unfold classificar_intencao.
  rewrite Hc, Hl, Hn. simpl. by rewrite lookup_insert_eq.
Qed.

(** Whatever the model answers, every category returned in a session is
    one of SAUDACAO, GENERICA, QUERY_SQL and IRRELEVANTE. *)
Theorem sessao_categoria_valida (eventos : list Evento) llm
    (pergunta : pystr) (tabelas : list pystr) :
  (classificar llm pergunta tabelas
     (session (executar' eventos app_inicial))).1.1 ∈ categorias_validas.
Proof.
  apply classificar_preserva_validade.
  apply executar_invariante; [apply passo_preserva_validade|].
  intros chave categoria. simpl. by rewrite lookup_empty.
Qed.

End MaisSessoes.

(** ** The further properties at work *)

Lemma sessao_acompanha_witness :
  gerar_hash_schema banco_B_X = Some (hash_X, schema_X, py "B")
  ∧ banco_atual
      (session (ciclo banco_B_X t2
                  (executar PyAscii.lower PyAscii.upper PyAscii.strip
                     sessao_exemplo app_inicial)).2)
    = Some (py "B").
Proof.
  split; [exact gerar_hash_schema_B_X|].
  exact (proj1 (proj2 (sessao_acompanha PyAscii.lower PyAscii.upper
                         PyAscii.strip sessao_exemplo banco_B_X t2 hash_X
                         schema_X (py "B") gerar_hash_schema_B_X))).
Defined.


Lemma cache_classificacoes_so_cresce_witness :
  cache_classificacoes (session app_A_X_oi) !! py "oi" = Some (py "SAUDACAO")
  ∧ cache_classificacoes
      (session (executar PyAscii.lower PyAscii.upper PyAscii.strip
                  [Execucao banco_A_Y t1; Execucao banco_B_Y t2] app_A_X_oi))
      !! py "oi" = Some (py "SAUDACAO").
Proof.
  assert (H : cache_classificacoes (session app_A_X_oi) !! py "oi"
              = Some (py "SAUDACAO")) by (vm_compute; reflexivity).
  split; [exact H|].
  exact (cache_classificacoes_so_cresce PyAscii.lower PyAscii.upper
           PyAscii.strip _ app_A_X_oi _ _ H).
Defined.

Lemma classificar_memoriza_witness :
  let llm := fun _ : pystr => Some (py "Saudacao ") in
  classificar_intencao PyAscii.lower PyAscii.upper PyAscii.strip
    llm_fora_do_ar (py "OI  ") []
    (classificar_intencao PyAscii.lower PyAscii.upper PyAscii.strip llm
       (py " Oi") [py "T1"; py "T2"] sessao_A_X).1.2
  = (py "SAUDACAO",
     (classificar_intencao PyAscii.lower PyAscii.upper PyAscii.strip llm
        (py " Oi") [py "T1"; py "T2"] sessao_A_X).1.2, []).
Proof.
  intros llm.
  assert (Hc : cache_classificacoes sessao_A_X
                 !! PyAscii.strip (PyAscii.lower (py " Oi")) = None)
    by (vm_compute; reflexivity).
  assert (Hn : PyAscii.strip (PyAscii.lower (py "OI  "))
               = PyAscii.strip (PyAscii.lower (py " Oi")))
    by (vm_compute; reflexivity).
  rewrite (classificar_memoriza PyAscii.lower PyAscii.upper PyAscii.strip
             llm llm_fora_do_ar (py " Oi") (py "OI  ") [py "T1"; py "T2"] []
             sessao_A_X (py "Saudacao ") Hc eq_refl Hn).
  vm_compute. reflexivity.
Defined.

(** ** The change banner *)

Lemma exibir_mudanca_ok (b : Banco) (agora : pystr) (s : SessionState)
    (r : Retorno) (s' : SessionState) :
  verificar_mudancas b agora s = (Retornou r, s') →
  ∃ avisos, exibir_mudanca r s' = inr avisos.
Proof.
  unfold exibir_mudanca.
  casos_verificar; intros [= <- <-]; simpl; try (by eexists).
  all: rewrite last_snoc; by eexists.
Qed.

(** The banner never raises: when the drift check returns, the ledger
    subscript [[-1]['banco_anterior']] and the slices of the two
    fingerprints are defined.  On a switch of database it shows the
    identity stored before the run and the one stored after it. *)
Theorem exibir_mudanca_nao_levanta (b : Banco) (agora : pystr)
    (s : SessionState) (r : Retorno) (s' : SessionState) :
  verificar_mudancas b agora s = (Retornou r, s') →
  ∃ avisos,
    exibir_mudanca r s' = inr avisos
    ∧ (mudou r = false → avisos = [])
    ∧ (drift_result r = Some DatabaseSwitch →
       st_code (py "Banco Anterior: " ++ fmt (banco_atual s) ++ [10]
                  ++ py "Banco Novo: " ++ fmt (banco_atual s')) ∈ avisos).
Proof.
  unfold exibir_mudanca.
  casos_verificar; intros [= <- <-]; simpl; try (by eexists).
  all: rewrite last_snoc; eexists; split; [done|]; split; [done|].
  all: intros _; apply list_elem_of_further, list_elem_of_here.
Qed.

Lemma exibir_mudanca_nao_levanta_witness :
  ∃ r s' avisos,
    verificar_mudancas banco_B_X t1 sessao_A_X = (Retornou r, s')
    ∧ exibir_mudanca r s' = inr avisos
    ∧ length avisos = 3%nat.
Proof.
  destruct (verificar_mudancas banco_B_X t1 sessao_A_X) as [[r|e] s'] eqn:Hv.
  2: { exfalso. vm_compute in Hv. discriminate Hv. }
  destruct (exibir_mudanca_nao_levanta _ _ _ _ _ Hv) as (avisos & Ha & _).
  exists r, s', avisos. split; [reflexivity|]. split; [exact Ha|].
  vm_compute in Hv. injection Hv as <- <-.
  vm_compute in Ha. injection Ha as <-. reflexivity.
Defined.

(** ** The semantic index *)

Lemma chaves_distintas :
  py "tabela" ≠ py "tipo" ∧ py "tabela" ≠ py "banco" ∧ py "tipo" ≠ py "banco".
Proof. split_and!; by vm_compute. Qed.

Lemma documentar_tabela_doc (i : Inspector) (banco_nome t : pystr) (d : Doc) :
  documentar_tabela i banco_nome t = Some d → doc_de_tabela banco_nome t d.
Proof.
  destruct chaves_distintas as (H1 & H2 & H3).
  unfold documentar_tabela, doc_de_tabela.
  destruct (i_columns i t), (i_pk_constraint i t), (i_foreign_keys i t);
    try done.
  intros [= <-]. cbn [metadata]. split_and!.
  - by rewrite lookup_insert_eq.
  - rewrite lookup_insert_ne by done. by rewrite lookup_insert_eq.
  - rewrite !lookup_insert_ne by done. by rewrite lookup_insert_eq.
Qed.

Lemma documentar_tabelas_docs (i : Inspector) (banco_nome : pystr)
    (tabelas : list pystr) (docs : list Doc) :
  documentar_tabelas i banco_nome tabelas = Some docs →
  Forall2 (doc_de_tabela banco_nome) tabelas docs.
Proof.
  revert docs. induction tabelas as [|t resto IH]; intros docs; simpl.
  - intros [= <-]. constructor.
  - destruct (documentar_tabela i banco_nome t) as [d|] eqn:Hd; [|done].
    destruct (documentar_tabelas i banco_nome resto) as [ds|]; [|done].
    intros [= <-]. constructor; [by eapply documentar_tabela_doc|by apply IH].
Qed.

Lemma documentar_tabelas_None (i : Inspector) (banco_nome : pystr)
    (tabelas : list pystr) :
  documentar_tabelas i banco_nome tabelas = None ↔
  ∃ t, t ∈ tabelas
       ∧ (i_columns i t = None ∨ i_pk_constraint i t = None
          ∨ i_foreign_keys i t = None).
Proof.
  induction tabelas as [|t resto IH]; simpl.
  - split; [done|]. intros (t & Ht & _). by apply elem_of_nil in Ht.
  - unfold documentar_tabela at 1.
    destruct (i_columns i t) eqn:H1, (i_pk_constraint i t) eqn:H2,
      (i_foreign_keys i t) eqn:H3.
    2-8: split; [|done]; intros _; exists t;
         split; [by left|]; rewrite ?H1, ?H2, ?H3; tauto.
    destruct (documentar_tabelas i banco_nome resto) as [ds|].
    + split; [done|]. intros (t' & Ht' & Hf).
      apply elem_of_cons in Ht' as [->|Ht'].
      * rewrite H1, H2, H3 in Hf. by destruct Hf as [|[|]].
      * assert (Some ds = None) as Hn by (apply IH; by exists t').
        done.
    + split; [|done]. intros _.
      destruct (proj1 IH eq_refl) as (t' & Ht' & Hf).
      exists t'. split; [by right|done].
Qed.

Lemma tabelas_de_docs (banco_nome : pystr) (tabelas : list pystr)
    (docs : list Doc) :
  Forall2 (doc_de_tabela banco_nome) tabelas docs →
  tabelas_detectadas docs = docs ∧ tabelas_do_chat docs = Some tabelas.
Proof.
  intros H.
  assert (Hf : tabelas_detectadas docs = docs).
  { unfold tabelas_detectadas.
    induction H as [|t d ts ds (_ & Htipo & _) _ IH]; [done|].
    rewrite filter_cons_True by done. by rewrite IH. }
  split; [done|]. unfold tabelas_do_chat. rewrite Hf.
  apply mapM_Some. apply Forall2_flip.
  eapply Forall2_impl; [exact H|]. by intros t d (Ht & _).
Qed.

Lemma tabelas_detectadas_base (docs : list Doc) :
  tabelas_detectadas (docs_base ++ docs) = tabelas_detectadas docs.
Proof.
  unfold tabelas_detectadas. rewrite filter_app.
  assert (H : filter (fun d => metadata d !! py "tipo" = Some (py "schema"))
                docs_base = []) by (by vm_compute).
  by rewrite H.
Qed.

(** When everything can be read, [extrair_schema_completo] gives one
    document per table, in the order of the catalog, each filed under its
    table and under the answer of [obter_banco_atual]. *)
Theorem extrair_schema_completo_legivel (i : Inspector) (nomes : list pystr) :
  legivel i nomes →
  ∃ docs,
    extrair_schema_completo i
    = (docs, obter_banco_atual (banco_do_inspector i))
    ∧ Forall2 (doc_de_tabela (obter_banco_atual (banco_do_inspector i)))
        nomes docs.
Proof.
  intros [Hn Hl]. unfold extrair_schema_completo. rewrite Hn.
  destruct (documentar_tabelas i _ nomes) as [docs|] eqn:Hd.
  - exists docs. split; [done|]. by eapply documentar_tabelas_docs.
  - apply documentar_tabelas_None in Hd as (t & Ht & Hf).
    destruct (Hl t Ht) as ([? H1] & [? H2] & [? H3]).
    rewrite H1, H2, H3 in Hf. by destruct Hf as [|[|]].
Qed.

(** When a read raises, be it the keys of a single table,
    [extrair_schema_completo] gives no document at all, and the name
    "Desconhecido" in place of the database name. *)
Theorem extrair_schema_completo_falha (i : Inspector) :
  leitura_falha i → extrair_schema_completo i = ([], py "Desconhecido").
Proof.
  unfold leitura_falha, extrair_schema_completo.
  destruct (i_table_names i) as [nomes|]; [|done].
  intros H.
  apply (documentar_tabelas_None i
           (obter_banco_atual (banco_do_inspector i))) in H.
  by rewrite H.
Qed.

Lemma criar_vectordb_teste_docs (i : Inspector) :
  docs_info (criar_vectordb_teste i)
  = docs_base ++ (extrair_schema_completo i).1.
Proof. unfold criar_vectordb_teste. by destruct (extrair_schema_completo i). Qed.

Lemma criar_vectordb_teste_nome (i : Inspector) :
  vdb_banco_nome (criar_vectordb_teste i) = (extrair_schema_completo i).2.
Proof. unfold criar_vectordb_teste. by destruct (extrair_schema_completo i). Qed.

(** The index never lacks the key the chat reads: the list of tables
    the chat derives from it is defined, holds the tables of the catalog
    in catalog order when everything could be read and no table when a
    read raised, and the metric counts exactly these tables; the three
    fixed documents are never counted. *)
Theorem criar_vectordb_teste_tabelas (i : Inspector) :
  ∃ tabelas,
    tabelas_do_chat (docs_info (criar_vectordb_teste i)) = Some tabelas
    ∧ num_tabelas (docs_info (criar_vectordb_teste i)) = length tabelas
    ∧ (∀ nomes, legivel i nomes → tabelas = nomes)
    ∧ (leitura_falha i → tabelas = []).
Proof.
  unfold num_tabelas, tabelas_do_chat.
  rewrite criar_vectordb_teste_docs, tabelas_detectadas_base.
  destruct (extrair_schema_completo i) as [docs banco_nome] eqn:He.
  cbn [fst].
  assert (Hd : ∃ tabelas n, Forall2 (doc_de_tabela n) tabelas docs
               ∧ (∀ nomes, legivel i nomes → tabelas = nomes)
               ∧ (leitura_falha i → tabelas = [])).
  { revert He. unfold extrair_schema_completo, leitura_falha, legivel.
    destruct (i_table_names i) as [nomes|].
    2: { intros [= <- <-]. exists [], []. split; [constructor|].
         split; [by intros ? [? _]|done]. }
    destruct (documentar_tabelas i _ nomes) as [ds|] eqn:Hds.
    - intros [= <- <-]. exists nomes, (obter_banco_atual (banco_do_inspector i)).
      split; [by eapply documentar_tabelas_docs|].
      split; [by intros ? [[= ->] _]|].
      intros Hf.
      apply (documentar_tabelas_None i
               (obter_banco_atual (banco_do_inspector i))) in Hf.
      congruence.
    - intros [= <- <-]. exists [], []. split; [constructor|].
      split; [|done]. intros nomes' [[= <-] Hl].
      apply documentar_tabelas_None in Hds as (t & Ht & Hf).
      destruct (Hl t Ht) as ([? H1] & [? H2] & [? H3]).
      rewrite H1, H2, H3 in Hf. by destruct Hf as [|[|]]. }
  destruct Hd as (tabelas & n & Hf2 & Hleg & Hfal).
  destruct (tabelas_de_docs n tabelas docs Hf2) as [Hdet Hchat].
  exists tabelas. unfold tabelas_do_chat in Hchat. rewrite Hchat, Hdet.
  split_and!; try done. by apply Forall2_length in Hf2.
Qed.

Lemma legivel_inspector_A_X : legivel inspector_A_X [py "T2"; py "T1"].
Proof.
  split; [reflexivity|]. intros t Ht.
  apply elem_of_cons in Ht as [->|Ht];
    [|apply elem_of_cons in Ht as [->|Ht]; [|by apply elem_of_nil in Ht]].
  all: split_and!; vm_compute; eauto.
Qed.

Lemma legivel_inspector_A_Y : legivel inspector_A_Y [py "T2"; py "T3"].
Proof.
  split; [reflexivity|]. intros t Ht.
  apply elem_of_cons in Ht as [->|Ht];
    [|apply elem_of_cons in Ht as [->|Ht]; [|by apply elem_of_nil in Ht]].
  all: split_and!; vm_compute; eauto.
Qed.

Lemma extrair_schema_completo_legivel_witness :
  legivel inspector_A_X [py "T2"; py "T1"]
  ∧ ∃ docs,
      extrair_schema_completo inspector_A_X = (docs, py "A")
      ∧ text <$> docs
        = [py "[A] Tabela T2 (Tabela de dados):" ++ [10]
             ++ py "  id (INTEGER, NOT NULL)";
           py "[A] Tabela T1 (Tabela de dados):" ++ [10]
             ++ py "  nome (INTEGER, NOT NULL), id (INTEGER, NOT NULL)"].
Proof.
  split; [exact legivel_inspector_A_X|].
  destruct (extrair_schema_completo_legivel inspector_A_X _
              legivel_inspector_A_X) as (docs & He & _).
  exists docs. split; [exact He|].
  vm_compute in He. injection He as <-. vm_compute. reflexivity.
Defined.

Lemma extrair_schema_completo_falha_witness :
  leitura_falha inspector_inacessivel
  ∧ extrair_schema_completo inspector_inacessivel = ([], py "Desconhecido").
Proof.
  assert (H : leitura_falha inspector_inacessivel) by exact I.
  split; [exact H|]. exact (extrair_schema_completo_falha _ H).
Defined.

Lemma criar_vectordb_teste_tabelas_witness :
  tabelas_do_chat (docs_info (criar_vectordb_teste inspector_A_X))
  = Some [py "T2"; py "T1"]
  ∧ num_tabelas (docs_info (criar_vectordb_teste inspector_A_X)) = 2%nat.
Proof.
  destruct (criar_vectordb_teste_tabelas inspector_A_X)
    as (tabelas & Ht & Hn & Hl & _).
  rewrite (Hl _ legivel_inspector_A_X) in Ht, Hn.
  split; [exact Ht | exact Hn].
Defined.

(** ** The script run *)

Lemma gerar_hash_schema_legivel (i : Inspector) (nomes : list pystr) :
  legivel i nomes →
  ∃ h m,
    gerar_hash_schema (banco_do_inspector i)
    = Some (h, m, obter_banco_atual (banco_do_inspector i))
    ∧ dom m = list_to_set nomes.
Proof.
  intros [Hn Hl].
  destruct (gerar_hash_schema (banco_do_inspector i)) as [[[h m] n]|] eqn:Hg.
  - destruct (gerar_hash_schema_partes _ _ _ _ Hg) as (nomes' & Hn' & Hd & ->).
    simpl in Hn'. rewrite Hn in Hn'. injection Hn' as <-.
    exists h, m. split; [done|].
    apply set_eq. intros t. by rewrite Hd, elem_of_list_to_set.
  - apply gerar_hash_schema_None in Hg. unfold catalogo_ilegivel in Hg.
    simpl in Hg. rewrite Hn in Hg. destruct Hg as (t & Ht & Hc).
    destruct (Hl t Ht) as ([? H1] & _). by rewrite H1 in Hc.
Qed.

Lemma gerar_hash_schema_ilegivel (i : Inspector) :
  i_table_names i = None → gerar_hash_schema (banco_do_inspector i) = None.
Proof. intros H. unfold gerar_hash_schema. simpl. by rewrite H. Qed.

(** The run of the script and the drift cycle agree: the run ends with
    an exception only when the drift check raises, it returns what the
    cycle returns, and it leaves the session state and the presence of the
    memoised resources as the cycle does. *)
Theorem script_segue_ciclo (i : Inspector) (agora : pystr) (a : Streamlit) :
  app_de (script i agora a).2 = (ciclo (banco_do_inspector i) agora (app_de a)).2
  ∧ match (script i agora a).1 with
    | Concluiu r _ _ =>
      (ciclo (banco_do_inspector i) agora (app_de a)).1 = Retornou r
    | FalhouVerificacao e =>
      (ciclo (banco_do_inspector i) agora (app_de a)).1 = Levantou e
    | FalhouExibicao _ => False
    end.
Proof.
  unfold script, ciclo. cbn [app_de session recursos].
  destruct (verificar_mudancas (banco_do_inspector i) agora (st_session a))
    as [[r|e] s'] eqn:Hv; [|done].
  destruct (exibir_mudanca_ok _ _ _ _ _ Hv) as [avisos Ha].
  rewrite Ha. destruct (mudou r); [done|].
  unfold app_de. cbn. split; [|done]. do 2 f_equal.
Qed.

Lemma indice_legivel (i : Inspector) (nomes : list pystr) :
  legivel i nomes →
  tabelas_do_chat (docs_info (criar_vectordb_teste i)) = Some nomes
  ∧ vdb_banco_nome (criar_vectordb_teste i)
    = obter_banco_atual (banco_do_inspector i).
Proof.
  intros [Hn Hl].
  rewrite criar_vectordb_teste_docs, criar_vectordb_teste_nome.
  unfold tabelas_do_chat. rewrite tabelas_detectadas_base.
  unfold extrair_schema_completo. rewrite Hn.
  destruct (documentar_tabelas i _ nomes) as [docs|] eqn:Hd.
  - apply documentar_tabelas_docs in Hd.
    destruct (tabelas_de_docs _ _ _ Hd) as [_ Hc]. done.
  - apply documentar_tabelas_None in Hd as (t & Ht & Hf).
    destruct (Hl t Ht) as ([? H1] & [? H2] & [? H3]).
    rewrite H1, H2, H3 in Hf. by destruct Hf as [|[|]].
Qed.

Lemma indice_ilegivel (i : Inspector) :
  i_table_names i = None →
  tabelas_do_chat (docs_info (criar_vectordb_teste i)) = Some []
  ∧ num_tabelas (docs_info (criar_vectordb_teste i)) = 0%nat
  ∧ vdb_banco_nome (criar_vectordb_teste i) = py "Desconhecido".
Proof.
  intros Hn. unfold num_tabelas, tabelas_do_chat.
  rewrite criar_vectordb_teste_docs, criar_vectordb_teste_nome.
  rewrite tabelas_detectadas_base.
  unfold extrair_schema_completo. by rewrite Hn.
Qed.

Lemma script_primeira_legivel (i : Inspector) (agora : pystr)
    (nomes : list pystr) :
  legivel i nomes → indice_em_dia (script i agora streamlit_inicial).2.
Proof.
  intros Hl.
  destruct (gerar_hash_schema_legivel i nomes Hl) as (h & m & Hg & Hd).
  destruct (indice_legivel i nomes Hl) as [Ht Hn].
  unfold script, verificar_mudancas. rewrite Hg. simpl.
  exists (criar_vectordb_teste i), m, (obter_banco_atual (banco_do_inspector i)),
    nomes.
  simpl. split_and!; done.
Qed.

Lemma script_indice_em_dia (i : Inspector) (agora : pystr) (a : Streamlit) :
  tudo_ou_nada i → indice_em_dia a → indice_em_dia (script i agora a).2.
Proof.
  intros Hi (v & m & n & tabelas & Hv & [h Hh] & Hm & Hn & Ht & Hd & Hvn).
  destruct Hi as [[nomes Hl]|Hnone].
  2: { apply gerar_hash_schema_ilegivel in Hnone.
       unfold script, verificar_mudancas. rewrite Hnone, Hv. simpl.
       exists v, m, n, tabelas. simpl. split_and!; by eauto. }
  destruct (gerar_hash_schema_legivel i nomes Hl) as (h' & m' & Hg & Hd').
  destruct (indice_legivel i nomes Hl) as [Ht' Hn'].
  unfold script.
  destruct (verificar_mudancas (banco_do_inspector i) agora (st_session a))
    as [[r|e] s'] eqn:Hver.
  2: { revert Hver. unfold verificar_mudancas. rewrite Hg, Hh, Hm.
       repeat case_decide; done. }
  destruct (exibir_mudanca_ok _ _ _ _ _ Hver) as [avisos Ha]. rewrite Ha.
  revert Hver. unfold verificar_mudancas. rewrite Hg, Hh, Hm.
  destruct (decide (Some _ ≠ banco_atual (st_session a))) as [Hne|Heq].
  { intros [= <- <-]. simpl.
    exists (criar_vectordb_teste i), m',
      (obter_banco_atual (banco_do_inspector i)), nomes. simpl.
    split_and!; by eauto. }
  apply mesmo_banco in Heq.
  destruct (decide (h' ≠ h)) as [Hdif|Hig].
  { intros [= <- <-]. simpl.
    exists (criar_vectordb_teste i), m',
      (obter_banco_atual (banco_do_inspector i)), nomes. simpl.
    split_and!; by eauto. }
  intros [= <- <-]. simpl. rewrite Hv.
  exists v, m, n, tabelas. simpl. split_and!; by eauto.
Qed.


(** When the first run of a session cannot read the catalog, the index
    it memoises has no table and the name "Desconhecido".  The next run,
    which reads the catalog and stores the baseline, reports no change
    and so keeps that index: the chat is offered no table although the
    snapshot has them all. *)
Theorem indice_vazio_persiste (i1 i2 : Inspector) (agora1 agora2 : pystr)
    (nomes : list pystr) :
  i_table_names i1 = None →
  legivel i2 nomes →
  let a := executar_scripts [(i1, agora1); (i2, agora2)] streamlit_inicial in
  ∃ v m,
    st_vectordb a = Some v
    ∧ tabelas_do_chat (docs_info v) = Some []
    ∧ num_tabelas (docs_info v) = 0%nat
    ∧ vdb_banco_nome v = py "Desconhecido"
    ∧ schema_info (st_session a) = Some m
    ∧ dom m = list_to_set nomes.
Proof.
  intros H1 H2 a. subst a.
  destruct (gerar_hash_schema_legivel i2 nomes H2) as (h & m & Hg & Hd).
  destruct (indice_ilegivel i1 H1) as (Ht & Hn & Hb).
  pose proof (gerar_hash_schema_ilegivel i1 H1) as Hg1.
  assert (E1 : (script i1 agora1 streamlit_inicial).2
               = {| st_session := estado_inicial; st_engine := true;
                    st_vectordb := Some (criar_vectordb_teste i1) |}).
  { unfold script, verificar_mudancas. by rewrite Hg1. }
  unfold executar_scripts. cbn [foldl fst snd]. rewrite E1.
  unfold script, verificar_mudancas. rewrite Hg. simpl.
  exists (criar_vectordb_teste i1), m. split_and!; done.
Qed.


Lemma indice_vazio_persiste_witness :
  i_table_names inspector_inacessivel = None
  ∧ legivel inspector_A_X [py "T2"; py "T1"]
  ∧ ∃ v,
      st_vectordb (executar_scripts [(inspector_inacessivel, t0);
                                     (inspector_A_X, t1)] streamlit_inicial)
      = Some v
      ∧ num_tabelas (docs_info v) = 0%nat.
Proof.
  split; [reflexivity|]. split; [exact legivel_inspector_A_X|].
  destruct (indice_vazio_persiste inspector_inacessivel inspector_A_X t0 t1 _
              eq_refl legivel_inspector_A_X) as (v & m & Hv & _ & Hn & _).
  exists v. split; [exact Hv | exact Hn].
Defined.

(** ** The clean-up of generated SQL *)

Lemma startswith_nil (s : pystr) : startswith s [] = true.
Proof. by destruct s. Qed.

Lemma replace_um (c : N) (s : pystr) :
  replace [c] [] s = filter (fun x => x ≠ c) s.
Proof.
  unfold replace. induction s as [|x s IH]; [done|].
  cbn [replace_aux startswith length Nat.sub].
  rewrite startswith_nil, andb_true_r.
  destruct (N.eqb_spec c x) as [->|Hne].
  - cbn [app]. rewrite IH.
    by rewrite filter_cons_False by (intros H; by apply H).
  - rewrite IH. by rewrite filter_cons_True by congruence.
Qed.

Lemma aparador_elem (f : pystr -> pystr) (s : pystr) (x : N) :
  aparador f → x ∈ f s → x ∈ s.
Proof.
  intros Hf Hx. destruct (Hf s) as (antes & depois & Hs). rewrite Hs.
  rewrite !elem_of_app. auto.
Qed.

Lemma lstrip_sufixo (s : pystr) : ∃ antes, s = antes ++ PyAscii.lstrip s.
Proof.
  induction s as [|c s [antes IH]]; [by exists []|]. simpl.
  destruct (PyAscii.isspace c); [|by exists []].
  exists (c :: antes). simpl. by rewrite <-IH.
Qed.

Lemma strip_aparador : aparador PyAscii.strip.
Proof.
  intros s. unfold PyAscii.strip.
  destruct (lstrip_sufixo s) as [antes Ha].
  destruct (lstrip_sufixo (reverse (PyAscii.lstrip s))) as [depois Hd].
  exists antes, (reverse depois).
  rewrite <-reverse_app, <-Hd, reverse_involutive. done.
Qed.

Lemma replace_aux_drop (old new : pystr) (k : nat) (s : pystr) :
  replace_aux old new k s = replace_aux old new 0 (drop k s).
Proof.
  revert k. induction s as [|c s IH]; intros [|k]; try done.
  cbn [replace_aux drop]. apply IH.
Qed.

Lemma replace_vazio_elem (old : pystr) (k : nat) (s : pystr) (x : N) :
  x ∈ replace_aux old [] k s → x ∈ s.
Proof.
  revert k. induction s as [|c s IH]; intros k; [done|].
  cbn [replace_aux]. destruct k as [|k].
  - destruct (startswith (c :: s) old); cbn [app].
    + intros H. right. by eapply IH.
    + intros [->|H]%elem_of_cons; [by left|]. right. by eapply IH.
  - intros H. right. by eapply IH.
Qed.

Lemma startswith_cerca (s : pystr) :
  startswith s [96; 96; 96] = true ↔ ∃ r, s = 96 :: 96 :: 96 :: r.
Proof.
  split.
  - destruct s as [|a [|b [|c r]]]; cbn [startswith];
      rewrite ?andb_false_r; try done.
    destruct (N.eqb_spec 96 a) as [<-|], (N.eqb_spec 96 b) as [<-|],
      (N.eqb_spec 96 c) as [<-|]; cbn [andb]; try done.
    intros _. by exists r.
  - intros [r ->]. cbn. by destruct r.
Qed.

Lemma replace_cerca_passo (s : pystr) :
  (∃ r, s = 96 :: 96 :: 96 :: r
        ∧ replace [96; 96; 96] [] s = replace [96; 96; 96] [] r)
  ∨ (startswith s [96; 96; 96] = false
     ∧ match s with
       | [] => replace [96; 96; 96] [] s = []
       | c :: r =>
         replace [96; 96; 96] [] s = c :: replace [96; 96; 96] [] r
       end).
Proof.
  destruct (startswith s [96; 96; 96]) eqn:Hs.
  - left. apply startswith_cerca in Hs as [r ->]. exists r. split; [done|].
    unfold replace. cbn [replace_aux].
    assert (startswith (96 :: 96 :: 96 :: r) [96; 96; 96] = true) as ->
      by (apply startswith_cerca; by exists r).
    cbn [app length Nat.sub]. by rewrite replace_aux_drop.
  - right. split; [done|]. destruct s as [|c r]; [done|].
    unfold replace. cbn [replace_aux]. by rewrite Hs.
Qed.

Lemma replace_cerca_cabeca1 (s t : pystr) :
  replace [96; 96; 96] [] s = 96 :: t → ∃ r, s = 96 :: r.
Proof.
  destruct (replace_cerca_passo s) as [(r & -> & _)|[_ H]]; [by eexists|].
  destruct s as [|c r]; rewrite H; [done|]. intros [= -> _]. by eexists.
Qed.

Lemma replace_cerca_cabeca2 (s t : pystr) :
  replace [96; 96; 96] [] s = 96 :: 96 :: t → ∃ r, s = 96 :: 96 :: r.
Proof.
  destruct (replace_cerca_passo s) as [(r & -> & _)|[_ H]]; [by eexists|].
  destruct s as [|c r]; rewrite H; [done|]. intros [= -> Hr].
  apply replace_cerca_cabeca1 in Hr as [r' ->]. by eexists.
Qed.

Lemma replace_cerca_sem_cerca (s : pystr) :
  ¬ tem_cerca (replace [96; 96; 96] [] s).
Proof.
  remember (length s) as n eqn:Hn. revert s Hn.
  induction n as [n IH] using lt_wf_ind. intros s ->.
  destruct (replace_cerca_passo s) as [(r & -> & ->)|[Hs H]].
  { eapply IH; [|done]. simpl. lia. }
  destruct s as [|c r]; rewrite H.
  { intros (antes & depois & Ha). by destruct antes. }
  intros (antes & depois & Ha). destruct antes as [|x antes].
  - injection Ha as -> Ha. apply replace_cerca_cabeca2 in Ha as [r' ->].
    assert (startswith (96 :: 96 :: 96 :: r') [96; 96; 96] = true)
      by (apply startswith_cerca; by eexists).
    congruence.
  - injection Ha as -> Ha. eapply (IH (length r)); [simpl; lia|done|].
    by exists antes, depois.
Qed.

Lemma filter_sem (c : N) (s : pystr) :
  c ∉ s → filter (fun x => x ≠ c) s = s.
Proof.
  induction s as [|x s IH]; [done|]. intros H.
  rewrite filter_cons_True by (intros ->; apply H; by left).
  rewrite IH; [done|]. intros ?. apply H. by right.
Qed.

Lemma aparador_cerca (f : pystr -> pystr) (s : pystr) :
  aparador f → tem_cerca (f s) → tem_cerca s.
Proof.
  intros Hf (a & b & Hs). destruct (Hf s) as (antes & depois & E).
  exists (antes ++ a), (b ++ depois). rewrite E, Hs.
  by rewrite <-!(assoc_L (++)).
Qed.

Section GerarSqlProps.

Variable str_strip : pystr -> pystr.
Hypothesis str_strip_aparador : aparador str_strip.

Lemma limpar_sql_sem_invisiveis (content : pystr) :
  (8203 ∉ limpar_sql str_strip content)
  ∧ (65279 ∉ limpar_sql str_strip content).
Proof.
  unfold limpar_sql.
  split; intros H; apply (aparador_elem _ _ _ str_strip_aparador) in H;
    rewrite !replace_um in H;
    repeat (apply list_elem_of_filter in H as [? H]); done.
Qed.

(** [gerar_sql_teste] returns [None] exactly when the call of the model
    raises; otherwise it returns a text free of zero-width spaces (U+200B)
    and byte-order marks (U+FEFF), whatever the model answered.  In both
    cases the model is asked exactly once. *)
Theorem gerar_sql_teste_limpo (llm : pystr -> option pystr)
    (banco_nome pergunta contexto : pystr) (s : SessionState) :
  let prompt := prompt_sql banco_nome pergunta contexto s in
  (gerar_sql_teste str_strip llm banco_nome pergunta contexto s).2 = [prompt]
  ∧ match (gerar_sql_teste str_strip llm banco_nome pergunta contexto s).1 with
    | Some sql => is_Some (llm prompt) ∧ (8203 ∉ sql) ∧ (65279 ∉ sql)
    | None => llm prompt = None
    end.
Proof.
  intros prompt. unfold gerar_sql_teste. fold prompt.
  destruct (llm prompt) as [content|]; simpl; [|done].
  split; [done|]. split; [done|]. apply limpar_sql_sem_invisiveis.
Qed.

(** When the answer of the model, once stripped, begins with a Markdown
    fence and holds no zero-width space or byte-order mark, the text
    [gerar_sql_teste] returns holds no fence at all: neither the opening
    one, with or without its "sql" tag, nor any later one. *)
Theorem limpar_sql_sem_cerca (content : pystr) :
  startswith (str_strip content) [96; 96; 96] = true →
  8203 ∉ content →
  65279 ∉ content →
  ¬ tem_cerca (limpar_sql str_strip content).
Proof.
  intros Hs H1 H2 Hc. unfold limpar_sql in Hc. rewrite Hs in Hc.
  apply (aparador_cerca _ _ str_strip_aparador) in Hc.
  rewrite !replace_um in Hc.
  assert (Hin : ∀ x, x ∈ replace [96; 96; 96] []
                       (replace ([96; 96; 96] ++ py "sql") []
                          (str_strip content)) → x ∈ content).
  { intros x Hx. do 2 apply replace_vazio_elem in Hx.
    by apply (aparador_elem _ _ _ str_strip_aparador) in Hx. }
  rewrite (filter_sem 8203) in Hc by (intros ?; apply H1; by apply Hin).
  rewrite (filter_sem 65279) in Hc by (intros ?; apply H2; by apply Hin).
  by apply replace_cerca_sem_cerca in Hc.
Qed.

End GerarSqlProps.

Lemma gerar_sql_teste_limpo_witness :
  aparador PyAscii.strip
  ∧ (gerar_sql_teste PyAscii.strip
       (fun _ => Some ([32; 96; 96; 96] ++ py "sql" ++ [10] ++ py "SELECT 1"
                         ++ [8203; 10; 96; 96; 96; 10]))
       (py "A") (py "quantos?") [] sessao_A_X).1
    = Some (py "SELECT 1").
Proof.
  split; [exact strip_aparador|].
  pose proof (gerar_sql_teste_limpo PyAscii.strip strip_aparador
                (fun _ => Some ([32; 96; 96; 96] ++ py "sql" ++ [10]
                                  ++ py "SELECT 1"
                                  ++ [8203; 10; 96; 96; 96; 10]))
                (py "A") (py "quantos?") [] sessao_A_X) as [_ H].
  destruct (gerar_sql_teste _ _ _ _ _ _).1 as [sql|] eqn:E; [|discriminate H].
  rewrite <-E. vm_compute. reflexivity.
Defined.

Lemma limpar_sql_sem_cerca_witness :
  let content := [32; 96; 96; 96] ++ py "sql" ++ [10] ++ py "SELECT 1"
                   ++ [10; 96; 96; 96; 10] in
  startswith (PyAscii.strip content) [96; 96; 96] = true
  ∧ ¬ tem_cerca (limpar_sql PyAscii.strip content).
Proof.
  intros content.
  assert (Hs : startswith (PyAscii.strip content) [96; 96; 96] = true)
    by (vm_compute; reflexivity).
  split; [exact Hs|].
  apply (limpar_sql_sem_cerca PyAscii.strip strip_aparador content Hs).
  - intros H. vm_compute in H. by repeat (apply elem_of_cons in H as [H|H];
      [discriminate H|]); apply elem_of_nil in H.
  - intros H. vm_compute in H. by repeat (apply elem_of_cons in H as [H|H];
      [discriminate H|]); apply elem_of_nil in H.
Defined.

(** ** The chat *)

Ltac fecha_chat :=
  first [ done | by repeat constructor | simpl; lia | by left ].

Section ChatProps.

Variables str_lower str_upper str_strip : pystr -> pystr.
Variable DataFrame : Type.
Variable len_df : DataFrame -> nat.

Abbreviation responder' :=
  (responder str_lower str_upper str_strip DataFrame len_df).
Abbreviation responder_sql' := (responder_sql str_strip DataFrame len_df).
Abbreviation classificar' :=
  (classificar_intencao str_lower str_upper str_strip).

Lemma classificar_total_queries llm pergunta tabelas (s : SessionState) :
  total_queries (classificar' llm pergunta tabelas s).1.2 = total_queries s.
Proof.
  unfold classificar_intencao.
  destruct (cache_classificacoes s !! _); [done|]. by destruct (llm _).
Qed.

(** What the SQL branch appends and counts. *)
Lemma responder_sql_acrescenta (sv : Servicos DataFrame)
    (banco_nome prompt : pystr) (s : SessionState)
    (messages : list (Mensagem DataFrame)) :
  let r := responder_sql' sv banco_nome prompt s messages in
  ∃ respostas,
    r.1.2 = messages ++ respostas
    ∧ Forall (fun m => role m = py "assistant") respostas
    ∧ length respostas = match r.1.1.1 with FalhouChat => 0%nat | _ => 1%nat end
    ∧ total_queries r.1.1.2
      = (total_queries s + length (com_dataframe respostas))%nat
    ∧ ChamadaBusca prompt ∈ r.2.
Proof.
  unfold responder_sql, gerar_sql_teste.
  destruct (sv_busca sv prompt) as [docs_list|]; simpl.
  2: { exists []. rewrite app_nil_r. split_and!; fecha_chat. }
  destruct (sv_gerador sv _) as [content|]; simpl.
  2: { eexists [_]. split_and!; fecha_chat. }
  destruct (sv_read_sql sv _) as [e|df]; simpl.
  - eexists [_]. split_and!; fecha_chat.
  - eexists [_]. split_and!; fecha_chat.
Qed.


Lemma responder_conta (sv : Servicos DataFrame) (v : VectorDB)
    (prompt : pystr) (s : SessionState)
    (messages : list (Mensagem DataFrame)) :
  let r := responder' sv v prompt s messages in
  ∃ respostas,
    com_dataframe r.1.2
    = com_dataframe messages ++ com_dataframe respostas
    ∧ total_queries r.1.1.2
      = (total_queries s + length (com_dataframe respostas))%nat.
Proof.
  unfold responder.
  destruct (tabelas_do_chat (docs_info v)) as [tabelas|]; simpl.
  2: { exists []. unfold com_dataframe. rewrite filter_app. simpl.
       split; [done|lia]. }
  pose proof (classificar_total_queries (sv_classificador sv) prompt tabelas s)
    as Htq.
  destruct (classificar' (sv_classificador sv) prompt tabelas s)
    as [[categoria s1] prompts]. simpl in Htq.
  repeat case_decide; simpl.
  1-3: exists []; unfold com_dataframe; rewrite !filter_app; simpl;
       rewrite !app_nil_r; split; [done|lia].
  destruct (responder_sql_acrescenta sv (vdb_banco_nome v) prompt s1
              (messages ++ [mensagem_user prompt]))
    as (respostas & Hr1 & _ & _ & Hr4 & _).
  destruct (responder_sql' sv (vdb_banco_nome v) prompt s1 _)
    as [[[fim s2] messages2] mais]. simpl in *.
  exists respostas. rewrite Hr1, Hr4, Htq. split; [|done].
  unfold com_dataframe. rewrite !filter_app. simpl. by rewrite app_nil_r.
Qed.

(** A greeting, a question about the system and a senseless text are
    answered with the fixed texts alone: nothing is retrieved, no SQL is
    generated, the database is not queried and [total_queries] stays as it
    is.  Every other category takes the SQL branch, which starts with the
    retrieval. *)
Theorem responder_por_categoria (sv : Servicos DataFrame) (v : VectorDB)
    (prompt : pystr) (s : SessionState)
    (messages : list (Mensagem DataFrame)) (tabelas : list pystr) :
  tabelas_do_chat (docs_info v) = Some tabelas →
  let categoria := (classificar' (sv_classificador sv) prompt tabelas s).1.1 in
  let r := responder' sv v prompt s messages in
  if decide (categoria ∈ [py "SAUDACAO"; py "GENERICA"; py "IRRELEVANTE"])
  then
    r.1.1.1 = Respondeu
    ∧ Forall (fun c => ¬ chamada_de_consulta c) r.2
    ∧ total_queries r.1.1.2 = total_queries s
    ∧ ∃ texto,
        r.1.2 = messages ++ [mensagem_user prompt; mensagem_assistant texto]
        ∧ texto ∈ [resposta_saudacao;
                   resposta_generica (vdb_banco_nome v) tabelas;
                   resposta_irrelevante]
  else ChamadaBusca prompt ∈ r.2.
Proof.
  intros Ht categoria r. subst categoria r. unfold responder. rewrite Ht.
  pose proof (classificar_total_queries (sv_classificador sv) prompt tabelas s)
    as Htq.
  destruct (classificar' (sv_classificador sv) prompt tabelas s)
    as [[categoria s1] prompts]. simpl in Htq. simpl.
  assert (Hcl : Forall (fun c => ¬ chamada_de_consulta c)
                  (map ChamadaClassificador prompts)).
  { apply Forall_fmap, Forall_forall. intros p _. simpl. tauto. }
  destruct (decide (categoria = py "SAUDACAO")) as [->|H1].
  { rewrite decide_True by (by left). simpl. split_and!; try done.
    eexists. rewrite <-(assoc_L (++)). split; [done|]. by left. }
  destruct (decide (categoria = py "GENERICA")) as [->|H2].
  { rewrite decide_True by (by right; left). simpl. split_and!; try done.
    eexists. rewrite <-(assoc_L (++)). split; [done|]. by right; left. }
  destruct (decide (categoria = py "IRRELEVANTE")) as [->|H3].
  { rewrite decide_True by (by right; right; left). simpl.
    split_and!; try done.
    eexists. rewrite <-(assoc_L (++)). split; [done|]. by right; right; left. }
  rewrite decide_False.
  2: { intros H. repeat (apply elem_of_cons in H as [H|H]; [done|]).
       by apply elem_of_nil in H. }
  destruct (responder_sql_acrescenta sv (vdb_banco_nome v) prompt s1
              (messages ++ [mensagem_user prompt]))
    as (respostas & _ & _ & _ & _ & Hb).
  destruct (responder_sql' sv (vdb_banco_nome v) prompt s1 _)
    as [[[fim s2] messages2] mais]. simpl in *.
  apply elem_of_app. by right.
Qed.

End ChatProps.

(** ** The page *)

Section PaginaProps.

Variables str_lower str_upper str_strip : pystr -> pystr.
Variable DataFrame : Type.
Variable len_df : DataFrame -> nat.

Abbreviation interagir' :=
  (interagir str_lower str_upper str_strip DataFrame len_df).
Abbreviation navegar' :=
  (navegar str_lower str_upper str_strip DataFrame len_df).
Abbreviation responder'' :=
  (responder str_lower str_upper str_strip DataFrame len_df).

Lemma verificar_mudancas_total_queries (b : Banco) (agora : pystr)
    (s : SessionState) :
  total_queries (verificar_mudancas b agora s).2 = total_queries s.
Proof. casos_verificar; done. Qed.

Lemma script_total_queries (i : Inspector) (agora : pystr) (a : Streamlit) :
  total_queries (st_session (script i agora a).2)
  = total_queries (st_session a).
Proof.
  pose proof (verificar_mudancas_total_queries (banco_do_inspector i) agora
                (st_session a)) as H.
  unfold script.
  destruct (verificar_mudancas _ _ _) as [[r|e] s']; simpl in *; [|done].
  destruct (mudou r); [|done]. by destruct (exibir_mudanca r s').
Qed.

Lemma com_dataframe_app (l1 l2 : list (Mensagem DataFrame)) :
  com_dataframe (l1 ++ l2)
  = com_dataframe l1 ++ com_dataframe l2.
Proof. apply filter_app. Qed.

(** What one run does to the count of dataframes and to the counter. *)
Lemma interagir_conta (i : Inspector) (agora : pystr)
    (acao : Acao DataFrame) (p : Pagina DataFrame) :
  let p' := (interagir' i agora acao p).1 in
  (acao = BotaoLimparChat DataFrame
   ∧ total_queries (st_session (pag_st p'))
     = total_queries (st_session (pag_st p))
   ∧ (pag_messages p' = [] ∨ pag_messages p' = pag_messages p))
  ∨ (acao ≠ BotaoLimparChat DataFrame
     ∧ ∃ k,
         total_queries (st_session (pag_st p'))
         = (total_queries (st_session (pag_st p)) + k)%nat
         ∧ length (com_dataframe (pag_messages p'))
           = (length (com_dataframe (pag_messages p)) + k)%nat).
Proof.
  pose proof (script_total_queries i agora (pag_st p)) as Hs.
  unfold interagir.
  destruct (script i agora (pag_st p)) as [[r avisos v|e|e] a]; simpl in *.
  2-3: destruct acao; [right|left|right|right]; split; try done;
       first [ by auto | exists 0%nat; split; [lia|lia] ].
  destruct acao as [| | |prompt sv]; simpl.
  - right. split; [done|]. exists 0%nat. split; lia.
  - left. auto.
  - right. split; [done|]. exists 0%nat. simpl. split; lia.
  - right. split; [done|].
    destruct (responder_conta str_lower str_upper str_strip DataFrame len_df
                sv v prompt (st_session a) (pag_messages p))
      as (respostas & H1 & H2).
    destruct (responder'' sv v prompt (st_session a) (pag_messages p))
      as [[[fim s2] messages2] chamadas]. simpl in *.
    exists (length (com_dataframe respostas)).
    rewrite H2, Hs, H1. split; [done|]. by rewrite length_app.
Qed.


Lemma script_conclui (i : Inspector) (agora : pystr) (a : Streamlit) :
  coerente (st_session a) →
  ∃ r avisos v,
    (script i agora a).1 = Concluiu r avisos v
    ∧ coerente (st_session (script i agora a).2)
    ∧ (st_vectordb a = None → v = criar_vectordb_teste i)
    ∧ st_vectordb (script i agora a).2 = Some v.
Proof.
  intros Hc.
  pose proof (verificar_mudancas_coerente (banco_do_inspector i) agora _ Hc)
    as Hc'.
  pose proof (verificar_mudancas_nao_levanta (banco_do_inspector i) agora
                (st_session a)) as Hn.
  unfold script.
  destruct (verificar_mudancas (banco_do_inspector i) agora (st_session a))
    as [[r|e] s'] eqn:Hv.
  2: { by destruct (Hn e Hc). }
  destruct (exibir_mudanca_ok _ _ _ _ _ Hv) as [avisos Ha]. rewrite Ha.
  simpl in Hc'. destruct (mudou r); simpl.
  - by eexists _, _, _.
  - eexists _, _, _. split_and!; try done. by intros ->.
Qed.

Lemma responder_coerente (sv : Servicos DataFrame) (v : VectorDB)
    (prompt : pystr) (s : SessionState)
    (messages : list (Mensagem DataFrame)) :
  coerente s → coerente (responder'' sv v prompt s messages).1.1.2.
Proof.
  intros Hc. unfold responder.
  destruct (tabelas_do_chat (docs_info v)) as [tabelas|]; [|done].
  assert (Hc1 : coerente
                  (classificar_intencao str_lower str_upper str_strip
                     (sv_classificador sv) prompt tabelas s).1.2).
  { unfold classificar_intencao.
    destruct (cache_classificacoes s !! _); [done|].
    by destruct (sv_classificador sv _). }
  destruct (classificar_intencao _ _ _ _ _ _ _) as [[categoria s1] prompts].
  simpl in Hc1. repeat case_decide; try done.
  unfold responder_sql, gerar_sql_teste.
  destruct (sv_busca sv prompt); [|done].
  destruct (sv_gerador sv _); [|done].
  by destruct (sv_read_sql sv _).
Qed.

Lemma interagir_coerente (i : Inspector) (agora : pystr)
    (acao : Acao DataFrame) (p : Pagina DataFrame) :
  coerente (st_session (pag_st p)) →
  coerente (st_session (pag_st (interagir' i agora acao p).1)).
Proof.
  intros Hc.
  destruct (script_conclui i agora (pag_st p) Hc) as (r & avisos & v & H1 & H2 & _).
  unfold interagir.
  destruct (script i agora (pag_st p)) as [fim a]. simpl in *. subst fim.
  destruct acao as [| | |prompt sv]; try done.
  pose proof (responder_coerente sv v prompt (st_session a) (pag_messages p) H2)
    as H3.
  by destruct (responder'' sv v prompt (st_session a) (pag_messages p))
    as [[[fim s2] messages2] chamadas].
Qed.

Lemma navegar_coerente (passos : list (Inspector * pystr * Acao DataFrame)) :
  coerente (st_session (pag_st (navegar' passos (pagina_inicial DataFrame)))).
Proof.
  unfold navegar.
  assert (H0 : coerente (st_session (pag_st (pagina_inicial DataFrame))))
    by (by left).
  revert H0. generalize (pagina_inicial DataFrame) as p.
  induction passos as [|[[i agora] acao] passos IH]; intros p Hp; [done|].
  cbn [foldl fst snd]. by apply IH, interagir_coerente.
Qed.

(** "Atualizar Banco" empties the memoised index, and the next run
    builds a new one from the catalog as that run reads it, whether or
    not it detects a drift: with a readable catalog the new index lists
    the tables of the catalog. *)
Theorem atualizar_banco_reconstroi
    (passos : list (Inspector * pystr * Acao DataFrame))
    (i0 i : Inspector) (agora0 agora : pystr) (nomes : list pystr) :
  legivel i nomes →
  let p := navegar' passos (pagina_inicial DataFrame) in
  let p1 := (interagir' i0 agora0 (BotaoAtualizarBanco DataFrame) p).1 in
  st_vectordb (pag_st p1) = None
  ∧ st_vectordb (script i agora (pag_st p1)).2
    = Some (criar_vectordb_teste i)
  ∧ tabelas_do_chat (docs_info (criar_vectordb_teste i)) = Some nomes.
Proof.
  intros Hl p p1.
  pose proof (navegar_coerente passos) as Hc. fold p in Hc.
  assert (H1 : st_vectordb (pag_st p1) = None
               ∧ coerente (st_session (pag_st p1))).
  { subst p1. unfold interagir.
    destruct (script_conclui i0 agora0 (pag_st p) Hc)
      as (r & avisos & v & H1 & H2 & _).
    destruct (script i0 agora0 (pag_st p)) as [fim a]. simpl in *.
    by subst fim. }
  destruct H1 as [Hnone Hc1]. split; [done|].
  destruct (script_conclui i agora (pag_st p1) Hc1)
    as (r & avisos & v & _ & _ & Hv & Hs).
  rewrite Hs, (Hv Hnone). split; [done|]. by apply indice_legivel.
Qed.

End PaginaProps.

Lemma responder_por_categoria_witness :
  let r := responder PyAscii.lower PyAscii.upper PyAscii.strip _ length
             servicos_saudacao (criar_vectordb_teste inspector_A_X) (py "oi")
             sessao_A_X [] in
  tabelas_do_chat (docs_info (criar_vectordb_teste inspector_A_X))
  = Some [py "T2"; py "T1"]
  ∧ r.1.1.1 = Respondeu
  ∧ r.2 = [ChamadaClassificador
             (prompt_classificacao (py "T2, T1") (py "oi"))].
Proof.
  intros r.
  assert (Ht : tabelas_do_chat (docs_info (criar_vectordb_teste inspector_A_X))
               = Some [py "T2"; py "T1"]) by (vm_compute; reflexivity).
  split; [exact Ht|].
  pose proof (responder_por_categoria PyAscii.lower PyAscii.upper
                PyAscii.strip _ length servicos_saudacao
                (criar_vectordb_teste inspector_A_X) (py "oi") sessao_A_X []
                _ Ht) as H.
  rewrite decide_True in H by (vm_compute; by left).
  destruct H as (H1 & _). split; [exact H1|]. vm_compute. reflexivity.
Defined.


Lemma atualizar_banco_reconstroi_witness :
  legivel inspector_A_Y [py "T2"; py "T3"]
  ∧ st_vectordb
      (script inspector_A_Y t2
         (pag_st (interagir PyAscii.lower PyAscii.upper PyAscii.strip _ length
                    inspector_A_X t1 (BotaoAtualizarBanco _)
                    (navegar PyAscii.lower PyAscii.upper PyAscii.strip _
                       length navegacao_exemplo (pagina_inicial _))).1)).2
    = Some (criar_vectordb_teste inspector_A_Y).
Proof.
  split; [exact legivel_inspector_A_Y|].
  exact (proj1 (proj2 (atualizar_banco_reconstroi PyAscii.lower PyAscii.upper
                         PyAscii.strip _ length navegacao_exemplo
                         inspector_A_X inspector_A_Y t1 t2 _
                         legivel_inspector_A_Y))).
Defined.

(** ** The connection *)

Lemma encode_char_bytes (c : N) (bs : list N) :
  encode_char c = Some bs → Forall (fun b => b < 256) bs.
Proof.
  unfold encode_char.
  destruct (N.ltb_spec c 128).
  { intros [= <-]. repeat constructor. lia. }
  destruct (N.ltb_spec c 2048).
  { intros [= <-].
    assert (c / 64 < 32) by (apply N.Div0.div_lt_upper_bound; lia).
    assert (c mod 64 < 64) by (apply N.mod_lt; lia).
    repeat constructor; lia. }
  destruct ((55296 <=? c) && (c <=? 57343)); [done|].
  destruct (N.ltb_spec c 65536).
  { intros [= <-].
    assert (c / 4096 < 16) by (apply N.Div0.div_lt_upper_bound; lia).
    assert ((c / 64) mod 64 < 64) by (apply N.mod_lt; lia).
    assert (c mod 64 < 64) by (apply N.mod_lt; lia).
    repeat constructor; lia. }
  destruct (N.ltb_spec c 1114112); [|done].
  intros [= <-].
  assert (c / 262144 < 5) by (apply N.Div0.div_lt_upper_bound; lia).
  assert ((c / 4096) mod 64 < 64) by (apply N.mod_lt; lia).
  assert ((c / 64) mod 64 < 64) by (apply N.mod_lt; lia).
  assert (c mod 64 < 64) by (apply N.mod_lt; lia).
  repeat constructor; lia.
Qed.

Lemma encode_bytes (s : pystr) (bs : list N) :
  encode s = Some bs → Forall (fun b => b < 256) bs.
Proof.
  revert bs. induction s as [|c s IH]; intros bs; simpl.
  - intros [= <-]. constructor.
  - destruct (encode_char c) as [b1|] eqn:Hc; [|done].
    destruct (encode s) as [b2|]; [|done]. intros [= <-].
    apply Forall_app. split; [by eapply encode_char_bytes|by apply IH].
Qed.

Lemma hexdigit_maiusculo_seguro (d : N) :
  d < 16 → url_seguro (hexdigit_maiusculo d).
Proof.
  intros Hd. left. unfold hexdigit_maiusculo, sempre_seguro.
  destruct (N.ltb_spec d 10).
  - assert ((48 <=? 48 + d) = true) as -> by (apply N.leb_le; lia).
    assert ((48 + d <=? 57) = true) as -> by (apply N.leb_le; lia).
    cbn. by rewrite !orb_true_r.
  - assert ((65 <=? 55 + d) = true) as -> by (apply N.leb_le; lia).
    assert ((55 + d <=? 90) = true) as -> by (apply N.leb_le; lia).
    done.
Qed.

Lemma quote_byte_seguro (b : N) : b < 256 → Forall url_seguro (quote_byte b).
Proof.
  intros Hb. unfold quote_byte.
  destruct (sempre_seguro b) eqn:Hs.
  { constructor; [by left|constructor]. }
  destruct (b =? 32).
  { constructor; [right; by left|constructor]. }
  constructor; [right; by right|].
  constructor; [|constructor; [|constructor]].
  - apply hexdigit_maiusculo_seguro, N.Div0.div_lt_upper_bound. lia.
  - apply hexdigit_maiusculo_seguro, N.mod_lt. lia.
Qed.

Lemma quote_plus_seguro (s params : pystr) :
  quote_plus s = Some params → Forall url_seguro params.
Proof.
  unfold quote_plus. destruct (encode s) as [bs|] eqn:He; [|done].
  intros [= <-]. apply encode_bytes in He.
  apply Forall_concat, Forall_fmap.
  eapply Forall_impl; [exact He|]. intros b. apply quote_byte_seguro.
Qed.

(** Whatever the variables hold, the URL handed to [create_engine] is the
    fixed prefix followed by letters, digits, [_.-~], [+] and percent
    escapes only: no character of a server name, user name or password
    can end or split the [odbc_connect] parameter.  No URL is built, and
    [create_engine] is not called, when the server or the database is
    unset or empty. *)
Theorem url_de_conexao_seguro (env : Ambiente) :
  match url_de_conexao env with
  | Some url =>
    ∃ params,
      url = py "mssql+pyodbc:///?odbc_connect=" ++ params
      ∧ Forall url_seguro params
      ∧ ¬ ausente (DB_SERVER env) ∧ ¬ ausente (DB_DATABASE env)
  | None =>
    ∀ (Engine : Type) (create_engine : pystr -> option Engine),
      conectar_banco create_engine env = None
  end.
Proof.
  destruct (url_de_conexao env) as [url|] eqn:Hu.
  2: { intros Engine ce. unfold conectar_banco. by rewrite Hu. }
  revert Hu. unfold url_de_conexao, ausente.
  destruct (DB_SERVER env) as [[|c1 server]|]; try done.
  destruct (DB_DATABASE env) as [[|c2 database]|]; try done.
  destruct (quote_plus _) as [params|] eqn:Hq; [|done].
  intros [= <-]. exists params. split_and!; try done.
  - by eapply quote_plus_seguro.
  - by intros [|].
  - by intros [|].
Qed.

(** A user name without a password, or a password without a user name,
    is ignored: the URL is the one of Windows authentication, the same as
    with neither. *)
Theorem url_de_conexao_credencial_avulsa (env : Ambiente) :
  ausente (DB_USER env) ∨ ausente (DB_PASSWORD env) →
  url_de_conexao env = url_de_conexao (sem_credenciais env).
Proof.
  unfold url_de_conexao, ausente. simpl.
  destruct (DB_SERVER env) as [[|c1 server]|]; try done.
  destruct (DB_DATABASE env) as [[|c2 database]|]; try done.
  destruct (DB_USER env) as [[|c3 user]|], (DB_PASSWORD env) as [[|c4 pw]|];
    try done.
  by intros [[|]|[|]].
Qed.

Example url_de_conexao_exemplo :
  url_de_conexao ambiente_exemplo
  = Some (py "mssql+pyodbc:///?odbc_connect=DRIVER%3D%7BODBC+Driver+17+for+SQL+Server%7D%3BSERVER%3Dsrv%5CSQLEXPRESS%3BDATABASE%3DLoja%3BUID%3Dana%3BPWD%3Ds3nh%40+%26%3D%3B").
Proof. vm_compute. reflexivity. Qed.

Lemma url_de_conexao_credencial_avulsa_witness :
  let env := {| DB_DRIVER := None; DB_SERVER := Some (py "srv");
                DB_DATABASE := Some (py "Loja"); DB_USER := Some (py "ana");
                DB_PASSWORD := None |} in
  ausente (DB_PASSWORD env)
  ∧ url_de_conexao env
    = Some (py "mssql+pyodbc:///?odbc_connect=DRIVER%3D%7BODBC+Driver+17+for+SQL+Server%7D%3BSERVER%3Dsrv%3BDATABASE%3DLoja%3BTrusted_Connection%3Dyes").
Proof.
  intros env. assert (H : ausente (DB_PASSWORD env)) by (by left).
  split; [exact H|].
  rewrite (url_de_conexao_credencial_avulsa env (or_intror H)).
  vm_compute. reflexivity.
Defined.

(** ** The serialisation can be read back *)

Module JsonInj.

Lemma unhexdigit_hexdigit (d : N) :
  d < 16 → unhexdigit (Json.hexdigit d) = d.
Proof.
  intros Hd. unfold unhexdigit, Json.hexdigit.
  destruct (N.ltb_spec d 10).
  - destruct (N.ltb_spec (48 + d) 58); lia.
  - destruct (N.ltb_spec (87 + d) 58); lia.
Qed.

Lemma unhex4_hex4 (n : N) (r : pystr) :
  n < 65536 →
  ∃ a b c d,
    Json.hex4 n ++ r = a :: b :: c :: d :: r ∧ unhex4 a b c d = n.
Proof.
  intros Hn. eexists _, _, _, _. split; [reflexivity|]. unfold unhex4.
  rewrite !unhexdigit_hexdigit by (apply N.mod_lt; lia).
  assert (H1 := N.div_mod n 4096). assert (H2 := N.div_mod n 256).
  assert (H3 := N.div_mod n 16).
  assert (H4 := N.div_mod (n / 4096) 16).
  assert (H5 := N.div_mod (n / 256) 16). assert (H6 := N.div_mod (n / 16) 16).
  assert (n / 4096 < 16) by (apply N.Div0.div_lt_upper_bound; lia).
  rewrite (N.mod_small (n / 4096) 16) by done.
  assert (E1 : n / 256 / 16 = n / 4096) by (by rewrite N.Div0.div_div).
  assert (E2 : n / 16 / 16 = n / 256) by (by rewrite N.Div0.div_div).
  assert (M1 := N.mod_lt n 16). assert (M2 := N.mod_lt (n / 16) 16).
  assert (M3 := N.mod_lt (n / 256) 16).
  lia.
Qed.

Lemma lor_soma (a y : N) : y < 1024 → N.lor (a * 1024) y = a * 1024 + y.
Proof.
  intros Hy.
  assert (H : N.land (a * 2 ^ 10) y = 0).
  { apply N.bits_inj. intros m. rewrite N.land_spec, N.bits_0.
    destruct (N.lt_ge_cases m 10) as [Hm|Hm].
    - by rewrite N.mul_pow2_bits_low.
    - destruct (N.eq_dec y 0) as [->|Hy0].
      + by rewrite N.bits_0, andb_false_r.
      + rewrite (N.bits_above_log2 y m), andb_false_r; [done|].
        eapply N.lt_le_trans; [|exact Hm].
        apply N.log2_lt_pow2; [lia|]. exact Hy. }
  change (a * 1024) with (a * 2 ^ 10).
  by rewrite N.add_nocarry_lxor, N.lxor_lor.
Qed.

Lemma substituto_alto (n : N) :
  n < 1048576 →
  N.lor 55296 (N.land (N.shiftr n 10) 1023) = 55296 + n / 1024
  ∧ N.lor 56320 (N.land n 1023) = 56320 + n mod 1024
  ∧ n / 1024 < 1024 ∧ n mod 1024 < 1024.
Proof.
  intros Hn.
  assert (H1 : n / 1024 < 1024) by (apply N.Div0.div_lt_upper_bound; lia).
  assert (H2 : n mod 1024 < 1024) by (apply N.mod_lt; lia).
  rewrite N.shiftr_div_pow2.
  change 1023 with (N.ones 10). rewrite !N.land_ones.
  change (2 ^ 10) with 1024. rewrite (N.mod_small (n / 1024)) by done.
  change 55296 with (54 * 1024). change 56320 with (55 * 1024).
  by rewrite !lor_soma.
Qed.

(** Reading undoes the escape of one character. *)
Lemma ler_escape (c : N) (r : pystr) :
  escalar c → ler_char (Json.escape_char c ++ r) = Some (c, r).
Proof.
  intros Hc. unfold Json.escape_char.
  destruct (N.eqb_spec c 92) as [->|H92]; [done|].
  destruct (N.eqb_spec c 34) as [->|H34]; [done|].
  destruct (N.eqb_spec c 8) as [->|H8]; [done|].
  destruct (N.eqb_spec c 12) as [->|H12]; [done|].
  destruct (N.eqb_spec c 10) as [->|H10]; [done|].
  destruct (N.eqb_spec c 13) as [->|H13]; [done|].
  destruct (N.eqb_spec c 9) as [->|H9]; [done|].
  destruct ((32 <=? c) && (c <=? 126)).
  { cbn [app ler_char]. by rewrite (proj2 (N.eqb_neq c 92)). }
  destruct (N.ltb_spec c 65536) as [Hlt|Hge].
  - unfold Json.u_escape. cbn [app].
    destruct (unhex4_hex4 c r Hlt) as (a & b & c' & d & -> & Hu).
    cbn [ler_char]. change (92 =? 92) with true. change (117 =? 117) with true.
    cbn iota. rewrite Hu.
    assert ((55296 <=? c) && (c <=? 56319) = false) as ->.
    { apply andb_false_iff. destruct Hc as [?|[? ?]].
      - left. apply N.leb_gt. lia.
      - right. apply N.leb_gt. lia. }
    done.
  - assert (Hn : c - 65536 < 1048576) by (destruct Hc; lia).
    destruct (substituto_alto _ Hn) as (-> & -> & H1 & H2).
    assert (Hd := N.div_mod (c - 65536) 1024).
    remember ((c - 65536) / 1024) as q eqn:Hq.
    remember ((c - 65536) mod 1024) as m eqn:Hm. clear Hq Hm.
    unfold Json.u_escape. cbn [app]. rewrite <-!(assoc_L (++)). cbn [app].
    destruct (unhex4_hex4 (56320 + m) r)
      as (e & f & g & h & -> & Hlo); [lia|].
    destruct (unhex4_hex4 (55296 + q) (92 :: 117 :: e :: f :: g :: h :: r))
      as (a & b & c' & d & -> & Hhi); [lia|].
    cbn [ler_char]. change (92 =? 92) with true. change (117 =? 117) with true.
    cbn iota. rewrite Hhi, Hlo.
    assert ((55296 <=? 55296 + q) && (55296 + q <=? 56319) = true) as ->.
    { apply andb_true_iff. split; apply N.leb_le; lia. }
    f_equal. f_equal. lia.
Qed.

(** No escape begins with a quote. *)
Lemma escape_sem_aspas (c : N) (r r' : pystr) :
  escalar c → Json.escape_char c ++ r ≠ 34 :: r'.
Proof.
  intros Hc E. pose proof (ler_escape c r Hc) as H. rewrite E in H.
  cbn in H. injection H as <- _. by cbn in E.
Qed.

(** The body of a string, up to its closing quote, is read back. *)
Lemma corpo_inj (s1 s2 r1 r2 : pystr) :
  texto_valido s1 → texto_valido s2 →
  concat (map Json.escape_char s1) ++ 34 :: r1
  = concat (map Json.escape_char s2) ++ 34 :: r2 →
  s1 = s2 ∧ r1 = r2.
Proof.
  intros H1. revert s2. induction H1 as [|c1 s1 Hc1 Hs1 IH];
    intros s2 H2 E; destruct H2 as [|c2 s2 Hc2 Hs2]; cbn in E.
  - by injection E as ->.
  - symmetry in E. rewrite <-(assoc_L (++)) in E.
    by apply escape_sem_aspas in E.
  - rewrite <-(assoc_L (++)) in E. by apply escape_sem_aspas in E.
  - rewrite <-!(assoc_L (++)) in E.
    pose proof (ler_escape c1 (concat (map Json.escape_char s1) ++ 34 :: r1)
                  Hc1) as L1.
    rewrite E, ler_escape in L1 by done. injection L1 as -> E'.
    destruct (IH s2 Hs2) as [-> ->]; done.
Qed.

Lemma dumps_str_inj (s1 s2 r1 r2 : pystr) :
  texto_valido s1 → texto_valido s2 →
  Json.dumps_str s1 ++ r1 = Json.dumps_str s2 ++ r2 →
  s1 = s2 ∧ r1 = r2.
Proof.
  intros H1 H2. unfold Json.dumps_str. cbn [app].
  rewrite <-!(assoc_L (++)). cbn [app]. intros [= E].
  by apply corpo_inj.
Qed.

Lemma dumps_str_aspas (s : pystr) : ∃ t, Json.dumps_str s = 34 :: t.
Proof. by eexists. Qed.

Lemma join_cons_cons (sep x y : pystr) (l : list pystr) :
  PyStr.join sep (x :: y :: l) = x ++ sep ++ PyStr.join sep (y :: l).
Proof. reflexivity. Qed.

(** A sequence of items that each begin with a quote and can be read back,
    joined by [", "] and closed by one character that is neither a quote
    nor a comma, can be read back. *)
Section Join.

Context {A : Type} (f : A → pystr) (P : A → Prop) (fim : N).
Hypothesis f_inj : ∀ a1 a2 r1 r2,
  P a1 → P a2 → f a1 ++ r1 = f a2 ++ r2 → a1 = a2 ∧ r1 = r2.
Hypothesis f_aspas : ∀ a, ∃ t, f a = 34 :: t.
Hypothesis fim_aspas : fim ≠ 34.
Hypothesis fim_virgula : fim ≠ 44.

Lemma join_cons (a : A) (l : list A) (r : pystr) :
  PyStr.join [44; 32] (map f (a :: l)) ++ r
  = f a ++ match l with
           | [] => r
           | _ => 44 :: 32 :: PyStr.join [44; 32] (map f l) ++ r
           end.
Proof.
  destruct l as [|b l]; [done|].
  cbn [map]. rewrite join_cons_cons. by rewrite <-!(assoc_L (++)).
Qed.

Lemma join_inj (l1 l2 : list A) (r1 r2 : pystr) :
  Forall P l1 → Forall P l2 →
  PyStr.join [44; 32] (map f l1) ++ fim :: r1
  = PyStr.join [44; 32] (map f l2) ++ fim :: r2 →
  l1 = l2 ∧ r1 = r2.
Proof.
  intros H1. revert l2.
  induction H1 as [|a1 l1 Ha1 Hl1 IH]; intros l2 H2 E;
    destruct H2 as [|a2 l2 Ha2 Hl2].
  - cbn in E. by injection E as ->.
  - rewrite join_cons in E. destruct (f_aspas a2) as [t Ht].
    rewrite Ht in E. cbn in E. injection E as E _. done.
  - rewrite join_cons in E. destruct (f_aspas a1) as [t Ht].
    rewrite Ht in E. cbn in E. injection E as E _. done.
  - rewrite !join_cons in E. apply f_inj in E as [-> E]; [|done..].
    destruct l1 as [|b1 l1], l2 as [|b2 l2].
    + by injection E as ->.
    + injection E as E _. done.
    + injection E as E _. done.
    + injection E as E. by destruct (IH _ Hl2 E) as [-> ->].
Qed.

End Join.

Lemma dumps_list_inj (l1 l2 : list pystr) (r1 r2 : pystr) :
  Forall texto_valido l1 → Forall texto_valido l2 →
  Json.dumps_list l1 ++ r1 = Json.dumps_list l2 ++ r2 →
  l1 = l2 ∧ r1 = r2.
Proof.
  intros H1 H2. unfold Json.dumps_list. cbn [app].
  rewrite <-!(assoc_L (++)). cbn [app]. intros [= E].
  by apply (join_inj Json.dumps_str texto_valido 93 dumps_str_inj
              dumps_str_aspas) in E.
Qed.

Lemma dumps_item_inj (a1 a2 : pystr * list pystr) (r1 r2 : pystr) :
  item_valido a1 → item_valido a2 →
  Json.dumps_item a1 ++ r1 = Json.dumps_item a2 ++ r2 →
  a1 = a2 ∧ r1 = r2.
Proof.
  destruct a1 as [k1 v1], a2 as [k2 v2]. intros [Hk1 Hv1] [Hk2 Hv2].
  unfold Json.dumps_item. cbn [fst snd] in *.
  rewrite <-!(assoc_L (++)). intros E.
  apply dumps_str_inj in E as [-> E]; [|done..].
  apply (app_inv_head [58; 32]) in E.
  by apply dumps_list_inj in E as [-> ->].
Qed.

Lemma dumps_item_aspas (a : pystr * list pystr) :
  ∃ t, Json.dumps_item a = 34 :: t.
Proof. by eexists. Qed.

#[local] Existing Instance Json.key_le_dec.

Lemma itens_validos (d : Schema) :
  schema_valido d →
  Forall item_valido (merge_sort Json.key_le (map_to_list d)).
Proof.
  intros Hd. apply Forall_forall. intros [k v] Hin.
  rewrite merge_sort_Permutation in Hin.
  apply elem_of_map_to_list in Hin. exact (Hd k v Hin).
Qed.

(** The serialisation of a snapshot determines the snapshot. *)
Lemma dumps_inj (d1 d2 : Schema) :
  schema_valido d1 → schema_valido d2 →
  Json.dumps d1 = Json.dumps d2 → d1 = d2.
Proof.
  intros H1 H2. unfold Json.dumps. cbn [app]. intros [= E].
  apply (join_inj Json.dumps_item item_valido 125 dumps_item_inj
           dumps_item_aspas) in E as [E _];
    [|done|done|by apply itens_validos..].
  apply map_to_list_inj.
  by rewrite <-(merge_sort_Permutation Json.key_le (map_to_list d1)), E,
    merge_sort_Permutation.
Qed.

End JsonInj.

(** Sensitivity of the fingerprint: the JSON text that is hashed loses
    nothing of the snapshot.  Two readable catalogs whose table and column
    names are made of Unicode scalar values and whose fingerprints are
    equal have the same snapshot, unless MD5 collides on their two
    distinct serialisations. *)
Theorem gerar_hash_schema_sensivel (b1 b2 : Banco) (h1 h2 : pystr)
    (m1 m2 : Schema) (n1 n2 : pystr) :
  gerar_hash_schema b1 = Some (h1, m1, n1) →
  gerar_hash_schema b2 = Some (h2, m2, n2) →
  schema_valido m1 → schema_valido m2 →
  h1 = h2 →
  m1 = m2 ∨ colisao_md5 (Json.dumps m1) (Json.dumps m2).
Proof.
  intros G1 G2 V1 V2 Hh.
  apply gerar_hash_schema_digest in G1, G2.
  destruct (decide (Json.dumps m1 = Json.dumps m2)) as [E|N].
  - left. by apply JsonInj.dumps_inj.
  - right. split; [done|]. congruence.
Qed.

Lemma gerar_hash_schema_sensivel_witness :
  schema_X = schema_X
  ∨ colisao_md5 (Json.dumps schema_X) (Json.dumps schema_X).
Proof.
  apply (gerar_hash_schema_sensivel banco_A_X banco_B_X hash_X hash_X
           schema_X schema_X (py "A") (py "B")).
  - vm_compute. reflexivity.
  - vm_compute. reflexivity.
  - apply (bool_decide_unpack _). vm_compute. reflexivity.
  - apply (bool_decide_unpack _). vm_compute. reflexivity.
  - reflexivity.
Defined.

(** Without the restriction to scalar values the serialisation is not
    injective: a pair of lone surrogates is written like the character
    it would encode. *)
Example dumps_str_substitutos :
  Json.dumps_str [55357; 56832] = Json.dumps_str [128512].
Proof. vm_compute. reflexivity. Qed.
